(** * Intent-routed structured generation: the two route handlers

    A shallow embedding of

      - [src/app/api/stream-object/route.ts]          (module [StreamObject])
      - [src/app/api/generate-object-smart/route.ts]  (module [GenerateObjectSmart])

    then of the pages that call them and of the other routes of the
    repository

      - the stream-object page                        (module [StreamObjectPage])
      - [src/app/generate-object-smart/page.tsx]      (module [SmartPage])
      - [src/app/api/generate-object/route.ts]        (module [GenerateObjectRoute])
      - [src/app/api/stream-text/route.ts]            (module [StreamText])
      - [src/app/stream-text/page.tsx]                (module [StreamTextPage])
      - [src/app/api/generating-text/route.ts]        (module [GeneratingText])
      - the repository route                          (module [McpDemo])

    together with the pieces of the JavaScript platform the handlers lean
    on: [JSON.stringify], template-literal string conversion, [Response.json],
    the [ReadableStream] controller and [TextEncoder].

    Conventions of the model.
      - A JavaScript string is a [string]: its UTF-8 bytes.  Every byte at or
        above 0x80 is copied by [JSON.stringify] as it is, which is what the
        real function does to the characters those bytes belong to.
      - A JavaScript number is an integer [Z], printed in plain decimal
        (the integers JavaScript prints without an exponent).
      - A JavaScript object is its list of own properties in enumeration
        order; keys are assumed distinct, a lookup takes the first.
      - The generation backend (the [ai] SDK and the model behind it) is an
        oracle: a record of functions giving the outcome of each call.  The
        handlers run in a state-and-exception monad whose state records
        every backend call and console line, and the stream controller. *)

From Stdlib Require Import String Ascii List ZArith Bool Lia.
From Stdlib.Strings Require Import Byte.
From Stdlib Require Import DecimalString DecimalZ DecimalPos.
Import ListNotations.

Local Open Scope string_scope.
Local Open Scope list_scope.

(** ** JSON values *)

#[local] Set Warnings "-register-all".

Inductive json : Type :=
| JNull
| JBool (b : bool)
| JNum (n : Z)
| JStr (s : string)
| JArr (xs : list json)
| JObj (members : list (string * json)).

(** A JavaScript value that may be [undefined]. *)
Definition value := option json.
Definition undefined : value := None.

(** Property read [o.k] on an object's own-property list. *)
Fixpoint get_member (k : string) (ms : list (string * json)) : option json :=
  match ms with
  | [] => None
  | (k', v) :: rest => if (k' =? k)%string then Some v else get_member k rest
  end.

(** [v.k] for a JSON value that is not [null]: primitives and arrays have no
    such property. *)
Definition get_property (k : string) (v : json) : value :=
  match v with
  | JObj ms => get_member k ms
  | _ => undefined
  end.

Definition chars := list ascii.

Definition LF : ascii := "010"%char.
Definition DQ : ascii := "034"%char.
Definition newline : string := String LF EmptyString.

(** ** JSON.stringify and JSON.parse *)

Module JSON.

Definition hex_digit (n : nat) : ascii :=
  match n with
  | 0 => "0" | 1 => "1" | 2 => "2" | 3 => "3" | 4 => "4" | 5 => "5"
  | 6 => "6" | 7 => "7" | 8 => "8" | 9 => "9" | 10 => "a" | 11 => "b"
  | 12 => "c" | 13 => "d" | 14 => "e" | _ => "f"
  end%char.

(** QuoteJSONString, one character: the seven short escapes, [\u00xx] for
    the other control characters, everything else unchanged. *)
Definition quote_char (c : ascii) : chars :=
  (if c =? "008" then ["\"; "b"]
   else if c =? "009" then ["\"; "t"]
   else if c =? "010" then ["\"; "n"]
   else if c =? "012" then ["\"; "f"]
   else if c =? "013" then ["\"; "r"]
   else if c =? DQ then ["\"; DQ]
   else if c =? "\" then ["\"; "\"]
   else if Nat.ltb (nat_of_ascii c) 32
        then ["\"; "u"; "0"; "0";
              hex_digit (Nat.div (nat_of_ascii c) 16);
              hex_digit (Nat.modulo (nat_of_ascii c) 16)]
   else [c])%char.

Fixpoint quote_body (s : string) : chars :=
  match s with
  | EmptyString => []
  | String c rest => quote_char c ++ quote_body rest
  end.

Definition quote (s : string) : chars :=
  DQ :: quote_body s ++ [DQ].

(** Number::toString for an integer. *)
Definition number_to_string (n : Z) : string :=
  NilZero.string_of_int (Z.to_int n).

Fixpoint join_comma (parts : list chars) : chars :=
  match parts with
  | [] => []
  | p :: rest =>
      match rest with
      | [] => p
      | _ :: _ => p ++ ","%char :: join_comma rest
      end
  end.

(** SerializeJSONProperty with no replacer and no indentation. *)
Fixpoint stringify_chars (v : json) : chars :=
  match v with
  | JNull => list_ascii_of_string "null"
  | JBool true => list_ascii_of_string "true"
  | JBool false => list_ascii_of_string "false"
  | JNum n => list_ascii_of_string (number_to_string n)
  | JStr s => quote s
  | JArr xs => "["%char :: join_comma (map stringify_chars xs) ++ ["]"%char]
  | JObj ms =>
      "{"%char ::
      join_comma
        (map (fun kv => match kv with
                        | (k, x) => quote k ++ ":"%char :: stringify_chars x
                        end) ms)
      ++ ["}"%char]
  end.

Definition stringify (v : json) : string :=
  string_of_list_ascii (stringify_chars v).

(** The reader side.  [parse] accepts the compact JSON texts that
    [stringify] writes: no insignificant white space, integers in plain
    decimal without a leading zero, [\u] escapes for ASCII characters only.
    Every text it accepts is a JSON document. *)

Definition is_number_char (c : ascii) : bool :=
  ((Nat.leb 48 (nat_of_ascii c) && Nat.leb (nat_of_ascii c) 57) || (c =? "-"))%char.

Fixpoint span_number (cs : chars) : chars * chars :=
  match cs with
  | [] => ([], [])
  | c :: r =>
      if is_number_char c
      then let (tok, rest) := span_number r in (c :: tok, rest)
      else ([], cs)
  end.

Definition parse_number (cs : chars) : option (Z * chars) :=
  let (tok, rest) := span_number cs in
  match NilZero.int_of_string (string_of_list_ascii tok) with
  | Some d =>
      if (number_to_string (Z.of_int d) =? string_of_list_ascii tok)%string
      then Some (Z.of_int d, rest)
      else None
  | None => None
  end.

(** The value of a hexadecimal digit, in either case. *)
Definition hex_value (c : ascii) : option nat :=
  let n := nat_of_ascii c in
  if Nat.leb 48 n && Nat.leb n 57 then Some (n - 48)
  else if Nat.leb 97 n && Nat.leb n 102 then Some (n - 87)
  else if Nat.leb 65 n && Nat.leb n 70 then Some (n - 55)
  else None.

Definition unescape (e : ascii) : option ascii :=
  (if e =? DQ then Some DQ
   else if e =? "\" then Some "\"
   else if e =? "/" then Some "/"
   else if e =? "b" then Some "008"
   else if e =? "t" then Some "009"
   else if e =? "n" then Some "010"
   else if e =? "f" then Some "012"
   else if e =? "r" then Some "013"
   else None)%char.

Definition push (c : ascii) (r : option (string * chars)) : option (string * chars) :=
  match r with
  | Some (s, rest) => Some (String c s, rest)
  | None => None
  end.

(** The characters after an opening quote, up to and including the closing
    one. *)
Fixpoint parse_string_body (cs : chars) : option (string * chars) :=
  match cs with
  | [] => None
  | c :: r =>
      if (c =? DQ)%char then Some (EmptyString, r)
      else if (c =? "\")%char then
        match r with
        | [] => None
        | e :: r1 =>
            if (e =? "u")%char then
              match r1 with
              | a :: b :: x :: y :: r2 =>
                  if ((a =? "0") && (b =? "0"))%char then
                    match hex_value x, hex_value y with
                    | Some h, Some l =>
                        if Nat.ltb (16 * h + l) 128
                        then push (ascii_of_nat (16 * h + l))
                               (parse_string_body r2)
                        else None
                    | _, _ => None
                    end
                  else None
              | _ => None
              end
            else
              match unescape e with
              | Some d => push d (parse_string_body r1)
              | None => None
              end
        end
      else if Nat.ltb (nat_of_ascii c) 32 then None
      else push c (parse_string_body r)
  end.

Fixpoint expect (word : string) (cs : chars) : option chars :=
  match word with
  | EmptyString => Some cs
  | String w word' =>
      match cs with
      | c :: r => if (c =? w)%char then expect word' r else None
      | [] => None
      end
  end.

Fixpoint parse_value (fuel : nat) (cs : chars) {struct fuel}
  : option (json * chars) :=
  match fuel with
  | O => None
  | S fuel' =>
      match cs with
      | [] => None
      | c :: r =>
          if (c =? "n")%char then option_map (pair JNull) (expect "ull" r)
          else if (c =? "t")%char then option_map (pair (JBool true)) (expect "rue" r)
          else if (c =? "f")%char then option_map (pair (JBool false)) (expect "alse" r)
          else if (c =? DQ)%char then
            match parse_string_body r with
            | Some (s, r') => Some (JStr s, r')
            | None => None
            end
          else if (c =? "[")%char then
            match r with
            | [] => None
            | c' :: r' =>
                if (c' =? "]")%char then Some (JArr [], r')
                else match parse_elements fuel' r with
                     | Some (xs, r'') => Some (JArr xs, r'')
                     | None => None
                     end
            end
          else if (c =? "{")%char then
            match r with
            | [] => None
            | c' :: r' =>
                if (c' =? "}")%char then Some (JObj [], r')
                else match parse_members fuel' r with
                     | Some (ms, r'') => Some (JObj ms, r'')
                     | None => None
                     end
            end
          else
            match parse_number cs with
            | Some (n, r') => Some (JNum n, r')
            | None => None
            end
      end
  end

with parse_elements (fuel : nat) (cs : chars) {struct fuel}
  : option (list json * chars) :=
  match fuel with
  | O => None
  | S fuel' =>
      match parse_value fuel' cs with
      | Some (x, c :: r) =>
          if (c =? ",")%char then
            match parse_elements fuel' r with
            | Some (xs, r') => Some (x :: xs, r')
            | None => None
            end
          else if (c =? "]")%char then Some ([x], r)
          else None
      | _ => None
      end
  end

with parse_members (fuel : nat) (cs : chars) {struct fuel}
  : option (list (string * json) * chars) :=
  match fuel with
  | O => None
  | S fuel' =>
      match cs with
      | q :: r0 =>
          if (q =? DQ)%char then
            match parse_string_body r0 with
            | Some (k, colon :: r1) =>
                if (colon =? ":")%char then
                  match parse_value fuel' r1 with
                  | Some (x, c :: r) =>
                      if (c =? ",")%char then
                        match parse_members fuel' r with
                        | Some (ms, r') => Some ((k, x) :: ms, r')
                        | None => None
                        end
                      else if (c =? "}")%char then Some ([(k, x)], r)
                      else None
                  | _ => None
                  end
                else None
            | _ => None
            end
          else None
      | [] => None
      end
  end.

Definition parse (text : string) : option json :=
  let cs := list_ascii_of_string text in
  match parse_value (S (length cs)) cs with
  | Some (v, []) => Some v
  | _ => None
  end.

End JSON.

(** ** String conversion in template literals *)

Fixpoint join (sep : string) (parts : list string) : string :=
  match parts with
  | [] => ""
  | p :: rest =>
      match rest with
      | [] => p
      | _ :: _ => p ++ sep ++ join sep rest
      end
  end.

(** ToString on a parsed JSON value: what [`${v}`] interpolates. *)
Fixpoint to_string_json (v : json) : string :=
  match v with
  | JNull => "null"
  | JBool true => "true"
  | JBool false => "false"
  | JNum n => JSON.number_to_string n
  | JStr s => s
  | JArr xs =>
      join "," (map (fun x => match x with
                              | JNull => ""
                              | _ => to_string_json x
                              end) xs)
  | JObj _ => "[object Object]"
  end.

Definition to_string (v : value) : string :=
  match v with
  | None => "undefined"
  | Some j => to_string_json j
  end.

(** [intent === 'label'] *)
Definition strict_eq (v : json) (label : string) : bool :=
  match v with
  | JStr s => (s =? label)%string
  | _ => false
  end.

(** ** Schemas (zod) *)

Inductive zod : Type :=
| ZString
| ZNumber (min max : option Z)
| ZEnum (options : list string)
| ZArray (element : zod)
| ZObject (shape : list (string * zod))
| ZOptional (inner : zod).

(** ** The run-time: exceptions, console, backend calls, stream controller *)

(** A thrown value, identified by its message. *)
Definition exn := string.

Inductive outcome (A : Type) : Type :=
| Return (a : A)
| Throw (e : exn).
Arguments Return {A} a.
Arguments Throw {A} e.

(** The options object of a structured call: [{ model, schema, prompt }]. *)
Record object_options : Type := {
  model : string;
  schema : zod;
  prompt : value
}.

Inductive call : Type :=
| GenerateObjectEnum (model : string) (enum : list string) (prompt : string)
| GenerateObject (options : object_options)
| StreamObject (options : object_options)
| GenerateText (model : string) (prompt : value).

(** What [streamObject(...).partialObjectStream] yields when iterated: the
    objects in order, then either the end of the stream or a thrown error. *)
Record partial_object_stream : Type := {
  items : list json;
  failure : option exn
}.

(** The generation backend. *)
Record backend : Type := {
  generate_enum : string -> list string -> string -> outcome json;
  generate_object : object_options -> outcome json;
  stream_object : object_options -> outcome partial_object_stream;
  generate_text : string -> value -> outcome string
}.

Inductive console_line : Type :=
| ConsoleLog (label : string) (v : json)
| ConsoleError (label : string) (e : exn).

Inductive stream_state : Type :=
| Readable
| Closed
| Errored (e : exn).

(** A [ReadableStream] seen from its controller: every chunk enqueued so
    far, oldest first, and the state of the stream.  [chunks] is the history
    of what was enqueued; which of them a reader gets before an error
    signal is the reader's business and not modelled. *)
Record controller : Type := {
  chunks : list (list byte);
  state : stream_state
}.

Record world : Type := {
  backend_calls : list call;
  console : list console_line;
  stream : controller
}.

Definition fresh_stream : controller := {| chunks := []; state := Readable |}.

Definition initial_world : world :=
  {| backend_calls := []; console := []; stream := fresh_stream |}.

(** State and exceptions. *)
Definition M (A : Type) : Type := world -> outcome A * world.

Definition ret {A} (a : A) : M A := fun w => (Return a, w).

Definition throw {A} (e : exn) : M A := fun w => (Throw e, w).

Definition bind {A B} (c : M A) (k : A -> M B) : M B :=
  fun w =>
    match c w with
    | (Return a, w') => k a w'
    | (Throw e, w') => (Throw e, w')
    end.

(** [try { c } catch (error) { handler error }] *)
Definition try_catch {A} (c : M A) (handler : exn -> M A) : M A :=
  fun w =>
    match c w with
    | (Return a, w') => (Return a, w')
    | (Throw e, w') => handler e w'
    end.

Definition lift {A} (o : outcome A) : M A := fun w => (o, w).

Declare Scope monad_scope.
Delimit Scope monad_scope with monad.
Notation "x <- c ;; k" := (bind c (fun x => k))
  (at level 61, c at next level, right associativity) : monad_scope.
Notation "c ;; k" := (bind c (fun _ => k))
  (at level 61, right associativity) : monad_scope.
Local Open Scope monad_scope.

Definition record_call (c : call) : M unit :=
  fun w => (Return tt,
            {| backend_calls := backend_calls w ++ [c];
               console := console w;
               stream := stream w |}).

Definition console_log (label : string) (v : json) : M unit :=
  fun w => (Return tt,
            {| backend_calls := backend_calls w;
               console := console w ++ [ConsoleLog label v];
               stream := stream w |}).

Definition console_error (label : string) (e : exn) : M unit :=
  fun w => (Return tt,
            {| backend_calls := backend_calls w;
               console := console w ++ [ConsoleError label e];
               stream := stream w |}).

Definition set_stream (c : controller) : M unit :=
  fun w => (Return tt,
            {| backend_calls := backend_calls w;
               console := console w;
               stream := c |}).

Definition get_stream : M controller := fun w => (Return (stream w), w).

(** *** Backend calls as the handlers make them *)

Definition generateObject_enum (B : backend) (m : string) (enum : list string)
    (p : string) : M json :=
  record_call (GenerateObjectEnum m enum p) ;;
  lift (generate_enum B m enum p).

Definition generateObject (B : backend) (o : object_options) : M json :=
  record_call (GenerateObject o) ;;
  lift (generate_object B o).

Definition streamObject (B : backend) (o : object_options)
  : M partial_object_stream :=
  record_call (StreamObject o) ;;
  lift (stream_object B o).

Definition generateText (B : backend) (m : string) (p : value) : M string :=
  record_call (GenerateText m p) ;;
  lift (generate_text B m p).

(** [for await (const x of s) body] *)
Fixpoint for_await_items (xs : list json) (failure : option exn)
    (body : json -> M unit) : M unit :=
  match xs with
  | [] =>
      match failure with
      | None => ret tt
      | Some e => throw e
      end
  | x :: rest => body x ;; for_await_items rest failure body
  end.

Definition for_await (s : partial_object_stream) (body : json -> M unit)
  : M unit :=
  for_await_items (items s) (failure s) body.

(** *** ReadableStreamDefaultController *)

Definition type_error (what : string) : exn := ("TypeError: " ++ what)%string.

Definition controller_enqueue (chunk : list byte) : M unit :=
  c <- get_stream ;;
  match state c with
  | Readable => set_stream {| chunks := chunks c ++ [chunk]; state := Readable |}
  | _ => throw (type_error "Invalid state: Controller is already closed")
  end.

Definition controller_close : M unit :=
  c <- get_stream ;;
  match state c with
  | Readable => set_stream {| chunks := chunks c; state := Closed |}
  | _ => throw (type_error "Invalid state: Controller is already closed")
  end.

(** [controller.error(e)] is a no-op once the stream is closed or errored. *)
Definition controller_error (e : exn) : M unit :=
  c <- get_stream ;;
  match state c with
  | Readable => set_stream {| chunks := chunks c; state := Errored e |}
  | _ => ret tt
  end.

(** [new ReadableStream({ start })]: the controller is created, [start] runs
    against it, and the stream is what the controller then holds. *)
Definition new_ReadableStream (start : M unit) : M controller :=
  set_stream fresh_stream ;;
  start ;;
  get_stream.

(** [new TextEncoder().encode] *)
Definition encode (text : string) : list byte := list_byte_of_string text.

(** [new TextDecoder().decode] *)
Definition decode (bytes : list byte) : string := string_of_list_byte bytes.

(** *** Request and Response *)

(** A request, as far as the handlers look at it: what [await req.json()]
    gives. *)
Record request : Type := {
  json_body : outcome json
}.

Inductive response_body : Type :=
| TextBody (text : string)
| StreamBody (s : controller).

Record response : Type := {
  status : Z;
  headers : list (string * string);
  body : response_body
}.

(** [Response.json(data, { status })] *)
Definition Response_json (data : json) (st : Z) : response :=
  {| status := st;
     headers := [("content-type", "application/json")];
     body := TextBody (JSON.stringify data) |}.

(** [new Response(stream, { headers })] *)
Definition Response_stream (s : controller) (hs : list (string * string))
  : response :=
  {| status := 200; headers := hs; body := StreamBody s |}.

(** Destructuring [{ prompt }] out of the parsed body: [null] cannot be
    destructured, anything else gives its [prompt] property or [undefined]. *)
Definition destructure_prompt (parsed : json) : outcome value :=
  match parsed with
  | JNull => Throw (type_error "Cannot destructure property 'prompt' of null")
  | _ => Return (get_property "prompt" parsed)
  end.

(** [const { prompt } = await req.json()] *)
Definition read_prompt (req : request) : M value :=
  parsed <- lift (json_body req) ;;
  lift (destructure_prompt parsed).

Definition gemini : string := "gemini-2.5-flash".

Definition google (model_id : string) : string := model_id.

(** ** src/app/api/stream-object/route.ts *)

Module StreamObject.

Definition maxDuration : Z := 30.

(** The [enum] handed to the classifier. *)
Definition labels : list string := ["recipe"; "person"; "product"; "story"].

(** The classifier's template literal, line by line. *)
Definition classifier_prompt (prompt : value) : string :=
  join newline
    [("Classify what the user is asking for: "
        ++ String DQ (to_string prompt) ++ String DQ "")%string;
     "      ";
     "      - recipe: User wants a recipe or cooking instructions";
     "      - person: User is asking about a person";
     "      - product: User wants product information";
     "      - story: User wants a creative story"].

Definition recipe_schema : zod :=
  ZObject
    [("recipe",
      ZObject
        [("name", ZString);
         ("cuisine", ZString);
         ("difficulty", ZEnum ["easy"; "medium"; "hard"]);
         ("prepTime", ZString);
         ("cookTime", ZString);
         ("servings", ZNumber None None);
         ("ingredients",
          ZArray (ZObject [("name", ZString); ("amount", ZString);
                           ("unit", ZString)]));
         ("steps", ZArray ZString);
         ("tags", ZArray ZString)])].

Definition person_schema : zod :=
  ZObject
    [("person",
      ZObject
        [("name", ZString);
         ("profession", ZString);
         ("nationality", ZString);
         ("birthYear", ZOptional (ZNumber None None));
         ("knownFor", ZArray ZString);
         ("achievements", ZArray ZString);
         ("biography", ZString);
         ("funFacts", ZArray ZString)])].

Definition product_schema : zod :=
  ZObject
    [("product",
      ZObject
        [("name", ZString);
         ("category", ZString);
         ("price", ZNumber None None);
         ("description", ZString);
         ("features", ZArray ZString);
         ("pros", ZArray ZString);
         ("cons", ZArray ZString);
         ("rating", ZNumber (Some 1%Z) (Some 5%Z))])].

Definition story_schema : zod :=
  ZObject
    [("story",
      ZObject
        [("title", ZString);
         ("genre", ZString);
         ("setting", ZString);
         ("characters",
          ZArray (ZObject [("name", ZString); ("role", ZString);
                           ("description", ZString)]));
         ("plot", ZString);
         ("twist", ZString);
         ("moralLesson", ZOptional ZString)])].

(** [switch (intent)]: each [case] builds the options of its one
    [streamObject] call; [None] is the [default:] branch. *)
Definition switch_intent (intent : json) (prompt : value)
  : option object_options :=
  if strict_eq intent "recipe" then
    Some {| model := google gemini; schema := recipe_schema;
            prompt := prompt |}
  else if strict_eq intent "person" then
    Some {| model := google gemini; schema := person_schema;
            prompt := Some (JStr ("Provide detailed information about: "
                                  ++ to_string prompt)) |}
  else if strict_eq intent "product" then
    Some {| model := google gemini; schema := product_schema;
            prompt := Some (JStr ("Generate detailed product information for: "
                                  ++ to_string prompt)) |}
  else if strict_eq intent "story" then
    Some {| model := google gemini; schema := story_schema;
            prompt := Some (JStr ("Write a creative story about: "
                                  ++ to_string prompt)) |}
  else None.

Definition intent_frame (intent : json) : json :=
  JObj [("type", JStr "intent"); ("intent", intent)].

Definition partial_frame (partialObject : json) : json :=
  JObj [("type", JStr "partial"); ("data", partialObject)].

Definition complete_frame : json := JObj [("type", JStr "complete")].

(** The body of the loop over [result.partialObjectStream]. *)
Definition relay (partialObject : json) : M unit :=
  let data := JSON.stringify (partial_frame partialObject) in
  controller_enqueue (encode (data ++ newline)).

(** [async start(controller) { try { ... } catch (error) { ... } }] *)
Definition start (intent : json) (result : partial_object_stream) : M unit :=
  try_catch
    (controller_enqueue
       (encode (JSON.stringify (intent_frame intent) ++ newline)) ;;
     for_await result relay ;;
     controller_enqueue (encode (JSON.stringify complete_frame ++ newline)) ;;
     controller_close)
    (fun error =>
       console_error "Streaming error:" error ;;
       controller_error error).

Definition stream_headers : list (string * string) :=
  [("Content-Type", "text/event-stream");
   ("Cache-Control", "no-cache");
   ("Connection", "keep-alive")].

(** Step 1 of the handler: one enum-constrained [generateObject] call. *)
Definition detect_intent (B : backend) (prompt : value) : M json :=
  intentDetection <-
    generateObject_enum B (google gemini) labels (classifier_prompt prompt) ;;
  ret intentDetection.

Definition POST (B : backend) (req : request) : M response :=
  try_catch
    (prompt <- read_prompt req ;;
     intent <- detect_intent B prompt ;;
     console_log "Detected intent:" intent ;;
     match switch_intent intent prompt with
     | Some options =>
         result <- streamObject B options ;;
         stream <- new_ReadableStream (start intent result) ;;
         ret (Response_stream stream stream_headers)
     | None =>
         ret (Response_json (JObj [("error", JStr "Unknown intent")]) 400)
     end)
    (fun error =>
       console_error "Error:" error ;;
       ret (Response_json (JObj [("error", JStr "Failed to stream object")])
              500)).

End StreamObject.

(** ** src/app/api/generate-object-smart/route.ts *)

Module GenerateObjectSmart.

Definition maxDuration : Z := 30.

Definition labels : list string :=
  ["recipe"; "person"; "general-question"; "product"].

Definition classifier_prompt (prompt : value) : string :=
  join newline
    [("Classify what the user is asking for: "
        ++ String DQ (to_string prompt) ++ String DQ "")%string;
     "      ";
     "      - recipe: User wants a recipe or cooking instructions";
     "      - person: User is asking about a person";
     "      - general-question: User is asking a general knowledge question";
     "      - product: User wants product information"].

Definition recipe_schema : zod := StreamObject.recipe_schema.

Definition person_schema : zod := StreamObject.person_schema.

Definition product_schema : zod :=
  ZObject
    [("product",
      ZObject
        [("name", ZString);
         ("category", ZString);
         ("price", ZNumber None None);
         ("description", ZString);
         ("features", ZArray ZString);
         ("pros", ZArray ZString);
         ("cons", ZArray ZString)])].

(** [Response.json({ type, data })] *)
Definition typed_response (type : string) (data : json) : response :=
  Response_json (JObj [("type", JStr type); ("data", data)]) 200.

Definition detect_intent (B : backend) (prompt : value) : M json :=
  intentDetection <-
    generateObject_enum B (google gemini) labels (classifier_prompt prompt) ;;
  ret intentDetection.

Definition POST (B : backend) (req : request) : M response :=
  try_catch
    (prompt <- read_prompt req ;;
     intent <- detect_intent B prompt ;;
     console_log "Detected intent:" intent ;;
     if strict_eq intent "recipe" then
       object <- generateObject B
                   {| model := google gemini; schema := recipe_schema;
                      prompt := prompt |} ;;
       ret (typed_response "recipe" object)
     else if strict_eq intent "person" then
       object <- generateObject B
                   {| model := google gemini; schema := person_schema;
                      prompt := Some (JStr ("Provide structured information about: "
                                            ++ to_string prompt)) |} ;;
       ret (typed_response "person" object)
     else if strict_eq intent "general-question" then
       text <- generateText B (google gemini) prompt ;;
       ret (typed_response "general-question" (JObj [("answer", JStr text)]))
     else if strict_eq intent "product" then
       object <- generateObject B
                   {| model := google gemini; schema := product_schema;
                      prompt := Some (JStr ("Generate product information for: "
                                            ++ to_string prompt)) |} ;;
       ret (typed_response "product" object)
     else
       ret (Response_json (JObj [("error", JStr "Could not determine intent")])
              400))
    (fun error =>
       console_error "Error:" error ;;
       ret (Response_json (JObj [("error", JStr "Failed to generate response")])
              500)).

End GenerateObjectSmart.

(** ** Reading the responses back *)

(** The characters before the first line feed, and those after it. *)
Fixpoint split_line (cs : chars) : option (chars * chars) :=
  match cs with
  | [] => None
  | c :: r =>
      if (c =? LF)%char then Some ([], r)
      else match split_line r with
           | Some (line, rest) => Some (c :: line, rest)
           | None => None
           end
  end.

(** A chunk read as one frame: one line, ended by the only line feed of the
    chunk, holding one JSON document. *)
Definition read_frame (chunk : list byte) : option json :=
  match split_line (list_ascii_of_string (decode chunk)) with
  | Some (line, []) => JSON.parse (string_of_list_ascii line)
  | _ => None
  end.

Definition type_of (frame : json) : option string :=
  match get_property "type" frame with
  | Some (JStr t) => Some t
  | _ => None
  end.

Definition frame_type (chunk : list byte) : option string :=
  match read_frame chunk with
  | Some frame => type_of frame
  | None => None
  end.


(** The JSON document of a non-streamed response body. *)
Definition json_of_body (b : response_body) : option json :=
  match b with
  | TextBody text => JSON.parse text
  | StreamBody _ => None
  end.

Definition run {A} (c : M A) : outcome A * world := c initial_world.

(** ** Vocabulary of the properties *)

(** The chunk that carries one frame. *)
Definition frame_chunk (frame : json) : list byte :=
  encode (JSON.stringify frame ++ newline).

(** A value is one of the labels of a list. *)
Definition is_label (labels : list string) (v : json) : Prop :=
  exists l, v = JStr l /\ In l labels.

Definition is_classification (c : call) : bool :=
  match c with
  | GenerateObjectEnum _ _ _ => true
  | _ => false
  end.

(** A call that hands a schema to the backend. *)
Definition schema_of_call (c : call) : option zod :=
  match c with
  | GenerateObject o => Some (schema o)
  | StreamObject o => Some (schema o)
  | _ => None
  end.

(** The object a chunk carries if it is a [partial] frame. *)
Definition payload (chunk : list byte) : list json :=
  match read_frame chunk with
  | Some frame =>
      match type_of frame, get_property "data" frame with
      | Some t, Some data => if (t =? "partial")%string then [data] else []
      | _, _ => []
      end
  | None => []
  end.

(** The objects carried by the [partial] frames of a stream, in order. *)
Definition partial_payloads (s : controller) : list json :=
  flat_map payload (chunks s).

(** Monotonic refinement of one snapshot by the next: every field that is
    populated stays populated, scalars keep their value, arrays keep their
    elements in place (each possibly refined) and may only grow. *)
Fixpoint refines (earlier later : json) {struct earlier} : bool :=
  match earlier, later with
  | JNull, JNull => true
  | JBool a, JBool b => Bool.eqb a b
  | JNum a, JNum b => Z.eqb a b
  | JStr a, JStr b => String.eqb a b
  | JArr xs, JArr ys =>
      (fix elements (l l' : list json) {struct l} : bool :=
         match l, l' with
         | [], _ => true
         | _ :: _, [] => false
         | x :: r, y :: r' => refines x y && elements r r'
         end) xs ys
  | JObj ms, JObj ms' =>
      forallb (fun kv => match kv with
                         | (k, x) =>
                             match get_member k ms' with
                             | Some y => refines x y
                             | None => false
                             end
                         end) ms
  | _, _ => false
  end.

Fixpoint refining_sequence (snapshots : list json) : bool :=
  match snapshots with
  | a :: rest =>
      match rest with
      | b :: _ => refines a b && refining_sequence rest
      | [] => true
      end
  | [] => true
  end.

(** A value passes a schema: what zod's [safeParse] accepts, for the
    schema constructors of the routes.  An object may carry keys that the
    shape does not name; a key of the shape may be missing only when its
    schema is optional. *)
Fixpoint satisfies (z : zod) (v : json) {struct z} : bool :=
  match z with
  | ZString =>
      match v with
      | JStr _ => true
      | _ => false
      end
  | ZNumber min max =>
      match v with
      | JNum n =>
          match min with
          | Some lowest => (lowest <=? n)%Z
          | None => true
          end
          && match max with
             | Some highest => (n <=? highest)%Z
             | None => true
             end
      | _ => false
      end
  | ZEnum options =>
      match v with
      | JStr s => existsb (String.eqb s) options
      | _ => false
      end
  | ZArray element =>
      match v with
      | JArr xs => forallb (satisfies element) xs
      | _ => false
      end
  | ZObject shape =>
      match v with
      | JObj ms =>
          (fix fields (sh : list (string * zod)) : bool :=
             match sh with
             | [] => true
             | (k, zk) :: rest =>
                 match get_member k ms with
                 | Some x => satisfies zk x
                 | None =>
                     match zk with
                     | ZOptional _ => true
                     | _ => false
                     end
                 end
                 && fields rest
             end) shape
      | _ => false
      end
  | ZOptional inner => satisfies inner v
  end.


(** The first backend call of each handler. *)
Definition stream_classification (prompt : value) : call :=
  GenerateObjectEnum (google gemini) StreamObject.labels
    (StreamObject.classifier_prompt prompt).

Definition smart_classification (prompt : value) : call :=
  GenerateObjectEnum (google gemini) GenerateObjectSmart.labels
    (GenerateObjectSmart.classifier_prompt prompt).

(** The error responses of the two handlers. *)
Definition stream_failed : response :=
  Response_json (JObj [("error", JStr "Failed to stream object")]) 500.

Definition stream_unknown : response :=
  Response_json (JObj [("error", JStr "Unknown intent")]) 400.

Definition smart_failed : response :=
  Response_json (JObj [("error", JStr "Failed to generate response")]) 500.

Definition smart_unknown : response :=
  Response_json (JObj [("error", JStr "Could not determine intent")]) 400.

(** The backend returned from a call, rather than throwing. *)
Definition answered (B : backend) (c : call) : Prop :=
  match c with
  | GenerateObjectEnum m e p => exists v, generate_enum B m e p = Return v
  | GenerateObject o => exists v, generate_object B o = Return v
  | StreamObject o => exists s, stream_object B o = Return s
  | GenerateText m p => exists t, generate_text B m p = Return t
  end.


Definition error_shape (r : response) : Prop :=
  (status r = 400%Z \/ status r = 500%Z) /\
  exists msg, json_of_body (body r) = Some (JObj [("error", JStr msg)]).

(** The stream that relaying [result] under [intent] leaves behind: the
    intent frame, one partial frame per object, and the [complete] frame
    and a close when the generator ended, or the error signal when it
    threw. *)
Definition relayed (intent : json) (result : partial_object_stream)
  : controller :=
  {| chunks :=
       frame_chunk (StreamObject.intent_frame intent)
       :: map (fun o => frame_chunk (StreamObject.partial_frame o))
            (items result)
       ++ match failure result with
          | None => [frame_chunk StreamObject.complete_frame]
          | Some _ => []
          end;
     state :=
       match failure result with
       | None => Closed
       | Some e => Errored e
       end |}.

(** The stream of a streamed response, if the handler gave one. *)
Definition response_stream (o : outcome response) : option controller :=
  match o with
  | Return r =>
      match body r with
      | StreamBody s => Some s
      | TextBody _ => None
      end
  | Throw _ => None
  end.

Definition response_status (o : outcome response) : option Z :=
  match o with
  | Return r => Some (status r)
  | Throw _ => None
  end.

(** The opening line of both classifier prompts, around the interpolated
    text. *)
Definition classifier_first_line (shown : string) : string :=
  ("Classify what the user is asking for: "
     ++ String DQ (shown ++ String DQ ""))%string.

(** ** Sample requests and backends *)

Module Samples.

Definition curry_prompt : string := "Generate a spicy Thai curry recipe".

Definition curry_request : request :=
  {| json_body := Return (JObj [("prompt", JStr curry_prompt)]) |}.

(** A body with no [prompt] field. *)
Definition promptless_request : request :=
  {| json_body := Return (JObj [("topic", JStr "curry")]) |}.

(** Snapshots as the SDK builds them: first the name, then an ingredient. *)
Definition curry_partials : list json :=
  [JObj [("recipe", JObj [("name", JStr "Green curry")])];
   JObj [("recipe", JObj [("name", JStr "Green curry");
                          ("ingredients", JArr [])])];
   JObj [("recipe", JObj [("name", JStr "Green curry");
                          ("ingredients",
                           JArr [JObj [("name", JStr "coconut milk")]])])]].


Definition curry_object : json :=
  JObj [("recipe", JObj [("name", JStr "Green curry")])].

(** A backend that classifies everything as [label] and answers every
    generation call the same way. *)
Definition steady_backend (label : json) (result : partial_object_stream)
  : backend :=
  {| generate_enum := fun _ _ _ => Return label;
     generate_object := fun _ => Return curry_object;
     stream_object := fun _ => Return result;
     generate_text := fun _ _ => Return "Bangkok" |}.

(** A backend whose every call throws. *)
Definition refusing_backend : backend :=
  {| generate_enum := fun _ _ _ => Throw "model overloaded";
     generate_object := fun _ => Throw "model overloaded";
     stream_object := fun _ => Throw "model overloaded";
     generate_text := fun _ _ => Throw "model overloaded" |}.

(** The body [{ "prompt": "" }]. *)
Definition empty_prompt_request : request :=
  {| json_body := Return (JObj [("prompt", JStr "")]) |}.


End Samples.

(** ** Auxiliary notions for the proofs about JSON texts *)

Module JSONFacts.
Import JSON.

Definition number_chars (cs : chars) : Prop :=
  Forall (fun c => is_number_char c = true) cs.

(** What may follow a number: not something that would extend it. *)
Definition ends_number (rest : chars) : Prop :=
  match rest with
  | [] => True
  | c :: _ => is_number_char c = false
  end.

(** No raw line feed among the characters. *)
Definition one_line (cs : chars) : Prop :=
  Forall (fun c => (c =? LF)%char = false) cs.

Fixpoint size (v : json) : nat :=
  match v with
  | JArr xs => S (fold_right (fun x acc => S (size x + acc)) 0 xs)
  | JObj ms =>
      S (fold_right (fun kv acc => match kv with
                                   | (_, x) => S (size x + acc)
                                   end) 0 ms)
  | _ => 1
  end.

Definition elements_size (xs : list json) : nat :=
  fold_right (fun x acc => S (size x + acc)) 0 xs.

Definition members_size (ms : list (string * json)) : nat :=
  fold_right (fun kv acc => match kv with
                            | (_, x) => S (size x + acc)
                            end) 0 ms.

(** [stringify] followed by [parse] gives the value back, whatever follows
    the text, as long as it cannot be read as more digits. *)
Definition reads_back (v : json) : Prop :=
  forall fuel rest,
    size v <= fuel -> ends_number rest ->
    parse_value fuel (stringify_chars v ++ rest) = Some (v, rest).

Section JsonInduction.
Variable P : json -> Prop.
Hypothesis Hnull : P JNull.
Hypothesis Hbool : forall b, P (JBool b).
Hypothesis Hnum : forall n, P (JNum n).
Hypothesis Hstr : forall s, P (JStr s).
Hypothesis Harr : forall xs, Forall P xs -> P (JArr xs).
Hypothesis Hobj : forall ms, Forall (fun kv => P (snd kv)) ms -> P (JObj ms).

Fixpoint json_nested_ind (v : json) : P v :=
  match v with
  | JNull => Hnull
  | JBool b => Hbool b
  | JNum n => Hnum n
  | JStr s => Hstr s
  | JArr xs =>
      Harr xs ((fix all (l : list json) : Forall P l :=
                  match l with
                  | [] => Forall_nil _
                  | x :: r => Forall_cons _ (json_nested_ind x) (all r)
                  end) xs)
  | JObj ms =>
      Hobj ms ((fix all (l : list (string * json))
                  : Forall (fun kv => P (snd kv)) l :=
                  match l with
                  | [] => Forall_nil _
                  | kv :: r => Forall_cons _ (json_nested_ind (snd kv)) (all r)
                  end) ms)
  end.
End JsonInduction.

End JSONFacts.

(** ** The pages that call the routes *)

(** *** String.prototype.trim and String.prototype.split *)

(** The number of bytes of the white space or line terminator code point
    at the head of a UTF-8 text, 0 when there is none: TAB, LF, VT, FF, CR,
    SP, U+00A0, U+1680, U+2000 to U+200A, U+2028, U+2029, U+202F, U+205F,
    U+3000 and U+FEFF. *)
Definition space_width (cs : chars) : nat :=
  match map N_of_ascii (firstn 3 cs) with
  | (9 | 10 | 11 | 12 | 13 | 32)%N :: _ => 1
  | 194%N :: 160%N :: _ => 2
  | 225%N :: 154%N :: 128%N :: _ => 3
  | 226%N :: 128%N :: c :: _ =>
      if ((128 <=? c) && (c <=? 138) || (c =? 168) || (c =? 169)
          || (c =? 175))%N
      then 3 else 0
  | 226%N :: 129%N :: 159%N :: _ => 3
  | 227%N :: 128%N :: 128%N :: _ => 3
  | 239%N :: 187%N :: 191%N :: _ => 3
  | _ => 0
  end.

Fixpoint all_space (fuel : nat) (cs : chars) : bool :=
  match cs with
  | [] => true
  | _ :: _ =>
      match fuel with
      | O => false
      | S fuel' =>
          match space_width cs with
          | O => false
          | S w => all_space fuel' (skipn (S w) cs)
          end
      end
  end.

(** [!s.trim()]: nothing is left of [s] once its white space is trimmed. *)
Definition trims_to_empty (s : string) : bool :=
  all_space (String.length s) (list_ascii_of_string s).

(** [text.split('\n')]: the pieces between line feeds, at least one. *)
Fixpoint split_newline (cs : chars) : list chars :=
  match cs with
  | [] => [[]]
  | c :: r =>
      if (c =? LF)%char then [] :: split_newline r
      else match split_newline r with
           | piece :: pieces => (c :: piece) :: pieces
           | [] => [[c]]
           end
  end.

(** The lines of a text that a line feed ends, and what follows the last
    line feed. *)
Definition complete_lines (cs : chars) : list chars :=
  removelast (split_newline cs).

Definition residue (cs : chars) : chars := last (split_newline cs) [].

(** [response.ok] *)
Definition ok_status (st : Z) : bool := ((200 <=? st) && (st <=? 299))%Z.

(** *** What a page keeps besides its React state *)

(** A call of [fetch(url, { method, headers, body })]. *)
Record fetch_call : Type := {
  url : string;
  method : string;
  request_headers : list (string * string);
  request_body : string
}.

Inductive read_end : Type :=
| Done
| ReadFails (e : exn).

(** What the successive [reader.read()] calls give: the chunks, then the
    end of the stream or a rejection. *)
Record body_reader : Type := {
  delivered : list (list byte);
  ending : read_end
}.

(** The answer to a [fetch]: a rejection, or a response with its [ok] flag
    and its body, [None] for a response without one. *)
Inductive fetch_result : Type :=
| FetchRejects (e : exn)
| FetchResponse (ok : bool) (response_body : option body_reader).

(** State and exceptions, for the handlers of a page with state [S]. *)
Definition PM (S A : Type) : Type := S -> outcome A * S.

Definition pret {S A} (a : A) : PM S A := fun s => (Return a, s).

Definition pthrow {S A} (e : exn) : PM S A := fun s => (Throw e, s).

Definition pbind {S A B} (c : PM S A) (k : A -> PM S B) : PM S B :=
  fun s =>
    match c s with
    | (Return a, s') => k a s'
    | (Throw e, s') => (Throw e, s')
    end.

Definition pcatch {S A} (c : PM S A) (handler : exn -> PM S A) : PM S A :=
  fun s =>
    match c s with
    | (Return a, s') => (Return a, s')
    | (Throw e, s') => handler e s'
    end.

(** [try { c } finally { last }] *)
Definition pfinally {S A} (c : PM S A) (last : PM S unit) : PM S A :=
  fun s =>
    match c s with
    | (o, s') =>
        match last s' with
        | (Return _, s'') => (o, s'')
        | (Throw e, s'') => (Throw e, s'')
        end
    end.

Declare Scope page_scope.
Delimit Scope page_scope with page.
Notation "x <- c ;; k" := (pbind c (fun x => k))
  (at level 61, c at next level, right associativity) : page_scope.
Notation "c ;; k" := (pbind c (fun _ => k))
  (at level 61, right associativity) : page_scope.

(** [for (const x of xs) body] *)
Fixpoint for_of {S A} (xs : list A) (body : A -> PM S unit) : PM S unit :=
  match xs with
  | [] => pret tt
  | x :: rest => pbind (body x) (fun _ => for_of rest body)
  end.

(** [a === 'text'] for a value that may be [undefined]. *)
Definition value_is (v : value) (text : string) : bool :=
  match v with
  | Some j => strict_eq j text
  | None => false
  end.

Definition null : value := Some JNull.

(** ** The stream-object page *)

Module StreamObjectPage.

Record page_state : Type := {
  prompt : string;
  detectedIntent : value;
  partialObject : value;
  isStreaming : bool;
  isComplete : bool
}.

Record page_world : Type := {
  page : page_state;
  page_console : list console_line;
  fetches : list fetch_call
}.

Definition initial_page : page_state :=
  {| prompt := ""; detectedIntent := null; partialObject := null;
     isStreaming := false; isComplete := false |}.

Definition update (f : page_state -> page_state) : PM page_world unit :=
  fun w => (Return tt,
            {| page := f (page w);
               page_console := page_console w;
               fetches := fetches w |}).

Definition setDetectedIntent (v : value) : PM page_world unit :=
  update (fun p => {| prompt := prompt p; detectedIntent := v;
                      partialObject := partialObject p;
                      isStreaming := isStreaming p;
                      isComplete := isComplete p |}).

Definition setPartialObject (v : value) : PM page_world unit :=
  update (fun p => {| prompt := prompt p; detectedIntent := detectedIntent p;
                      partialObject := v;
                      isStreaming := isStreaming p;
                      isComplete := isComplete p |}).

Definition setIsStreaming (b : bool) : PM page_world unit :=
  update (fun p => {| prompt := prompt p; detectedIntent := detectedIntent p;
                      partialObject := partialObject p;
                      isStreaming := b;
                      isComplete := isComplete p |}).

Definition setIsComplete (b : bool) : PM page_world unit :=
  update (fun p => {| prompt := prompt p; detectedIntent := detectedIntent p;
                      partialObject := partialObject p;
                      isStreaming := isStreaming p;
                      isComplete := b |}).

Definition page_error (label : string) (e : exn) : PM page_world unit :=
  fun w => (Return tt,
            {| page := page w;
               page_console := page_console w ++ [ConsoleError label e];
               fetches := fetches w |}).

Section Handler.

(** [JSON.parse], which throws on a text that is no JSON document. *)
Variable JSON_parse : string -> outcome json.

(** The network: what a [fetch] is answered with. *)
Variable network : fetch_call -> fetch_result.

Definition fetch (c : fetch_call) : PM page_world fetch_result :=
  fun w => (Return (network c),
            {| page := page w;
               page_console := page_console w;
               fetches := fetches w ++ [c] |}).

(** The branches on [event.type].  Reading [event.type] off [null] throws. *)
Definition dispatch (event : json) : PM page_world unit :=
  match event with
  | JNull =>
      pthrow (type_error "Cannot read properties of null (reading 'type')")
  | _ =>
      if value_is (get_property "type" event) "intent" then
        setDetectedIntent (get_property "intent" event)
      else if value_is (get_property "type" event) "partial" then
        setPartialObject (get_property "data" event)
      else if value_is (get_property "type" event) "complete" then
        setIsComplete true
      else pret tt
  end.

(** The body of [for (const line of lines)]. *)
Definition handle_line (line : chars) : PM page_world unit :=
  if trims_to_empty (string_of_list_ascii line) then pret tt
  else
    pcatch
      (event <- (fun w => (JSON_parse (string_of_list_ascii line), w)) ;;
       dispatch event)%page
      (fun error => page_error "Failed to parse event:" error).

(** [while (true) { const { done, value } = await reader.read(); ... }] *)
Fixpoint read_all (values : list (list byte)) (last : read_end)
    (buffer : chars) : PM page_world unit :=
  match values with
  | [] =>
      match last with
      | Done => pret tt
      | ReadFails e => pthrow e
      end
  | value :: rest =>
      let buffered := buffer ++ list_ascii_of_string (decode value) in
      let lines := split_newline buffered in
      (for_of (removelast lines) handle_line ;;
       read_all rest last (List.last lines []))%page
  end.

Definition submission : page_state -> fetch_call :=
  fun p =>
    {| url := "/api/stream-object";
       method := "POST";
       request_headers := [("Content-Type", "application/json")];
       request_body := JSON.stringify (JObj [("prompt", JStr (prompt p))]) |}.

Definition handleSubmit : PM page_world unit :=
  fun w =>
    let p := page w in
    if trims_to_empty (prompt p) || isStreaming p then (Return tt, w)
    else
      (setDetectedIntent null ;;
       setPartialObject null ;;
       setIsStreaming true ;;
       setIsComplete false ;;
       pfinally
         (pcatch
            (response <- fetch (submission p) ;;
             match response with
             | FetchRejects e => pthrow e
             | FetchResponse false _ => pthrow "Error: Stream failed"
             | FetchResponse true None => pthrow "Error: No reader available"
             | FetchResponse true (Some reader) =>
                 read_all (delivered reader) (ending reader) []
             end)
            (fun error =>
               page_error "Streaming error:" error ;;
               setPartialObject
                 (Some (JObj [("error", JStr "Failed to stream object")]))))
         (setIsStreaming false))%page w.

(** Reading a text line by line, all at once. *)
Definition read_text (text : chars) (last : read_end) : PM page_world unit :=
  (for_of (complete_lines text) handle_line ;;
   match last with
   | Done => pret tt
   | ReadFails e => pthrow e
   end)%page.

End Handler.

(** The page once a submit went through its guard: the states are reset
    and the request is on record. *)
Definition submitted (w : page_world) : page_world :=
  {| page := {| prompt := prompt (page w); detectedIntent := null;
                partialObject := null; isStreaming := true;
                isComplete := false |};
     page_console := page_console w;
     fetches := fetches w ++ [submission (page w)] |}.

(** How a submit ends, from the outcome of its [try] block. *)
Definition settle (r : outcome unit * page_world) : outcome unit * page_world :=
  match r with
  | (Return _, w) =>
      (Return tt,
       {| page := {| prompt := prompt (page w);
                     detectedIntent := detectedIntent (page w);
                     partialObject := partialObject (page w);
                     isStreaming := false;
                     isComplete := isComplete (page w) |};
          page_console := page_console w;
          fetches := fetches w |})
  | (Throw e, w) =>
      (Return tt,
       {| page := {| prompt := prompt (page w);
                     detectedIntent := detectedIntent (page w);
                     partialObject :=
                       Some (JObj [("error", JStr "Failed to stream object")]);
                     isStreaming := false;
                     isComplete := isComplete (page w) |};
          page_console := page_console w ++ [ConsoleError "Streaming error:" e];
          fetches := fetches w |})
  end.

End StreamObjectPage.

(** The frames of a relayed stream, and the text of a list of frames. *)
Definition relayed_frame_list (intent : json) (result : partial_object_stream)
  : list json :=
  StreamObject.intent_frame intent
  :: map StreamObject.partial_frame (items result)
  ++ match failure result with
     | None => [StreamObject.complete_frame]
     | Some _ => []
     end.

Definition frame_lines (frames : list json) : chars :=
  concat (map (fun f => JSON.stringify_chars f ++ [LF]) frames).

Definition is_object (v : json) : Prop := exists members, v = JObj members.


(** ** The generate-object-smart page *)

Module SmartPage.

Record page_state : Type := {
  prompt : string;
  result : value;
  isLoading : bool
}.

Record page_world : Type := {
  page : page_state;
  page_console : list exn;
  fetches : list fetch_call
}.

Definition setResult (v : value) : PM page_world unit :=
  fun w => (Return tt,
            {| page := {| prompt := prompt (page w); result := v;
                          isLoading := isLoading (page w) |};
               page_console := page_console w;
               fetches := fetches w |}).

Definition setIsLoading (b : bool) : PM page_world unit :=
  fun w => (Return tt,
            {| page := {| prompt := prompt (page w);
                          result := result (page w);
                          isLoading := b |};
               page_console := page_console w;
               fetches := fetches w |}).

(** [console.error(error)] *)
Definition page_error (e : exn) : PM page_world unit :=
  fun w => (Return tt,
            {| page := page w;
               page_console := page_console w ++ [e];
               fetches := fetches w |}).

Section Handler.

Variable JSON_parse : string -> outcome json.
Variable network : fetch_call -> fetch_result.

Definition fetch (c : fetch_call) : PM page_world fetch_result :=
  fun w => (Return (network c),
            {| page := page w;
               page_console := page_console w;
               fetches := fetches w ++ [c] |}).

(** [await response.json()]: the whole body is read and parsed; a body
    that is missing reads as the empty text. *)
Definition response_json (response_body : option body_reader)
  : PM page_world json :=
  match response_body with
  | None => fun w => (JSON_parse "", w)
  | Some reader =>
      match ending reader with
      | Done => fun w => (JSON_parse (decode (concat (delivered reader))), w)
      | ReadFails e => pthrow e
      end
  end.

Definition submission (p : page_state) : fetch_call :=
  {| url := "/api/generate-object-smart";
     method := "POST";
     request_headers := [("Content-Type", "application/json")];
     request_body := JSON.stringify (JObj [("prompt", JStr (prompt p))]) |}.

Definition handleSubmit : PM page_world unit :=
  fun w =>
    let p := page w in
    if trims_to_empty (prompt p) then (Return tt, w)
    else
      (setIsLoading true ;;
       setResult null ;;
       pfinally
         (pcatch
            (response <- fetch (submission p) ;;
             match response with
             | FetchRejects e => pthrow e
             | FetchResponse _ response_body =>
                 data <- response_json response_body ;;
                 setResult (Some data)
             end)
            (fun error =>
               setResult
                 (Some (JObj [("error", JStr "Failed to generate response")])) ;;
               page_error error))
         (setIsLoading false))%page w.

(** What the [try] block of a submit gets out of the answer to its
    request. *)
Definition smart_answer (answer : fetch_result) : outcome json :=
  match answer with
  | FetchRejects e => Throw e
  | FetchResponse _ None => JSON_parse ""
  | FetchResponse _ (Some reader) =>
      match ending reader with
      | Done => JSON_parse (decode (concat (delivered reader)))
      | ReadFails e => Throw e
      end
  end.

End Handler.

End SmartPage.


(** ** Sample pages and networks *)

Module PageSamples.

(** [JSON.parse] as the reader of [JSON], throwing on what it rejects. *)
Definition parse_or_throw (text : string) : outcome json :=
  match JSON.parse text with
  | Some v => Return v
  | None => Throw "SyntaxError: Unexpected token"
  end.

Definition curry_page : StreamObjectPage.page_world :=
  {| StreamObjectPage.page :=
       {| StreamObjectPage.prompt := Samples.curry_prompt;
          StreamObjectPage.detectedIntent := null;
          StreamObjectPage.partialObject := null;
          StreamObjectPage.isStreaming := false;
          StreamObjectPage.isComplete := false |};
     StreamObjectPage.page_console := [];
     StreamObjectPage.fetches := [] |}.

Definition smart_curry_page : SmartPage.page_world :=
  {| SmartPage.page :=
       {| SmartPage.prompt := Samples.curry_prompt;
          SmartPage.result := null;
          SmartPage.isLoading := false |};
     SmartPage.page_console := [];
     SmartPage.fetches := [] |}.

(** A network that answers every request with the same result. *)
Definition answering (answer : fetch_result) : fetch_call -> fetch_result :=
  fun _ => answer.

(** The bytes of a stream, cut after the first [n] and then one chunk per
    remaining byte: no chunk ends where a frame does. *)
Definition cut_at (n : nat) (bytes : list byte) : list (list byte) :=
  firstn n bytes :: map (fun b => [b]) (skipn n bytes).

Definition completed_stream : controller :=
  relayed (JStr "recipe")
    {| items := Samples.curry_partials; failure := None |}.

Definition failed_stream : controller :=
  relayed (JStr "recipe")
    {| items := Samples.curry_partials; failure := Some "backend timeout" |}.

End PageSamples.

(** ** Further notions for the routes *)

(** A property of an object literal as [JSON.stringify] keeps it: a member
    whose value is [undefined] is left out. *)
Definition property (k : string) (v : value) : list (string * json) :=
  match v with
  | Some j => [(k, j)]
  | None => []
  end.

(** A console line that reports an error. *)
Definition is_error_line (l : console_line) : bool :=
  match l with
  | ConsoleError _ _ => true
  | ConsoleLog _ _ => false
  end.

(** The stream of a run ended: it was closed or errored. *)
Definition ended (s : controller) : Prop :=
  state s = Closed \/ exists e, state s = Errored e.

Module RouteSamples.


End RouteSamples.
(** ** src/app/api/generate-object/route.ts *)

Module GenerateObjectRoute.

Definition maxDuration : Z := 30.

(** The schemas of this route also use [z.boolean()] and
    [z.string().email()]. *)
Inductive schema : Type :=
| SString
| SEmail
| SNumber
| SBoolean
| SEnum (options : list string)
| SArray (element : schema)
| SObject (shape : list (string * schema)).

(** A thrown value can be any value.  The handler reads properties of it,
    so it is kept as the value itself, an object being the list of the
    properties that can be read from it. *)
Definition thrown : Type := value.

Inductive result (A : Type) : Type :=
| Fulfilled (a : A)
| Rejected (e : thrown).
Arguments Fulfilled {A} a.
Arguments Rejected {A} e.

(** The options object of a [generateObject] call, by output strategy. *)
Inductive options : Type :=
| ObjectOutput (model : string) (sch : schema) (prompt : json)
| ArrayOutput (model : string) (sch : schema) (prompt : json)
| EnumOutput (model : string) (enum : list string) (prompt : json)
| NoSchemaOutput (model : string) (prompt : json).

Record route_request : Type := {
  req_json : result json
}.

Record route_world : Type := {
  calls : list options;
  errors_logged : list (string * thrown)
}.

Definition quiet : route_world := {| calls := []; errors_logged := [] |}.

Definition G (A : Type) : Type := route_world -> result A * route_world.

Definition gret {A} (a : A) : G A := fun w => (Fulfilled a, w).

Definition gthrow {A} (e : thrown) : G A := fun w => (Rejected e, w).

Definition gbind {A B} (c : G A) (k : A -> G B) : G B :=
  fun w =>
    match c w with
    | (Fulfilled a, w') => k a w'
    | (Rejected e, w') => (Rejected e, w')
    end.

(** [try { c } catch (error) { handler }] *)
Definition gcatch {A} (c : G A) (handler : thrown -> G A) : G A :=
  fun w =>
    match c w with
    | (Fulfilled a, w') => (Fulfilled a, w')
    | (Rejected e, w') => handler e w'
    end.

Definition glift {A} (r : result A) : G A := fun w => (r, w).

Declare Scope route_scope.
Delimit Scope route_scope with route.
Notation "x <- c ;; k" := (gbind c (fun x => k))
  (at level 61, c at next level, right associativity) : route_scope.
Notation "c ;; k" := (gbind c (fun _ => k))
  (at level 61, right associativity) : route_scope.

(** A [TypeError] object: its [name] and [message]. *)
Definition TypeError (message : string) : thrown :=
  Some (JObj [("name", JStr "TypeError"); ("message", JStr message)]).

(** ToBoolean *)
Definition truthy (v : value) : bool :=
  match v with
  | None => false
  | Some JNull => false
  | Some (JBool b) => b
  | Some (JNum n) => negb (n =? 0)%Z
  | Some (JStr s) => negb (s =? "")%string
  | Some (JArr _) => true
  | Some (JObj _) => true
  end.

(** [prompt || 'text'] *)
Definition or_default (v : value) (text : string) : json :=
  match v with
  | Some j => if truthy v then j else JStr text
  | None => JStr text
  end.

(** [error.name]: reading a property of [undefined] or [null] throws. *)
Definition member (k : string) (v : value) : result value :=
  match v with
  | None =>
      Rejected (TypeError ("Cannot read properties of undefined (reading '"
                           ++ k ++ "')")%string)
  | Some JNull =>
      Rejected (TypeError ("Cannot read properties of null (reading '"
                           ++ k ++ "')")%string)
  | Some j => Fulfilled (get_property k j)
  end.

(** [v?.k] *)
Definition optional_member (k : string) (v : value) : value :=
  match v with
  | None => undefined
  | Some JNull => undefined
  | Some j => get_property k j
  end.

(** [const { type, prompt } = parsed] *)
Definition destructure (parsed : json) : result (value * value) :=
  match parsed with
  | JNull =>
      Rejected (TypeError "Cannot destructure property 'type' of null")
  | _ => Fulfilled (get_property "type" parsed, get_property "prompt" parsed)
  end.

Definition recipe_schema : schema :=
  SObject
    [("recipe",
      SObject
        [("name", SString);
         ("cuisine", SString);
         ("difficulty", SEnum ["easy"; "medium"; "hard"]);
         ("prepTime", SString);
         ("cookTime", SString);
         ("servings", SNumber);
         ("ingredients",
          SArray (SObject [("name", SString);
                           ("amount", SString);
                           ("unit", SString)]));
         ("steps", SArray SString);
         ("tags", SArray SString)])].

Definition person_schema : schema :=
  SObject
    [("person",
      SObject
        [("firstName", SString);
         ("lastName", SString);
         ("age", SNumber);
         ("email", SEmail);
         ("occupation", SString);
         ("bio", SString);
         ("skills", SArray SString);
         ("address",
          SObject [("street", SString);
                   ("city", SString);
                   ("country", SString);
                   ("zipCode", SString)])])].

Definition product_schema : schema :=
  SObject
    [("name", SString);
     ("price", SNumber);
     ("category", SString);
     ("description", SString);
     ("inStock", SBoolean)].

Definition sentiments : list string := ["positive"; "negative"; "neutral"].

Definition sentiment_prompt : string :=
  ("Classify the sentiment: "
   ++ String DQ ("This product is amazing! I love it!"
                 ++ String DQ EmptyString))%string.

Section Handler.

Variable backend_generateObject : options -> result json.

(** [await generateObject(options)], keeping the [object] of the result. *)
Definition generateObject (o : options) : G json :=
  fun w =>
    (backend_generateObject o,
     {| calls := calls w ++ [o]; errors_logged := errors_logged w |}).

Definition console_error (label : string) (e : thrown) : G unit :=
  fun w =>
    (Fulfilled tt,
     {| calls := calls w; errors_logged := errors_logged w ++ [(label, e)] |}).

(** The [catch] block. *)
Definition on_error (error : thrown) : G response :=
  (console_error "Error generating object:" error ;;
   name <- glift (member "name" error) ;;
   if value_is name "AI_NoObjectGeneratedError" then
     text <- glift (member "text" error) ;;
     cause <- glift (member "cause" error) ;;
     gret (Response_json
             (JObj [("error", JStr "Failed to generate valid object");
                    ("details",
                     JObj (property "text" text
                           ++ property "cause"
                                (optional_member "message" cause)))])
             500)
   else
     gret (Response_json (JObj [("error", JStr "Failed to generate object")])
             500))%route.

Definition POST (req : route_request) : G response :=
  gcatch
    (parsed <- glift (req_json req) ;;
     tp <- glift (destructure parsed) ;;
     let type := fst tp in
     let prompt := snd tp in
     if value_is type "recipe" then
       object <- generateObject
                   (ObjectOutput (google gemini) recipe_schema
                      (or_default prompt "Generate a lasagna recipe.")) ;;
       gret (Response_json
               (JObj [("object", object); ("type", JStr "recipe")]) 200)
     else if value_is type "person" then
       object <- generateObject
                   (ObjectOutput (google gemini) person_schema
                      (or_default prompt
                         "Generate a fictional person profile.")) ;;
       gret (Response_json
               (JObj [("object", object); ("type", JStr "person")]) 200)
     else if value_is type "product-list" then
       object <- generateObject
                   (ArrayOutput (google gemini) product_schema
                      (or_default prompt
                         "Generate 5 fictional products for an online store.")) ;;
       gret (Response_json
               (JObj [("object", object); ("type", JStr "product-list")]) 200)
     else if value_is type "classification" then
       object <- generateObject
                   (EnumOutput (google gemini) sentiments
                      (or_default prompt sentiment_prompt)) ;;
       gret (Response_json
               (JObj [("object", object); ("type", JStr "classification")])
               200)
     else if value_is type "no-schema" then
       object <- generateObject
                   (NoSchemaOutput (google gemini)
                      (or_default prompt
                         "Generate a JSON object with book information.")) ;;
       gret (Response_json
               (JObj [("object", object); ("type", JStr "no-schema")]) 200)
     else
       gret (Response_json (JObj [("error", JStr "Invalid type")]) 400))%route
    on_error.

End Handler.

(** A run of the handler from a quiet start. *)
Definition answer (backend_generateObject : options -> result json)
    (req : route_request) : result response * route_world :=
  POST backend_generateObject req quiet.

(** The [case] labels of the [switch]. *)
Definition types : list string :=
  ["recipe"; "person"; "product-list"; "classification"; "no-schema"].

(** The prompt of a call. *)
Definition prompt_of (o : options) : json :=
  match o with
  | ObjectOutput _ _ p => p
  | ArrayOutput _ _ p => p
  | EnumOutput _ _ p => p
  | NoSchemaOutput _ p => p
  end.

(** [undefined] and [null]: the values no property can be read from. *)
Definition nullish (v : value) : bool :=
  match v with
  | None => true
  | Some JNull => true
  | Some _ => false
  end.

(** A request whose body reads as [parsed]. *)
Definition with_body (parsed : json) : route_request :=
  {| req_json := Fulfilled parsed |}.

(** The case of the [switch] that a request selects: its label and the
    options of its [generateObject] call. *)
Definition selected (type prompt : value) : option (string * options) :=
  if value_is type "recipe" then
    Some ("recipe",
          ObjectOutput (google gemini) recipe_schema
            (or_default prompt "Generate a lasagna recipe."))
  else if value_is type "person" then
    Some ("person",
          ObjectOutput (google gemini) person_schema
            (or_default prompt "Generate a fictional person profile."))
  else if value_is type "product-list" then
    Some ("product-list",
          ArrayOutput (google gemini) product_schema
            (or_default prompt
               "Generate 5 fictional products for an online store."))
  else if value_is type "classification" then
    Some ("classification",
          EnumOutput (google gemini) sentiments
            (or_default prompt sentiment_prompt))
  else if value_is type "no-schema" then
    Some ("no-schema",
          NoSchemaOutput (google gemini)
            (or_default prompt
               "Generate a JSON object with book information."))
  else None.

(** The document of the 500 answer to a thrown object. *)
Definition error_document (error : json) : json :=
  if value_is (get_property "name" error) "AI_NoObjectGeneratedError" then
    JObj [("error", JStr "Failed to generate valid object");
          ("details",
           JObj (property "text" (get_property "text" error)
                 ++ property "cause"
                      (optional_member "message"
                         (get_property "cause" error))))]
  else JObj [("error", JStr "Failed to generate object")].

End GenerateObjectRoute.
Module ObjectSamples.
Import GenerateObjectRoute.

(** A model that answers every call with the prompt it was given. *)
Definition echoing : options -> result json :=
  fun o => Fulfilled (prompt_of o).

(** A model whose every call throws the same object. *)
Definition throwing (error : json) : options -> result json :=
  fun _ => Rejected (Some error).

(** The error of the SDK for a model answer that is no valid object. *)
Definition no_object_error : json :=
  JObj [("name", JStr "AI_NoObjectGeneratedError");
        ("message", JStr "No object generated.");
        ("text", JStr "{ recipe: ");
        ("cause", JObj [("name", JStr "AI_JSONParseError");
                        ("message", JStr "JSON parsing failed")])].

Definition lasagna_call : options :=
  ObjectOutput (google gemini) recipe_schema
    (JStr "Generate a lasagna recipe.").

End ObjectSamples.
(** ** src/app/api/stream-text/route.ts *)

Module StreamText.

Definition maxDuration : Z := 30.

(** [{ type: part.type, data: part }] as [JSON.stringify] writes it. *)
Definition event_frame (part : json) : json :=
  JObj (property "type" (get_property "type" part) ++ [("data", part)]).

(** The body of the loop over [result.fullStream].  Reading [part.type]
    throws when the part is [null]. *)
Definition relay (part : json) : M unit :=
  match part with
  | JNull =>
      throw (type_error "Cannot read properties of null (reading 'type')")
  | _ =>
      let eventData := JSON.stringify (event_frame part) in
      controller_enqueue (encode (eventData ++ newline)%string)
  end.

(** [async start(controller) { try { ... } catch (error) { ... } }] *)
Definition start (result : partial_object_stream) : M unit :=
  try_catch
    (for_await result relay ;;
     controller_close)
    (fun error => controller_error error).

Definition stream_headers : list (string * string) :=
  [("Content-Type", "text/event-stream");
   ("Cache-Control", "no-cache");
   ("Connection", "keep-alive")].

Section Handler.

(** [streamText({ model, tools, prompt })]: the model and the two tools are
    the same in every call, so the call is a function of the prompt.  What
    it gives is [result.fullStream]: the parts in order, then the end of
    the stream or a thrown error.  The [execute] callbacks of the tools
    run inside the SDK, on a timer and on [Math.random], and are not
    modelled. *)
Variable streamText : value -> outcome partial_object_stream.

Definition POST (req : request) : M response :=
  try_catch
    (prompt <- read_prompt req ;;
     result <- lift (streamText prompt) ;;
     stream <- new_ReadableStream (start result) ;;
     ret (Response_stream stream stream_headers))
    (fun error =>
       console_error "Error in stream-text route:" error ;;
       ret (Response_json (JObj [("error", JStr "Failed to stream text")])
              500)).

End Handler.

End StreamText.

(** ** src/app/stream-text/page.tsx *)

Module StreamTextPage.

(** [generatedText] is kept as the outcome of its state updaters: React
    runs an updater when it renders, and one that throws makes the render
    throw. *)
Record page_state : Type := {
  prompt : string;
  events : list json;
  generatedText : outcome string;
  isStreaming : bool
}.

Record page_world : Type := {
  page : page_state;
  page_console : list console_line;
  fetches : list fetch_call
}.

Definition initial_page : page_state :=
  {| prompt :=
       "What is the weather like in San Francisco? Also tell me about the city.";
     events := [];
     generatedText := Return "";
     isStreaming := false |}.

Definition update (f : page_state -> page_state) : PM page_world unit :=
  fun w => (Return tt,
            {| page := f (page w);
               page_console := page_console w;
               fetches := fetches w |}).

(** [setEvents((prev) => action(prev))] *)
Definition setEvents (action : list json -> list json)
  : PM page_world unit :=
  update (fun p => {| prompt := prompt p; events := action (events p);
                      generatedText := generatedText p;
                      isStreaming := isStreaming p |}).

(** [setGeneratedText(text)] *)
Definition setGeneratedText (text : string) : PM page_world unit :=
  update (fun p => {| prompt := prompt p; events := events p;
                      generatedText := Return text;
                      isStreaming := isStreaming p |}).

(** [setGeneratedText((prev) => action(prev))] *)
Definition updateGeneratedText (action : string -> outcome string)
  : PM page_world unit :=
  update (fun p => {| prompt := prompt p; events := events p;
                      generatedText :=
                        match generatedText p with
                        | Return prev => action prev
                        | Throw e => Throw e
                        end;
                      isStreaming := isStreaming p |}).

Definition setIsStreaming (b : bool) : PM page_world unit :=
  update (fun p => {| prompt := prompt p; events := events p;
                      generatedText := generatedText p;
                      isStreaming := b |}).

Definition page_error (label : string) (e : exn) : PM page_world unit :=
  fun w => (Return tt,
            {| page := page w;
               page_console := page_console w ++ [ConsoleError label e];
               fetches := fetches w |}).

(** [prev + event.data.textDelta] *)
Definition append_delta (event : json) (prev : string) : outcome string :=
  match get_property "data" event with
  | None =>
      Throw (type_error
               "Cannot read properties of undefined (reading 'textDelta')")
  | Some JNull =>
      Throw (type_error
               "Cannot read properties of null (reading 'textDelta')")
  | Some data =>
      Return (prev ++ to_string (get_property "textDelta" data))%string
  end.

(** The event that the outer [catch] adds to the log. *)
Definition error_event : json :=
  JObj [("type", JStr "error");
        ("data", JObj [("message", JStr "Failed to stream text")])].

Section Handler.

(** [JSON.parse], which throws on a text that is no JSON document. *)
Variable JSON_parse : string -> outcome json.

(** The network: what a [fetch] is answered with. *)
Variable network : fetch_call -> fetch_result.

Definition fetch (c : fetch_call) : PM page_world fetch_result :=
  fun w => (Return (network c),
            {| page := page w;
               page_console := page_console w;
               fetches := fetches w ++ [c] |}).

(** What is done with a parsed event: it is added to the log, then
    [switch (event.type)], where reading [event.type] off [null] throws. *)
Definition dispatch (event : json) : PM page_world unit :=
  (setEvents (fun prev => prev ++ [event]) ;;
   match event with
   | JNull =>
       pthrow (type_error "Cannot read properties of null (reading 'type')")
   | _ =>
       if value_is (get_property "type" event) "text-delta" then
         updateGeneratedText (append_delta event)
       else pret tt
   end)%page.

(** The body of [for (const line of lines)]. *)
Definition handle_line (line : chars) : PM page_world unit :=
  if trims_to_empty (string_of_list_ascii line) then pret tt
  else
    pcatch
      (event <- (fun w => (JSON_parse (string_of_list_ascii line), w)) ;;
       dispatch event)%page
      (fun error => page_error "Failed to parse event:" error).

(** [while (true) { const { done, value } = await reader.read(); ... }] *)
Fixpoint read_all (values : list (list byte)) (last : read_end)
    (buffer : chars) : PM page_world unit :=
  match values with
  | [] =>
      match last with
      | Done => pret tt
      | ReadFails e => pthrow e
      end
  | value :: rest =>
      let buffered := buffer ++ list_ascii_of_string (decode value) in
      let lines := split_newline buffered in
      (for_of (removelast lines) handle_line ;;
       read_all rest last (List.last lines []))%page
  end.

Definition submission : page_state -> fetch_call :=
  fun p =>
    {| url := "/api/stream-text";
       method := "POST";
       request_headers := [("Content-Type", "application/json")];
       request_body := JSON.stringify (JObj [("prompt", JStr (prompt p))]) |}.

Definition handleSubmit : PM page_world unit :=
  fun w =>
    let p := page w in
    if trims_to_empty (prompt p) || isStreaming p then (Return tt, w)
    else
      (setEvents (fun _ => []) ;;
       setGeneratedText "" ;;
       setIsStreaming true ;;
       pfinally
         (pcatch
            (response <- fetch (submission p) ;;
             match response with
             | FetchRejects e => pthrow e
             | FetchResponse false _ => pthrow "Error: Stream failed"
             | FetchResponse true None => pthrow "Error: No reader available"
             | FetchResponse true (Some reader) =>
                 read_all (delivered reader) (ending reader) []
             end)
            (fun error =>
               page_error "Streaming error:" error ;;
               setEvents (fun prev => prev ++ [error_event])))
         (setIsStreaming false))%page w.

(** Reading a text line by line, all at once. *)
Definition read_text (text : chars) (last : read_end) : PM page_world unit :=
  (for_of (complete_lines text) handle_line ;;
   match last with
   | Done => pret tt
   | ReadFails e => pthrow e
   end)%page.

End Handler.

(** The page once a submit went through its guard. *)
Definition submitted (w : page_world) : page_world :=
  {| page := {| prompt := prompt (page w); events := [];
                generatedText := Return ""; isStreaming := true |};
     page_console := page_console w;
     fetches := fetches w ++ [submission (page w)] |}.

(** How a submit ends, from the outcome of its [try] block. *)
Definition settle (r : outcome unit * page_world) : outcome unit * page_world :=
  match r with
  | (Return _, w) =>
      (Return tt,
       {| page := {| prompt := prompt (page w);
                     events := events (page w);
                     generatedText := generatedText (page w);
                     isStreaming := false |};
          page_console := page_console w;
          fetches := fetches w |})
  | (Throw e, w) =>
      (Return tt,
       {| page := {| prompt := prompt (page w);
                     events := events (page w) ++ [error_event];
                     generatedText := generatedText (page w);
                     isStreaming := false |};
          page_console := page_console w ++ [ConsoleError "Streaming error:" e];
          fetches := fetches w |})
  end.

End StreamTextPage.

(** The stream that relaying the parts of [result] leaves behind, when no
    part is [null]: one frame per part, then a close when the generator
    ended, or the error signal when it threw. *)
Definition text_relayed (result : partial_object_stream) : controller :=
  {| chunks := map (fun part => frame_chunk (StreamText.event_frame part))
                 (items result);
     state :=
       match failure result with
       | None => Closed
       | Some e => Errored e
       end |}.

(** The 500 answer of the stream-text route. *)
Definition text_failed : response :=
  Response_json (JObj [("error", JStr "Failed to stream text")]) 500.

Module TextSamples.

(** Parts as [fullStream] gives them: text, a tool call, more text, the
    end. *)
Definition weather_parts : list json :=
  [JObj [("type", JStr "text-delta"); ("textDelta", JStr "Checking")];
   JObj [("type", JStr "tool-call"); ("toolName", JStr "getWeather");
         ("args", JObj [("city", JStr "San Francisco")])];
   JObj [("type", JStr "text-delta"); ("textDelta", JStr " the sky")];
   JObj [("type", JStr "finish"); ("finishReason", JStr "stop")]].

(** A [streamText] that gives the same stream for every prompt. *)
Definition steady_text (result : partial_object_stream)
  : value -> outcome partial_object_stream :=
  fun _ => Return result.

Definition refusing_text : value -> outcome partial_object_stream :=
  fun _ => Throw "model overloaded".

Definition weather_stream : controller :=
  text_relayed {| items := weather_parts; failure := None |}.

Definition weather_page : StreamTextPage.page_world :=
  {| StreamTextPage.page := StreamTextPage.initial_page;
     StreamTextPage.page_console := [];
     StreamTextPage.fetches := [] |}.

End TextSamples.
(** ** src/app/api/generating-text/route.ts *)

Module GeneratingText.

Definition maxDuration : Z := 30.

Definition system : string :=
  ("You are a professional writer. "
   ++ "You write simple, clear, and concise content.")%string.

(** The template literal of the prompt. *)
Definition summary_prompt (article : value) : string :=
  ("Summarize the following article in 3-5 sentences: "
   ++ to_string article)%string.

(** [const { article } = parsed] *)
Definition destructure_article (parsed : json) : outcome value :=
  match parsed with
  | JNull => Throw (type_error "Cannot destructure property 'article' of null")
  | _ => Return (get_property "article" parsed)
  end.

Section Handler.

(** [generateText({ model, system, prompt })], keeping the [text] of the
    result. *)
Variable generateText : string -> string -> string -> outcome string.

Definition POST (req : request) : M response :=
  try_catch
    (parsed <- lift (json_body req) ;;
     article <- lift (destructure_article parsed) ;;
     text <- lift (generateText (google gemini) system
                     (summary_prompt article)) ;;
     ret (Response_json (JObj [("text", JStr text)]) 200))
    (fun error =>
       console_error "Error generating text:" error ;;
       ret (Response_json (JObj [("error", JStr "Failed to generate text")])
              500)).

End Handler.

End GeneratingText.

(** ** The repository route (src/unnamed/part_002) *)

Module McpDemo.
Import GenerateObjectRoute.

Definition maxDuration : Z := 60.

(** What the handler reads of the result of [generateText]: [result.text]
    and, for each step, its [toolCalls]. *)
Record generation : Type := {
  text : string;
  steps : list (list json)
}.

Definition and_then {A B} (r : result A) (k : A -> result B) : result B :=
  match r with
  | Fulfilled a => k a
  | Rejected e => Rejected e
  end.

(** [text.split(sep)] for a separator of one character: the pieces between
    the separators, at least one. *)
Fixpoint split_on (sep : ascii) (cs : chars) : list chars :=
  match cs with
  | [] => [[]]
  | c :: r =>
      if (c =? sep)%char then [] :: split_on sep r
      else match split_on sep r with
           | piece :: pieces => (c :: piece) :: pieces
           | [] => [[c]]
           end
  end.

(** [repo.split('/')]: only a string has a [split] method. *)
Definition split_repo (repo : value) : result (list string) :=
  match repo with
  | None =>
      Rejected
        (TypeError "Cannot read properties of undefined (reading 'split')")
  | Some JNull =>
      Rejected (TypeError "Cannot read properties of null (reading 'split')")
  | Some (JStr s) =>
      Fulfilled (map string_of_list_ascii
                   (split_on "/" (list_ascii_of_string s)))
  | Some _ => Rejected (TypeError "repo.split is not a function")
  end.

(** An element of an array of strings taken by array destructuring. *)
Definition element (n : nat) (pieces : list string) : value :=
  match nth_error pieces n with
  | Some piece => Some (JStr piece)
  | None => undefined
  end.

(** The template literal of the prompt. *)
Definition repository_prompt (owner repoName : value) : string :=
  ("Use the get_repository tool to fetch information about the repository with owner "
   ++ String DQ (to_string owner)
   ++ String DQ " and repo "
   ++ String DQ (to_string repoName)
   ++ String DQ ". After getting the data, provide a summary with stars, description, main language, and other interesting details.")%string.

(** [const { repo } = parsed] *)
Definition destructure_repo (parsed : json) : result value :=
  match parsed with
  | JNull => Rejected (TypeError "Cannot destructure property 'repo' of null")
  | _ => Fulfilled (get_property "repo" parsed)
  end.

Section Handler.

(** [generateText({ model, tools, stopWhen, prompt })]: the model, the tool
    and the stop condition are the same in every call, so the call is a
    function of the prompt.  The [execute] callback of the tool, which
    fetches from the GitHub API, runs inside the SDK and is not
    modelled. *)
Variable generateText : string -> result generation.

(** The [try] block. *)
Definition attempt (repo : value) : result response :=
  and_then (split_repo repo) (fun pieces =>
  let owner := element 0 pieces in
  let repoName := element 1 pieces in
  and_then (generateText (repository_prompt owner repoName)) (fun result =>
  Fulfilled
    (Response_json
       (JObj [("text", JStr (text result));
              ("toolCalls", JArr (concat (steps result)))])
       200))).

(** The [catch] block. *)
Definition on_error (error : thrown) : result response :=
  and_then (member "message" error) (fun message =>
  Fulfilled (Response_json (JObj (property "error" message)) 500)).

Definition POST (req : route_request) : result response :=
  and_then (req_json req) (fun parsed =>
  and_then (destructure_repo parsed) (fun repo =>
  match attempt repo with
  | Fulfilled r => Fulfilled r
  | Rejected error => on_error error
  end)).

End Handler.

(** A text without the separator [/]. *)
Definition slashless (s : string) : Prop :=
  ~ In "/"%char (list_ascii_of_string s).

End McpDemo.
Module MoreSamples.


(** A repository model that answers with the prompt it was given and made
    one tool call. *)
Definition reporting : string -> GenerateObjectRoute.result McpDemo.generation :=
  fun prompt =>
    GenerateObjectRoute.Fulfilled
      {| McpDemo.text := prompt;
         McpDemo.steps :=
           [[JObj [("toolName", JStr "get_repository")]]; []] |}.

(** A repository model that throws an error with the given message. *)
Definition failing_with (message : string)
  : string -> GenerateObjectRoute.result McpDemo.generation :=
  fun _ =>
    GenerateObjectRoute.Rejected
      (Some (JObj [("name", JStr "AI_APICallError");
                   ("message", JStr message)])).

End MoreSamples.

(** * Properties *)

Example stringify_sample :
  JSON.stringify
    (JObj [("type", JStr "partial");
           ("data", JObj [("n", JNum (-12)); ("xs", JArr [JBool true; JNull]);
                          ("s", JStr (String DQ (String LF "a")))])])
  = String.concat (String DQ "")
      ["{"; "type"; ":"; "partial"; ","; "data"; ":{"; "n"; ":-12,"; "xs";
       ":[true,null],"; "s"; ":"; "\"; "\na"; "}}"].
Proof. vm_compute. reflexivity. Qed.

Example parse_sample :
  let v := JObj [("type", JStr "partial");
           ("data", JObj [("n", JNum (-12)); ("xs", JArr [JBool true; JNull; JArr []; JObj []; JNum 0]);
                          ("s", JStr (String DQ (String LF (String "001" "a\/"))))])] in
  JSON.parse (JSON.stringify v) = Some v.
Proof. vm_compute. reflexivity. Qed.

Example curry_partials_refine :
  refining_sequence Samples.curry_partials = true.
Proof. reflexivity. Qed.

Example retracted_field_does_not_refine :
  refines (JObj [("name", JStr "Ada"); ("age", JNum 36)])
          (JObj [("name", JStr "Ada")]) = false.
Proof. reflexivity. Qed.

Example shrunk_array_does_not_refine :
  refines (JArr [JStr "a"; JStr "b"]) (JArr [JStr "a"]) = false.
Proof. reflexivity. Qed.

Example completed_element_refines :
  refines (JArr [JObj [("name", JStr "flour")]])
          (JArr [JObj [("name", JStr "flour"); ("amount", JStr "200")];
                 JObj []]) = true.
Proof. reflexivity. Qed.

Example parse_rejects :
  map JSON.parse ["007"; "-"; "[1,]"; "{a:1}"; "1 "; "nul"; "-0"; "[1,2"] =
  [None; None; None; None; None; None; None; None].
Proof. vm_compute. reflexivity. Qed.

(** ** JSON texts *)

Module JSONText.
Import JSON JSONFacts.

(** *** Strings *)

Lemma parse_quote_char (c : ascii) (rest : chars) :
  parse_string_body (quote_char c ++ rest) = push c (parse_string_body rest).
Proof.
  destruct c as [[] [] [] [] [] [] [] []]; reflexivity.
Qed.

Lemma parse_quote_body (s : string) (rest : chars) :
  parse_string_body (quote_body s ++ DQ :: rest) = Some (s, rest).
Proof.
  induction s as [|c s IH]; simpl.
  - reflexivity.
  - rewrite <- app_assoc, parse_quote_char, IH. reflexivity.
Qed.

(** *** Numbers *)

Lemma uint_number_chars (d : Decimal.uint) :
  number_chars (list_ascii_of_string (NilEmpty.string_of_uint d)).
Proof.
  induction d; simpl; constructor; auto.
Qed.

Lemma number_to_string_chars (n : Z) :
  number_chars (list_ascii_of_string (number_to_string n)).
Proof.
  unfold number_to_string.
  destruct (Z.to_int n) as [d|d]; simpl.
  - destruct d; try apply uint_number_chars.
    repeat constructor.
  - constructor; [reflexivity|].
    destruct d; try apply uint_number_chars.
    repeat constructor.
Qed.

Lemma number_to_string_nonempty (n : Z) :
  exists c cs, list_ascii_of_string (number_to_string n) = c :: cs.
Proof.
  unfold number_to_string.
  destruct (Z.to_int n) as [d|d]; simpl.
  - destruct d; simpl; eauto.
  - eauto.
Qed.

Lemma span_number_app (tok rest : chars) :
  number_chars tok -> ends_number rest ->
  span_number (tok ++ rest) = (tok, rest).
Proof.
  intros Htok Hrest. induction Htok as [|c tok Hc _ IH]; simpl.
  - destruct rest as [|c r]; [reflexivity|].
    simpl in Hrest. simpl. rewrite Hrest. reflexivity.
  - rewrite Hc, IH. reflexivity.
Qed.

Lemma to_int_not_nil (n : Z) :
  Z.to_int n <> Decimal.Pos Decimal.Nil /\ Z.to_int n <> Decimal.Neg Decimal.Nil.
Proof.
  destruct n as [|p|p]; simpl; split; try discriminate;
    intros H; injection H as H; exact (DecimalPos.Unsigned.to_uint_nonnil p H).
Qed.

Lemma parse_number_to_string (n : Z) (rest : chars) :
  ends_number rest ->
  parse_number (list_ascii_of_string (number_to_string n) ++ rest)
  = Some (n, rest).
Proof.
  intros Hrest. unfold parse_number.
  rewrite span_number_app by (auto using number_to_string_chars).
  rewrite string_of_list_ascii_of_string.
  unfold number_to_string at 1.
  destruct (to_int_not_nil n) as [Hp Hn].
  rewrite NilZero.isi by assumption.
  rewrite DecimalZ.of_to, String.eqb_refl. reflexivity.
Qed.

Lemma number_char_dispatch (c : ascii) :
  is_number_char c = true ->
  ((c =? "n") = false /\ (c =? "t") = false /\ (c =? "f") = false /\
   (c =? DQ) = false /\ (c =? "[") = false /\ (c =? "{") = false)%char.
Proof.
  destruct c as [[] [] [] [] [] [] [] []]; intros H;
    try discriminate H; repeat split.
Qed.

(** *** Values *)

Lemma parse_elements_S (fuel : nat) (cs : chars) :
  parse_elements (S fuel) cs =
  match parse_value fuel cs with
  | Some (x, c :: r) =>
      if (c =? ",")%char then
        match parse_elements fuel r with
        | Some (xs, r') => Some (x :: xs, r')
        | None => None
        end
      else if (c =? "]")%char then Some ([x], r)
      else None
  | _ => None
  end.
Proof. reflexivity. Qed.

Lemma parse_members_S (fuel : nat) (r0 : chars) :
  parse_members (S fuel) (DQ :: r0) =
  match parse_string_body r0 with
  | Some (k, colon :: r1) =>
      if (colon =? ":")%char then
        match parse_value fuel r1 with
        | Some (x, c :: r) =>
            if (c =? ",")%char then
              match parse_members fuel r with
              | Some (ms, r') => Some ((k, x) :: ms, r')
              | None => None
              end
            else if (c =? "}")%char then Some ([(k, x)], r)
            else None
        | _ => None
        end
      else None
  | _ => None
  end.
Proof. reflexivity. Qed.

Lemma parse_value_number (fuel : nat) (c : ascii) (cs : chars) :
  is_number_char c = true ->
  parse_value (S fuel) (c :: cs) =
  match parse_number (c :: cs) with
  | Some (n, r') => Some (JNum n, r')
  | None => None
  end.
Proof.
  intros H.
  destruct (number_char_dispatch c H) as (H1 & H2 & H3 & H4 & H5 & H6).
  cbn [parse_value]. rewrite H1, H2, H3, H4, H5, H6. reflexivity.
Qed.

Lemma parse_value_array (fuel : nat) (c : ascii) (r : chars) :
  (c =? "]")%char = false ->
  parse_value (S fuel) ("["%char :: c :: r) =
  match parse_elements fuel (c :: r) with
  | Some (xs, r') => Some (JArr xs, r')
  | None => None
  end.
Proof. intros H. cbn [parse_value]. simpl Ascii.eqb. cbv iota. rewrite H. reflexivity. Qed.

Lemma parse_value_object (fuel : nat) (r : chars) :
  parse_value (S fuel) ("{"%char :: DQ :: r) =
  match parse_members fuel (DQ :: r) with
  | Some (ms, r') => Some (JObj ms, r')
  | None => None
  end.
Proof. reflexivity. Qed.

(** The first character of a serialized value never closes an array. *)
Lemma stringify_head (v : json) :
  exists c cs, stringify_chars v = c :: cs /\ (c =? "]")%char = false.
Proof.
  destruct v as [|[]|n|s|xs|ms];
    try (eexists _, _; split; reflexivity).
  cbn [stringify_chars].
  destruct (number_to_string_nonempty n) as (c & cs & E).
  pose proof (number_to_string_chars n) as H. rewrite E in H.
  inversion H as [|? ? Hc _]; subst.
  exists c, cs. split; [assumption|].
  destruct c as [[] [] [] [] [] [] [] []]; try discriminate Hc; reflexivity.
Qed.

Lemma join_comma_cons (p : chars) (ps : list chars) :
  ps <> [] -> join_comma (p :: ps) = p ++ ","%char :: join_comma ps.
Proof. destruct ps; [congruence | reflexivity]. Qed.

Lemma parse_elements_stringify (xs : list json) :
  Forall reads_back xs -> xs <> [] ->
  forall fuel rest,
    elements_size xs <= fuel ->
    parse_elements fuel
      (join_comma (map stringify_chars xs) ++ "]"%char :: rest)
    = Some (xs, rest).
Proof.
  induction 1 as [|x xs Hx Hxs IH]; [congruence|].
  intros _ fuel rest Hfuel.
  destruct fuel as [|fuel]; [simpl in Hfuel; lia|].
  simpl in Hfuel. fold (elements_size xs) in Hfuel.
  rewrite parse_elements_S. cbn [map].
  destruct xs as [|y ys].
  - simpl. rewrite Hx by (simpl; auto; lia). reflexivity.
  - rewrite join_comma_cons by discriminate.
    rewrite <- app_assoc. cbn [app].
    rewrite Hx by (simpl; auto; lia).
    simpl Ascii.eqb. cbv iota.
    rewrite IH by (discriminate || lia). reflexivity.
Qed.

Lemma parse_members_stringify (ms : list (string * json)) :
  Forall (fun kv => reads_back (snd kv)) ms -> ms <> [] ->
  forall fuel rest,
    members_size ms <= fuel ->
    parse_members fuel
      (join_comma
         (map (fun kv => match kv with
                         | (k, x) => quote k ++ ":"%char :: stringify_chars x
                         end) ms) ++ "}"%char :: rest)
    = Some (ms, rest).
Proof.
  induction 1 as [|[k x] ms Hx Hms IH]; [congruence|].
  intros _ fuel rest Hfuel.
  destruct fuel as [|fuel]; [simpl in Hfuel; lia|].
  simpl in Hfuel. fold (members_size ms) in Hfuel. simpl in Hx.
  cbn [map].
  destruct ms as [|kv ms'].
  - cbn [map join_comma]. unfold quote. cbn [app].
    rewrite parse_members_S.
    rewrite <- !app_assoc. cbn [app].
    rewrite parse_quote_body. simpl Ascii.eqb. cbv iota.
    rewrite Hx by (simpl; auto; lia). reflexivity.
  - rewrite join_comma_cons by discriminate.
    unfold quote at 1. cbn [app].
    rewrite parse_members_S.
    rewrite <- !app_assoc. cbn [app].
    rewrite parse_quote_body. simpl Ascii.eqb. cbv iota.
    rewrite Hx by (simpl; auto; lia).
    simpl Ascii.eqb. cbv iota.
    rewrite IH by (discriminate || lia). reflexivity.
Qed.

Theorem parse_value_stringify (v : json) : reads_back v.
Proof.
  induction v as [| b | n | s | xs IH | ms IH] using json_nested_ind;
    intros fuel rest Hfuel Hrest;
    (destruct fuel as [|fuel]; [simpl in Hfuel; lia|]).
  - reflexivity.
  - destruct b; reflexivity.
  - cbn [stringify_chars].
    destruct (number_to_string_nonempty n) as (c & cs & E).
    pose proof (number_to_string_chars n) as H. rewrite E in H.
    inversion H as [|? ? Hc _]; subst.
    pose proof (parse_number_to_string n rest Hrest) as P.
    rewrite E in *. cbn [app] in *.
    rewrite parse_value_number by assumption. rewrite P. reflexivity.
  - cbn [stringify_chars]. unfold quote. cbn [app parse_value].
    simpl Ascii.eqb. cbv iota.
    rewrite <- app_assoc. cbn [app].
    rewrite parse_quote_body. reflexivity.
  - cbn [stringify_chars]. simpl in Hfuel. fold (elements_size xs) in Hfuel.
    destruct xs as [|x xs'].
    + reflexivity.
    + destruct (stringify_head x) as (c & cs & E & Hc).
      assert (Hjoin : exists cs',
                 join_comma (map stringify_chars (x :: xs')) = c :: cs').
      { cbn [map]. destruct xs' as [|y ys].
        - exists cs. simpl. assumption.
        - rewrite join_comma_cons by discriminate. rewrite E.
          eexists. reflexivity. }
      destruct Hjoin as (cs' & Hj).
      pose proof (parse_elements_stringify (x :: xs') IH ltac:(discriminate)
                    fuel rest ltac:(lia)) as P.
      cbn [app]. rewrite <- app_assoc. cbn [app].
      rewrite Hj in *. cbn [app] in *.
      rewrite parse_value_array by assumption.
      rewrite P. reflexivity.
  - cbn [stringify_chars]. simpl in Hfuel. fold (members_size ms) in Hfuel.
    destruct ms as [|[k x] ms'].
    + reflexivity.
    + pose proof (parse_members_stringify ((k, x) :: ms') IH
                    ltac:(discriminate) fuel rest ltac:(lia)) as P.
      assert (Hjoin : exists cs',
                 join_comma
                   (map (fun kv => match kv with
                                   | (k, x) => quote k ++ ":"%char :: stringify_chars x
                                   end) ((k, x) :: ms')) = DQ :: cs').
      { cbn [map]. destruct ms' as [|y ys].
        - eexists. reflexivity.
        - rewrite join_comma_cons by discriminate. eexists. reflexivity. }
      destruct Hjoin as (cs' & Hj).
      cbn [app]. rewrite <- app_assoc. cbn [app].
      rewrite Hj in *. cbn [app] in *.
      rewrite parse_value_object. rewrite P. reflexivity.
Qed.

Lemma size_le_length (v : json) : size v <= length (stringify_chars v).
Proof.
  induction v as [| b | n | s | xs IH | ms IH] using json_nested_ind.
  - simpl. lia.
  - destruct b; simpl; lia.
  - cbn [stringify_chars size].
    destruct (number_to_string_nonempty n) as (c & cs & E). rewrite E.
    simpl. lia.
  - simpl. lia.
  - cbn [stringify_chars size]. cbn [length]. rewrite length_app. cbn [length].
    induction IH as [|x xs Hx _ IHxs]; [simpl; lia|].
    cbn [map fold_right].
    destruct xs as [|y ys].
    + simpl in *. lia.
    + rewrite join_comma_cons by discriminate.
      rewrite length_app. cbn [length]. lia.
  - cbn [stringify_chars size]. cbn [length]. rewrite length_app. cbn [length].
    induction IH as [|[k x] ms Hx _ IHms]; [simpl; lia|].
    cbn [map fold_right]. simpl in Hx.
    destruct ms as [|y ys].
    + cbn [join_comma map fold_right] in *.
      repeat (rewrite length_app || cbn [length]). lia.
    + rewrite join_comma_cons by discriminate.
      repeat (rewrite length_app || cbn [length]). lia.
Qed.

(** Reading back what [JSON.stringify] wrote gives the value written. *)
Theorem parse_stringify (v : json) : parse (stringify v) = Some v.
Proof.
  unfold parse, stringify. rewrite list_ascii_of_string_of_list_ascii.
  pose proof (parse_value_stringify v (S (length (stringify_chars v))) []
                ltac:(pose proof (size_le_length v); lia) I) as P.
  rewrite app_nil_r in P. rewrite P. reflexivity.
Qed.

(** *** One document, one line *)

Lemma one_line_app (a b : chars) : one_line a -> one_line b -> one_line (a ++ b).
Proof. intros Ha Hb. apply Forall_app. split; assumption. Qed.

Lemma quote_char_one_line (c : ascii) : one_line (quote_char c).
Proof.
  destruct c as [[] [] [] [] [] [] [] []]; repeat constructor.
Qed.

Lemma quote_one_line (s : string) : one_line (quote s).
Proof.
  unfold quote. constructor; [reflexivity|].
  apply one_line_app; [|repeat constructor].
  induction s as [|c s IH]; simpl; [constructor|].
  apply one_line_app; [apply quote_char_one_line | assumption].
Qed.

Lemma number_one_line (n : Z) :
  one_line (list_ascii_of_string (number_to_string n)).
Proof.
  eapply Forall_impl; [|apply number_to_string_chars].
  intros c. destruct c as [[] [] [] [] [] [] [] []]; intros H;
    try discriminate H; reflexivity.
Qed.

Lemma join_comma_one_line (parts : list chars) :
  Forall one_line parts -> one_line (join_comma parts).
Proof.
  induction 1 as [|p ps Hp Hps IH]; [constructor|].
  destruct ps as [|q qs]; [assumption|].
  rewrite join_comma_cons by discriminate.
  apply one_line_app; [assumption|]. constructor; [reflexivity | assumption].
Qed.

Theorem stringify_one_line (v : json) : one_line (stringify_chars v).
Proof.
  induction v as [| b | n | s | xs IH | ms IH] using json_nested_ind.
  - repeat constructor.
  - destruct b; repeat constructor.
  - apply number_one_line.
  - apply quote_one_line.
  - cbn [stringify_chars]. constructor; [reflexivity|].
    apply one_line_app; [|repeat constructor].
    apply join_comma_one_line. apply Forall_map. assumption.
  - cbn [stringify_chars]. constructor; [reflexivity|].
    apply one_line_app; [|repeat constructor].
    apply join_comma_one_line. apply Forall_map.
    eapply Forall_impl; [|exact IH].
    intros [k x] Hx. simpl in Hx.
    apply one_line_app; [apply quote_one_line|].
    constructor; [reflexivity | assumption].
Qed.

End JSONText.

Lemma list_ascii_of_string_app (a b : string) :
  list_ascii_of_string (a ++ b) = list_ascii_of_string a ++ list_ascii_of_string b.
Proof. induction a as [|c a IH]; simpl; [reflexivity | rewrite IH; reflexivity]. Qed.

Lemma split_line_app (line rest : chars) :
  JSONFacts.one_line line -> split_line (line ++ LF :: rest) = Some (line, rest).
Proof.
  induction 1 as [|c line Hc _ IH]; simpl.
  - reflexivity.
  - rewrite Hc, IH. reflexivity.
Qed.

(** A chunk made of one serialized value and a line feed reads back as that
    value: the chunk is a single newline-terminated JSON document. *)
Theorem read_frame_chunk (frame : json) :
  read_frame (encode (JSON.stringify frame ++ newline)) = Some frame.
Proof.
  unfold read_frame, encode, decode.
  rewrite string_of_list_byte_of_string, list_ascii_of_string_app.
  unfold JSON.stringify at 1. rewrite list_ascii_of_string_of_list_ascii.
  cbn [newline list_ascii_of_string].
  rewrite split_line_app by apply JSONText.stringify_one_line.
  apply JSONText.parse_stringify.
Qed.

Lemma json_of_Response_json (data : json) (st : Z) :
  json_of_body (body (Response_json data st)) = Some data.
Proof. apply JSONText.parse_stringify. Qed.

Lemma read_frame_frame_chunk (frame : json) :
  read_frame (frame_chunk frame) = Some frame.
Proof. apply read_frame_chunk. Qed.

Lemma frame_type_chunk (frame : json) :
  frame_type (frame_chunk frame) = type_of frame.
Proof. unfold frame_type. rewrite read_frame_frame_chunk. reflexivity. Qed.

(** ** The monad *)

Lemma bind_return {A B} (c : M A) (k : A -> M B) (w w' : world) (a : A) :
  c w = (Return a, w') -> bind c k w = k a w'.
Proof. intros H. unfold bind. rewrite H. reflexivity. Qed.

Lemma bind_throw {A B} (c : M A) (k : A -> M B) (w w' : world) (e : exn) :
  c w = (Throw e, w') -> bind c k w = (Throw e, w').
Proof. intros H. unfold bind. rewrite H. reflexivity. Qed.

(** ** The relay loop of the stream-object route *)

Module Relay.
Import StreamObject.

Lemma enqueue_readable (chunk : list byte) calls con cs :
  controller_enqueue chunk
    {| backend_calls := calls; console := con;
       stream := {| chunks := cs; state := Readable |} |}
  = (Return tt,
     {| backend_calls := calls; console := con;
        stream := {| chunks := cs ++ [chunk]; state := Readable |} |}).
Proof. reflexivity. Qed.

(** One turn of the loop puts exactly one chunk on the stream. *)
Lemma relay_step (partialObject : json) calls con cs :
  relay partialObject
    {| backend_calls := calls; console := con;
       stream := {| chunks := cs; state := Readable |} |}
  = (Return tt,
     {| backend_calls := calls; console := con;
        stream := {| chunks := cs ++ [frame_chunk (partial_frame partialObject)];
                     state := Readable |} |}).
Proof. reflexivity. Qed.

Lemma for_await_relay (partials : list json) (fail : option exn) calls con cs :
  for_await_items partials fail relay
    {| backend_calls := calls; console := con;
       stream := {| chunks := cs; state := Readable |} |}
  = (match fail with
     | None => Return tt
     | Some e => Throw e
     end,
     {| backend_calls := calls; console := con;
        stream := {| chunks := cs ++ map (fun o => frame_chunk (partial_frame o))
                                         partials;
                     state := Readable |} |}).
Proof.
  revert cs. induction partials as [|o partials IH]; intros cs.
  - cbn [for_await_items map]. rewrite app_nil_r. destruct fail; reflexivity.
  - cbn [for_await_items map].
    erewrite bind_return by apply relay_step.
    rewrite IH, <- app_assoc. reflexivity.
Qed.

Lemma start_run (intent : json) (result : partial_object_stream) calls con :
  start intent result
    {| backend_calls := calls; console := con; stream := fresh_stream |}
  = (Return tt,
     {| backend_calls := calls;
        console := con
                   ++ match failure result with
                      | None => []
                      | Some e => [ConsoleError "Streaming error:" e]
                      end;
        stream := relayed intent result |}).
Proof.
  destruct result as [partials fail].
  unfold start, try_catch, for_await, fresh_stream, relayed.
  cbn [items failure].
  erewrite bind_return by apply enqueue_readable.
  destruct fail as [e|].
  - erewrite bind_throw by (rewrite for_await_relay; reflexivity).
    rewrite app_nil_r. reflexivity.
  - erewrite bind_return by (rewrite for_await_relay; reflexivity).
    erewrite bind_return by apply enqueue_readable.
    rewrite app_nil_r. reflexivity.
Qed.


Lemma relayed_frame_types (intent : json) (result : partial_object_stream) :
  map frame_type (chunks (relayed intent result)) =
  Some "intent"
  :: map (fun _ => Some "partial") (items result)
  ++ match failure result with
     | None => [Some "complete"]
     | Some _ => []
     end.
Proof.
  unfold relayed. cbn [chunks map]. rewrite frame_type_chunk, map_app, map_map.
  f_equal. f_equal.
  - apply map_ext. intros o. apply frame_type_chunk.
  - destruct (failure result); [reflexivity|].
    cbn [map]. rewrite frame_type_chunk. reflexivity.
Qed.

Lemma payload_frame_chunk (frame : json) :
  payload (frame_chunk frame) =
  match type_of frame, get_property "data" frame with
  | Some t, Some data => if (t =? "partial")%string then [data] else []
  | _, _ => []
  end.
Proof. unfold payload. rewrite read_frame_frame_chunk. reflexivity. Qed.

Lemma payloads_of_partials (partials : list json) :
  flat_map payload (map (fun o => frame_chunk (partial_frame o)) partials)
  = partials.
Proof.
  induction partials as [|o os IH]; [reflexivity|].
  cbn [map flat_map]. rewrite payload_frame_chunk, IH. reflexivity.
Qed.

Lemma relayed_payloads (intent : json) (result : partial_object_stream) :
  partial_payloads (relayed intent result) = items result.
Proof.
  unfold partial_payloads, relayed. cbn [chunks flat_map].
  rewrite payload_frame_chunk, flat_map_app, payloads_of_partials.
  cbn [type_of get_property get_member intent_frame String.eqb Ascii.eqb Bool.eqb app].
  destruct (failure result).
  - apply app_nil_r.
  - cbn [flat_map]. rewrite payload_frame_chunk. apply app_nil_r.
Qed.

End Relay.

(** ** The switch of the stream-object route *)

Lemma strict_eq_true (v : json) (label : string) :
  strict_eq v label = true <-> v = JStr label.
Proof.
  destruct v; simpl; try (split; [discriminate | intros [=]]).
  rewrite String.eqb_eq. split; [intros ->; reflexivity | intros [= ->]; reflexivity].
Qed.

Lemma switch_intent_label (intent : json) (prompt : value)
    (options : object_options) :
  StreamObject.switch_intent intent prompt = Some options ->
  is_label StreamObject.labels intent.
Proof.
  unfold StreamObject.switch_intent, is_label, StreamObject.labels.
  destruct (strict_eq intent "recipe") eqn:E1;
    [apply strict_eq_true in E1; subst; simpl; eauto 7|].
  destruct (strict_eq intent "person") eqn:E2;
    [apply strict_eq_true in E2; subst; simpl; eauto 7|].
  destruct (strict_eq intent "product") eqn:E3;
    [apply strict_eq_true in E3; subst; simpl; eauto 7|].
  destruct (strict_eq intent "story") eqn:E4;
    [apply strict_eq_true in E4; subst; simpl; eauto 7|].
  discriminate.
Qed.


Lemma switch_intent_registered (label : string) (prompt : value) :
  In label StreamObject.labels ->
  exists options,
    StreamObject.switch_intent (JStr label) prompt = Some options.
Proof.
  intros H.
  destruct (StreamObject.switch_intent (JStr label) prompt) as [o|] eqn:E;
    [eauto|].
  exfalso. simpl in H.
  destruct H as [<-|[<-|[<-|[<-|[]]]]]; discriminate E.
Qed.

(** ** Runs of the stream-object handler *)

Module StreamRuns.
Import StreamObject.

Ltac run_handler :=
  unfold run, POST, try_catch, read_prompt, detect_intent, generateObject_enum,
    streamObject, new_ReadableStream, bind, lift, ret, record_call, console_log,
    console_error, set_stream, get_stream, initial_world;
  cbn [backend_calls console stream app].

Section Run.
Variables (B : backend) (req : request) (parsed : json) (prompt : value).
Hypothesis Hbody : json_body req = Return parsed.
Hypothesis Hprompt : destructure_prompt parsed = Return prompt.

Lemma stream_POST_streams (intent : json) (options : object_options)
    (result : partial_object_stream) :
  generate_enum B (google gemini) labels (classifier_prompt prompt)
  = Return intent ->
  switch_intent intent prompt = Some options ->
  stream_object B options = Return result ->
  run (POST B req) =
  (Return (Response_stream (relayed intent result) stream_headers),
   {| backend_calls := [stream_classification prompt; StreamObject options];
      console := ConsoleLog "Detected intent:" intent
                 :: match failure result with
                    | None => []
                    | Some e => [ConsoleError "Streaming error:" e]
                    end;
      stream := relayed intent result |}).
Proof.
  intros Hc Hs Hr. run_handler. rewrite Hbody, Hprompt, Hc, Hs, Hr.
  rewrite Relay.start_run. reflexivity.
Qed.

Lemma stream_POST_unknown (intent : json) :
  generate_enum B (google gemini) labels (classifier_prompt prompt)
  = Return intent ->
  switch_intent intent prompt = None ->
  run (POST B req) =
  (Return stream_unknown,
   {| backend_calls := [stream_classification prompt];
      console := [ConsoleLog "Detected intent:" intent];
      stream := fresh_stream |}).
Proof.
  intros Hc Hs. run_handler. rewrite Hbody, Hprompt, Hc, Hs. reflexivity.
Qed.

Lemma stream_POST_classifier_throws (e : exn) :
  generate_enum B (google gemini) labels (classifier_prompt prompt) = Throw e ->
  run (POST B req) =
  (Return stream_failed,
   {| backend_calls := [stream_classification prompt];
      console := [ConsoleError "Error:" e];
      stream := fresh_stream |}).
Proof.
  intros Hc. run_handler. rewrite Hbody, Hprompt, Hc. reflexivity.
Qed.

Lemma stream_POST_generator_throws (intent : json) (options : object_options)
    (e : exn) :
  generate_enum B (google gemini) labels (classifier_prompt prompt)
  = Return intent ->
  switch_intent intent prompt = Some options ->
  stream_object B options = Throw e ->
  run (POST B req) =
  (Return stream_failed,
   {| backend_calls := [stream_classification prompt; StreamObject options];
      console := [ConsoleLog "Detected intent:" intent; ConsoleError "Error:" e];
      stream := fresh_stream |}).
Proof.
  intros Hc Hs Hr. run_handler. rewrite Hbody, Hprompt, Hc, Hs, Hr.
  reflexivity.
Qed.

(** Every run that got hold of a prompt is one of the four above. *)
Lemma stream_POST_cases :
  exists r w,
    run (POST B req) = (Return r, w) /\
    exists rest,
      backend_calls w = stream_classification prompt :: rest /\
      ((exists e,
          generate_enum B (google gemini) labels (classifier_prompt prompt)
          = Throw e /\ r = stream_failed /\ rest = [])
       \/ (exists intent,
             generate_enum B (google gemini) labels (classifier_prompt prompt)
             = Return intent /\
             ~ is_label labels intent /\ r = stream_unknown /\ rest = [])
       \/ (exists intent options,
             generate_enum B (google gemini) labels (classifier_prompt prompt)
             = Return intent /\
             is_label labels intent /\
             switch_intent intent prompt = Some options /\
             rest = [StreamObject options] /\
             ((exists e, stream_object B options = Throw e /\ r = stream_failed)
              \/ (exists result,
                    stream_object B options = Return result /\
                    r = Response_stream (relayed intent result)
                          stream_headers)))).
Proof.
  destruct (generate_enum B (google gemini) labels (classifier_prompt prompt))
    as [intent|e] eqn:Hc.
  - destruct (switch_intent intent prompt) as [options|] eqn:Hs.
    + pose proof (switch_intent_label _ _ _ Hs) as Hl.
      destruct (stream_object B options) as [result|e] eqn:Hr.
      * rewrite (stream_POST_streams _ _ _ Hc Hs Hr).
        eexists _, _. split; [reflexivity|]. eexists. split; [reflexivity|].
        right. right. exists intent, options. repeat split; eauto.
      * rewrite (stream_POST_generator_throws _ _ _ Hc Hs Hr).
        eexists _, _. split; [reflexivity|]. eexists. split; [reflexivity|].
        right. right. exists intent, options. repeat split; eauto.
    + rewrite (stream_POST_unknown _ Hc Hs).
      eexists _, _. split; [reflexivity|]. eexists. split; [reflexivity|].
      right. left. exists intent. repeat split; auto.
      intros Hl. destruct Hl as (l & -> & Hin).
      destruct (switch_intent_registered l prompt Hin) as (o & Ho).
      congruence.
  - rewrite (stream_POST_classifier_throws _ Hc).
    eexists _, _. split; [reflexivity|]. eexists. split; [reflexivity|].
    left. eauto.
Qed.

End Run.

(** A request whose body cannot be read, or is [null], is answered with
    500 before any backend call. *)
Lemma stream_POST_unreadable (B : backend) (req : request) :
  (exists e, json_body req = Throw e) \/ json_body req = Return JNull ->
  exists e,
    run (POST B req) =
    (Return stream_failed,
     {| backend_calls := [];
        console := [ConsoleError "Error:" e];
        stream := fresh_stream |}).
Proof.
  intros [[e H] | H]; run_handler; rewrite H; eexists; reflexivity.
Qed.

Lemma readable_or_not (req : request) :
  ((exists e, json_body req = Throw e) \/ json_body req = Return JNull)
  \/ (exists parsed prompt,
        json_body req = Return parsed /\
        destructure_prompt parsed = Return prompt).
Proof.
  destruct (json_body req) as [parsed|e]; [|left; left; eauto].
  destruct parsed; try (right; eexists _, _; split; reflexivity).
  left. right. reflexivity.
Qed.

End StreamRuns.

(** ** Runs of the generate-object-smart handler *)

Module SmartRuns.
Import GenerateObjectSmart.

Ltac run_handler :=
  unfold run, POST, try_catch, read_prompt, detect_intent, generateObject_enum,
    generateObject, generateText, bind, lift, ret, record_call, console_log,
    console_error, initial_world;
  cbn [backend_calls console stream app].


Lemma error_response_shape (msg : string) (st : Z) :
  st = 400%Z \/ st = 500%Z ->
  error_shape (Response_json (JObj [("error", JStr msg)]) st).
Proof.
  intros H. split; [exact H|]. exists msg. apply json_of_Response_json.
Qed.



Lemma not_label_strict_eq (intent : json) :
  strict_eq intent "recipe" = false ->
  strict_eq intent "person" = false ->
  strict_eq intent "general-question" = false ->
  strict_eq intent "product" = false ->
  ~ is_label labels intent.
Proof.
  intros H1 H2 H3 H4 (l & -> & Hin). simpl in Hin.
  destruct Hin as [<-|[<-|[<-|[<-|[]]]]]; discriminate.
Qed.

Section Run.
Variables (B : backend) (req : request) (parsed : json) (prompt : value).
Hypothesis Hbody : json_body req = Return parsed.
Hypothesis Hprompt : destructure_prompt parsed = Return prompt.

Lemma smart_POST_classifier_throws (e : exn) :
  generate_enum B (google gemini) labels (classifier_prompt prompt) = Throw e ->
  run (POST B req) =
  (Return smart_failed,
   {| backend_calls := [smart_classification prompt];
      console := [ConsoleError "Error:" e];
      stream := fresh_stream |}).
Proof.
  intros Hc. run_handler. rewrite Hbody, Hprompt, Hc. reflexivity.
Qed.

Lemma smart_POST_unknown (intent : json) :
  generate_enum B (google gemini) labels (classifier_prompt prompt)
  = Return intent ->
  ~ is_label labels intent ->
  run (POST B req) =
  (Return smart_unknown,
   {| backend_calls := [smart_classification prompt];
      console := [ConsoleLog "Detected intent:" intent];
      stream := fresh_stream |}).
Proof.
  intros Hc Hl. run_handler. rewrite Hbody, Hprompt, Hc.
  destruct (strict_eq intent "recipe") eqn:E1;
    [apply strict_eq_true in E1; exfalso; apply Hl; subst; eexists; simpl; eauto|].
  destruct (strict_eq intent "person") eqn:E2;
    [apply strict_eq_true in E2; exfalso; apply Hl; subst; eexists; simpl; eauto|].
  destruct (strict_eq intent "general-question") eqn:E3;
    [apply strict_eq_true in E3; exfalso; apply Hl; subst; eexists; simpl; eauto|].
  destruct (strict_eq intent "product") eqn:E4;
    [apply strict_eq_true in E4; exfalso; apply Hl; subst; eexists; simpl; eauto 6|].
  reflexivity.
Qed.

Lemma smart_POST_general_question (answer : outcome string) :
  generate_enum B (google gemini) labels (classifier_prompt prompt)
  = Return (JStr "general-question") ->
  generate_text B (google gemini) prompt = answer ->
  run (POST B req) =
  (Return match answer with
          | Return text =>
              typed_response "general-question" (JObj [("answer", JStr text)])
          | Throw _ => smart_failed
          end,
   {| backend_calls := [smart_classification prompt;
                        GenerateText (google gemini) prompt];
      console := ConsoleLog "Detected intent:" (JStr "general-question")
                 :: match answer with
                    | Return _ => []
                    | Throw e => [ConsoleError "Error:" e]
                    end;
      stream := fresh_stream |}).
Proof.
  intros Hc Ha. run_handler. rewrite Hbody, Hprompt, Hc.
  cbn [strict_eq String.eqb Ascii.eqb Bool.eqb]. rewrite Ha.
  destruct answer; reflexivity.
Qed.

(** The structured cases: the label, and the options its case hands to
    [generateObject]. *)
Lemma smart_POST_structured (l : string) (o : object_options) (object : outcome json) :
  generate_enum B (google gemini) labels (classifier_prompt prompt)
  = Return (JStr l) ->
  (l = "recipe" /\
   o = Build_object_options (google gemini) recipe_schema prompt)
  \/ (l = "person" /\
      o = Build_object_options (google gemini) person_schema
            (Some (JStr ("Provide structured information about: "
                         ++ to_string prompt))))
  \/ (l = "product" /\
      o = Build_object_options (google gemini) product_schema
            (Some (JStr ("Generate product information for: "
                         ++ to_string prompt)))) ->
  generate_object B o = object ->
  run (POST B req) =
  (Return match object with
          | Return data => typed_response l data
          | Throw _ => smart_failed
          end,
   {| backend_calls := [smart_classification prompt; GenerateObject o];
      console := ConsoleLog "Detected intent:" (JStr l)
                 :: match object with
                    | Return _ => []
                    | Throw e => [ConsoleError "Error:" e]
                    end;
      stream := fresh_stream |}).
Proof.
  intros Hc Hl Ho. run_handler. rewrite Hbody, Hprompt, Hc.
  destruct Hl as [[-> ->]|[[-> ->]|[-> ->]]];
    cbn [strict_eq String.eqb Ascii.eqb Bool.eqb]; rewrite Ho;
    destruct object; reflexivity.
Qed.

Lemma structured_outcome (l : string) (o : object_options) :
  In l labels ->
  generate_enum B (google gemini) labels (classifier_prompt prompt)
  = Return (JStr l) ->
  (l = "recipe" /\
   o = Build_object_options (google gemini) recipe_schema prompt)
  \/ (l = "person" /\
      o = Build_object_options (google gemini) person_schema
            (Some (JStr ("Provide structured information about: "
                         ++ to_string prompt))))
  \/ (l = "product" /\
      o = Build_object_options (google gemini) product_schema
            (Some (JStr ("Generate product information for: "
                         ++ to_string prompt)))) ->
  exists r w,
    run (POST B req) = (Return r, w) /\
    backend_calls w = [smart_classification prompt; GenerateObject o] /\
    l <> "general-question" /\
    ((answered B (GenerateObject o) /\ exists data, r = typed_response l data)
     \/ (~ answered B (GenerateObject o) /\ r = smart_failed)).
Proof.
  intros Hin Hc Hl.
  rewrite (smart_POST_structured l o (generate_object B o) Hc Hl eq_refl).
  eexists _, _. split; [reflexivity|]. split; [reflexivity|].
  split; [destruct Hl as [[-> _]|[[-> _]|[-> _]]]; discriminate|].
  destruct (generate_object B o) as [data|e] eqn:Ho.
  - left. split; [simpl; eauto | eauto].
  - right. split; [|reflexivity]. simpl. intros [v Hv]. congruence.
Qed.

(** Every run that got hold of a prompt: the classifier is called first,
    and at most one generation call follows. *)
Lemma smart_POST_cases :
  exists r w,
    run (POST B req) = (Return r, w) /\
    exists rest,
      backend_calls w = smart_classification prompt :: rest /\
      ((exists e,
          generate_enum B (google gemini) labels (classifier_prompt prompt)
          = Throw e /\ r = smart_failed /\ rest = [])
       \/ (exists intent,
             generate_enum B (google gemini) labels (classifier_prompt prompt)
             = Return intent /\
             ~ is_label labels intent /\ r = smart_unknown /\ rest = [])
       \/ (exists l gen,
             generate_enum B (google gemini) labels (classifier_prompt prompt)
             = Return (JStr l) /\
             In l labels /\
             rest = [gen] /\
             is_classification gen = false /\
             (schema_of_call gen = None <-> l = "general-question") /\
             ((answered B gen /\ exists data, r = typed_response l data)
              \/ (~ answered B gen /\ r = smart_failed)))).
Proof.
  destruct (generate_enum B (google gemini) labels (classifier_prompt prompt))
    as [intent|e] eqn:Hc.
  2:{ rewrite (smart_POST_classifier_throws _ Hc).
      eexists _, _. split; [reflexivity|]. eexists. split; [reflexivity|].
      left. eauto. }
  assert (Hstructured : forall l o,
    intent = JStr l -> In l labels ->
    (l = "recipe" /\
     o = Build_object_options (google gemini) recipe_schema prompt)
    \/ (l = "person" /\
        o = Build_object_options (google gemini) person_schema
              (Some (JStr ("Provide structured information about: "
                           ++ to_string prompt))))
    \/ (l = "product" /\
        o = Build_object_options (google gemini) product_schema
              (Some (JStr ("Generate product information for: "
                           ++ to_string prompt)))) ->
    exists r w,
      run (POST B req) = (Return r, w) /\
      exists rest,
        backend_calls w = smart_classification prompt :: rest /\
        ((exists e, Return intent = Throw e /\ r = smart_failed /\ rest = [])
         \/ (exists intent0,
               Return intent = Return intent0 /\
               ~ is_label labels intent0 /\ r = smart_unknown /\ rest = [])
         \/ (exists l gen,
               Return intent = Return (JStr l) /\
               In l labels /\
               rest = [gen] /\
               is_classification gen = false /\
               (schema_of_call gen = None <-> l = "general-question") /\
               ((answered B gen /\ exists data, r = typed_response l data)
                \/ (~ answered B gen /\ r = smart_failed))))).
  { intros l o -> Hin Hl.
    destruct (structured_outcome l o Hin Hc Hl) as (r & w & Hrun & Hcalls & Hne & Hr).
    exists r, w. split; [assumption|]. eexists. split; [exact Hcalls|].
    right. right. exists l, (GenerateObject o).
    repeat split; auto; try discriminate. intros; contradiction. }
  destruct (strict_eq intent "recipe") eqn:E1.
  { apply strict_eq_true in E1.
    eapply Hstructured; [exact E1 | simpl; auto | left; split; reflexivity]. }
  destruct (strict_eq intent "person") eqn:E2.
  { apply strict_eq_true in E2.
    eapply Hstructured;
      [exact E2 | simpl; auto | right; left; split; reflexivity]. }
  destruct (strict_eq intent "general-question") eqn:E3.
  { apply strict_eq_true in E3. subst intent.
    rewrite (smart_POST_general_question _ Hc eq_refl).
    eexists _, _. split; [reflexivity|]. eexists. split; [reflexivity|].
    right. right. exists "general-question", (GenerateText (google gemini) prompt).
    repeat split; auto; [simpl; auto|].
    destruct (generate_text B (google gemini) prompt) as [text|e] eqn:Ht.
    - left. split; [simpl; eauto | eauto].
    - right. split; [|reflexivity]. simpl. intros [v Hv]. congruence. }
  destruct (strict_eq intent "product") eqn:E4.
  { apply strict_eq_true in E4.
    eapply Hstructured;
      [exact E4 | simpl; auto 6 | right; right; split; reflexivity]. }
  pose proof (not_label_strict_eq intent E1 E2 E3 E4) as Hl.
  rewrite (smart_POST_unknown _ Hc Hl).
  eexists _, _. split; [reflexivity|]. eexists. split; [reflexivity|].
  right. left. eauto.
Qed.

End Run.

Lemma smart_POST_unreadable (B : backend) (req : request) :
  (exists e, json_body req = Throw e) \/ json_body req = Return JNull ->
  exists e,
    run (POST B req) =
    (Return smart_failed,
     {| backend_calls := [];
        console := [ConsoleError "Error:" e];
        stream := fresh_stream |}).
Proof.
  intros [[e H] | H]; run_handler; rewrite H; eexists; reflexivity.
Qed.

End SmartRuns.

(** * The claims *)

Section StreamClaims.
Import StreamObject.











Example whole_recipe_passes :
  satisfies recipe_schema
    (JObj [("recipe",
            JObj [("name", JStr "Green curry");
                  ("cuisine", JStr "Thai");
                  ("difficulty", JStr "medium");
                  ("prepTime", JStr "15 min");
                  ("cookTime", JStr "25 min");
                  ("servings", JNum 4);
                  ("ingredients",
                   JArr [JObj [("name", JStr "coconut milk");
                               ("amount", JStr "400");
                               ("unit", JStr "ml")]]);
                  ("steps", JArr [JStr "Fry the paste"]);
                  ("tags", JArr [JStr "spicy"])])])
  = true.
Proof. reflexivity. Qed.

End StreamClaims.

(** ** Labels outside the fixed set *)




(** ** Failures of the classifier *)




(** ** The response shapes of generate-object-smart *)






(** ** The classifier phase *)




(** ** Prompts that are missing or empty *)

(** C9, as the code has it.  Neither route checks the prompt.  For a body
    that is not [null] and has no [prompt] property, or has the empty
    string as prompt, both handlers go on to the classifier: the first
    backend call is the classification, and the text it is given has
    ["undefined"], or nothing, between the quotes of its first line.  The
    only 4xx either handler can then give is the 400 of the [default:]
    branch, after the classifier answered outside the label set. *)
Theorem C9_prompt_is_not_validated
    (B : backend) (req : request) (parsed : json) (shown : string) :
  json_body req = Return parsed ->
  parsed <> JNull ->
  get_property "prompt" parsed = undefined /\ shown = "undefined"
  \/ get_property "prompt" parsed = Some (JStr "") /\ shown = "" ->
  (exists r w rest,
      run (StreamObject.POST B req) = (Return r, w) /\
      backend_calls w
      = GenerateObjectEnum "gemini-2.5-flash"
          ["recipe"; "person"; "product"; "story"]
          (join newline
           [classifier_first_line shown;
            "      ";
            "      - recipe: User wants a recipe or cooking instructions";
            "      - person: User is asking about a person";
            "      - product: User wants product information";
            "      - story: User wants a creative story"])
        :: rest /\
      (status r = 200%Z \/ status r = 400%Z \/ status r = 500%Z) /\
      (status r = 400%Z ->
       exists intent,
         generate_enum B "gemini-2.5-flash"
           ["recipe"; "person"; "product"; "story"]
           (join newline
           [classifier_first_line shown;
            "      ";
            "      - recipe: User wants a recipe or cooking instructions";
            "      - person: User is asking about a person";
            "      - product: User wants product information";
            "      - story: User wants a creative story"])
         = Return intent /\
         ~ is_label StreamObject.labels intent))
  /\
  (exists r w rest,
      run (GenerateObjectSmart.POST B req) = (Return r, w) /\
      backend_calls w
      = GenerateObjectEnum "gemini-2.5-flash"
          ["recipe"; "person"; "general-question"; "product"]
          (join newline
           [classifier_first_line shown;
            "      ";
            "      - recipe: User wants a recipe or cooking instructions";
            "      - person: User is asking about a person";
            "      - general-question: User is asking a general knowledge question";
            "      - product: User wants product information"])
        :: rest /\
      (status r = 200%Z \/ status r = 400%Z \/ status r = 500%Z) /\
      (status r = 400%Z ->
       exists intent,
         generate_enum B "gemini-2.5-flash"
           ["recipe"; "person"; "general-question"; "product"]
           (join newline
           [classifier_first_line shown;
            "      ";
            "      - recipe: User wants a recipe or cooking instructions";
            "      - person: User is asking about a person";
            "      - general-question: User is asking a general knowledge question";
            "      - product: User wants product information"])
         = Return intent /\
         ~ is_label GenerateObjectSmart.labels intent)).
Proof.
  intros Hbody Hnull Hmissing.
  assert (Hprompt : destructure_prompt parsed
                    = Return (get_property "prompt" parsed))
    by (destruct parsed; try reflexivity; congruence).
  assert (Hshown : to_string (get_property "prompt" parsed) = shown)
    by (destruct Hmissing as [[-> ->]|[-> ->]]; reflexivity).
  assert (Hstream : StreamObject.classifier_prompt
                      (get_property "prompt" parsed)
                    = join newline
                        [classifier_first_line shown;
                         "      ";
                         "      - recipe: User wants a recipe or cooking instructions";
                         "      - person: User is asking about a person";
                         "      - product: User wants product information";
                         "      - story: User wants a creative story"])
    by (rewrite <- Hshown; reflexivity).
  assert (Hsmart : GenerateObjectSmart.classifier_prompt
                     (get_property "prompt" parsed)
                   = join newline
                       [classifier_first_line shown;
                        "      ";
                        "      - recipe: User wants a recipe or cooking instructions";
                        "      - person: User is asking about a person";
                        "      - general-question: User is asking a general knowledge question";
                        "      - product: User wants product information"])
    by (rewrite <- Hshown; reflexivity).
  rewrite <- Hstream, <- Hsmart.
  split.
  - destruct (StreamRuns.stream_POST_cases B req parsed _ Hbody Hprompt)
      as (r & w & Hrun & rest & Hcalls & Hcases).
    exists r, w, rest. split; [exact Hrun|]. split; [exact Hcalls|].
    destruct Hcases as [(e & _ & -> & _)
                       |[(i & Hc & Hl & -> & _)
                        |(i & o & _ & _ & _ & _ & Hgen)]].
    + split; [auto|]. discriminate.
    + split; [auto|]. intros _. eauto.
    + destruct Hgen as [(e & _ & ->)|(result & _ & ->)];
        (split; [auto|]); discriminate.
  - destruct (SmartRuns.smart_POST_cases B req parsed _ Hbody Hprompt)
      as (r & w & Hrun & rest & Hcalls & Hcases).
    exists r, w, rest. split; [exact Hrun|]. split; [exact Hcalls|].
    destruct Hcases as [(e & _ & -> & _)
                       |[(i & Hc & Hl & -> & _)
                        |(l & gen & _ & _ & _ & _ & _ & Hgen)]].
    + split; [auto|]. discriminate.
    + split; [auto|]. intros _. eauto.
    + destruct Hgen as [(_ & data & ->)|(_ & ->)];
        (split; [auto|]); discriminate.
Qed.

(** A body without a [prompt] property, and a body whose prompt is the
    empty string. *)
Lemma C9_witness :
  ((exists r w rest,
      run (StreamObject.POST Samples.refusing_backend Samples.promptless_request) = (Return r, w) /\
      backend_calls w
      = GenerateObjectEnum "gemini-2.5-flash"
          ["recipe"; "person"; "product"; "story"]
          (join newline
           [classifier_first_line "undefined";
            "      ";
            "      - recipe: User wants a recipe or cooking instructions";
            "      - person: User is asking about a person";
            "      - product: User wants product information";
            "      - story: User wants a creative story"])
        :: rest /\
      (status r = 200%Z \/ status r = 400%Z \/ status r = 500%Z) /\
      (status r = 400%Z ->
       exists intent,
         generate_enum Samples.refusing_backend "gemini-2.5-flash"
           ["recipe"; "person"; "product"; "story"]
           (join newline
           [classifier_first_line "undefined";
            "      ";
            "      - recipe: User wants a recipe or cooking instructions";
            "      - person: User is asking about a person";
            "      - product: User wants product information";
            "      - story: User wants a creative story"])
         = Return intent /\
         ~ is_label StreamObject.labels intent))
  /\
  (exists r w rest,
      run (GenerateObjectSmart.POST Samples.refusing_backend Samples.promptless_request) = (Return r, w) /\
      backend_calls w
      = GenerateObjectEnum "gemini-2.5-flash"
          ["recipe"; "person"; "general-question"; "product"]
          (join newline
           [classifier_first_line "undefined";
            "      ";
            "      - recipe: User wants a recipe or cooking instructions";
            "      - person: User is asking about a person";
            "      - general-question: User is asking a general knowledge question";
            "      - product: User wants product information"])
        :: rest /\
      (status r = 200%Z \/ status r = 400%Z \/ status r = 500%Z) /\
      (status r = 400%Z ->
       exists intent,
         generate_enum Samples.refusing_backend "gemini-2.5-flash"
           ["recipe"; "person"; "general-question"; "product"]
           (join newline
           [classifier_first_line "undefined";
            "      ";
            "      - recipe: User wants a recipe or cooking instructions";
            "      - person: User is asking about a person";
            "      - general-question: User is asking a general knowledge question";
            "      - product: User wants product information"])
         = Return intent /\
         ~ is_label GenerateObjectSmart.labels intent)))
  /\
  ((exists r w rest,
      run (StreamObject.POST (Samples.steady_backend (JStr "story") {| items := []; failure := None |}) Samples.empty_prompt_request) = (Return r, w) /\
      backend_calls w
      = GenerateObjectEnum "gemini-2.5-flash"
          ["recipe"; "person"; "product"; "story"]
          (join newline
           [classifier_first_line "";
            "      ";
            "      - recipe: User wants a recipe or cooking instructions";
            "      - person: User is asking about a person";
            "      - product: User wants product information";
            "      - story: User wants a creative story"])
        :: rest /\
      (status r = 200%Z \/ status r = 400%Z \/ status r = 500%Z) /\
      (status r = 400%Z ->
       exists intent,
         generate_enum (Samples.steady_backend (JStr "story") {| items := []; failure := None |}) "gemini-2.5-flash"
           ["recipe"; "person"; "product"; "story"]
           (join newline
           [classifier_first_line "";
            "      ";
            "      - recipe: User wants a recipe or cooking instructions";
            "      - person: User is asking about a person";
            "      - product: User wants product information";
            "      - story: User wants a creative story"])
         = Return intent /\
         ~ is_label StreamObject.labels intent))
  /\
  (exists r w rest,
      run (GenerateObjectSmart.POST (Samples.steady_backend (JStr "story") {| items := []; failure := None |}) Samples.empty_prompt_request) = (Return r, w) /\
      backend_calls w
      = GenerateObjectEnum "gemini-2.5-flash"
          ["recipe"; "person"; "general-question"; "product"]
          (join newline
           [classifier_first_line "";
            "      ";
            "      - recipe: User wants a recipe or cooking instructions";
            "      - person: User is asking about a person";
            "      - general-question: User is asking a general knowledge question";
            "      - product: User wants product information"])
        :: rest /\
      (status r = 200%Z \/ status r = 400%Z \/ status r = 500%Z) /\
      (status r = 400%Z ->
       exists intent,
         generate_enum (Samples.steady_backend (JStr "story") {| items := []; failure := None |}) "gemini-2.5-flash"
           ["recipe"; "person"; "general-question"; "product"]
           (join newline
           [classifier_first_line "";
            "      ";
            "      - recipe: User wants a recipe or cooking instructions";
            "      - person: User is asking about a person";
            "      - general-question: User is asking a general knowledge question";
            "      - product: User wants product information"])
         = Return intent /\
         ~ is_label GenerateObjectSmart.labels intent))).
Proof.
  split.
  - apply (C9_prompt_is_not_validated Samples.refusing_backend
             Samples.promptless_request (JObj [("topic", JStr "curry")])
             "undefined").
    + reflexivity.
    + discriminate.
    + left. split; reflexivity.
  - apply (C9_prompt_is_not_validated
             (Samples.steady_backend (JStr "story")
                {| items := []; failure := None |})
             Samples.empty_prompt_request (JObj [("prompt", JStr "")]) "").
    + reflexivity.
    + discriminate.
    + right. split; reflexivity.
Defined.

(** C9 as stated fails.  The body [null] has no [prompt] property, and
    neither handler goes on to the classifier for it: destructuring the
    body throws, no backend call is made and the answer is a 500. *)
Lemma C9_counterexample :
  let B := Samples.steady_backend (JStr "recipe")
             {| items := []; failure := None |} in
  let req := {| json_body := Return JNull |} in
  get_property "prompt" JNull = undefined /\
  backend_calls (snd (run (StreamObject.POST B req))) = [] /\
  response_status (fst (run (StreamObject.POST B req))) = Some 500%Z /\
  backend_calls (snd (run (GenerateObjectSmart.POST B req))) = [] /\
  response_status (fst (run (GenerateObjectSmart.POST B req))) = Some 500%Z.
Proof.
  vm_compute. repeat split; reflexivity.
Qed.

Example promptless_classification :
  backend_calls
    (snd (run (StreamObject.POST
                 (Samples.steady_backend (JStr "story")
                    {| items := []; failure := None |})
                 Samples.promptless_request)))
  = [GenerateObjectEnum "gemini-2.5-flash"
       ["recipe"; "person"; "product"; "story"]
       (join newline
          [classifier_first_line "undefined";
           "      ";
           "      - recipe: User wants a recipe or cooking instructions";
           "      - person: User is asking about a person";
           "      - product: User wants product information";
           "      - story: User wants a creative story"]);
     StreamObject
       {| model := "gemini-2.5-flash";
          schema := StreamObject.story_schema;
          prompt := Some (JStr "Write a creative story about: undefined") |}].
Proof. reflexivity. Qed.

Example empty_prompt_classification :
  backend_calls
    (snd (run (GenerateObjectSmart.POST Samples.refusing_backend
                 Samples.empty_prompt_request)))
  = [GenerateObjectEnum "gemini-2.5-flash"
       ["recipe"; "person"; "general-question"; "product"]
       (join newline
          [classifier_first_line "";
           "      ";
           "      - recipe: User wants a recipe or cooking instructions";
           "      - person: User is asking about a person";
           "      - general-question: User is asking a general knowledge question";
           "      - product: User wants product information"])].
Proof. reflexivity. Qed.

(** ** The free-text entry of generate-object-smart *)



Example general_question_answer :
  fst (run (GenerateObjectSmart.POST
              (Samples.steady_backend (JStr "general-question")
                 {| items := []; failure := None |})
              Samples.curry_request))
  = Return
      {| status := 200;
         headers := [("content-type", "application/json")];
         body := TextBody
                   (JSON.stringify
                      (JObj [("type", JStr "general-question");
                             ("data", JObj [("answer", JStr "Bangkok")])])) |}.
Proof. reflexivity. Qed.

(** ** Lines of a text *)

Module Lines.
Import JSONFacts.

Lemma split_newline_not_nil (cs : chars) : split_newline cs <> [].
Proof.
  induction cs as [|c r IH]; simpl; [discriminate|].
  destruct (c =? LF)%char; [discriminate|].
  destruct (split_newline r); [congruence | discriminate].
Qed.

Lemma split_newline_cons (c : ascii) (r : chars) :
  split_newline (c :: r) =
  if (c =? LF)%char then [] :: split_newline r
  else match split_newline r with
       | piece :: pieces => (c :: piece) :: pieces
       | [] => [[c]]
       end.
Proof. reflexivity. Qed.

Lemma complete_lines_cons (c : ascii) (r : chars) :
  complete_lines (c :: r) =
  if (c =? LF)%char then [] :: complete_lines r
  else match complete_lines r with
       | line :: lines => (c :: line) :: lines
       | [] => []
       end.
Proof.
  unfold complete_lines. rewrite split_newline_cons.
  pose proof (split_newline_not_nil r) as Hne.
  destruct (c =? LF)%char.
  - cbn [removelast]. destruct (split_newline r); [congruence | reflexivity].
  - destruct (split_newline r) as [|p ps]; [congruence|].
    cbn [removelast]. destruct ps; reflexivity.
Qed.

Lemma residue_cons (c : ascii) (r : chars) :
  residue (c :: r) =
  if (c =? LF)%char then residue r
  else match complete_lines r with
       | _ :: _ => residue r
       | [] => c :: residue r
       end.
Proof.
  unfold residue, complete_lines. rewrite split_newline_cons.
  pose proof (split_newline_not_nil r) as Hne.
  destruct (c =? LF)%char.
  - cbn [last]. destruct (split_newline r); [congruence | reflexivity].
  - destruct (split_newline r) as [|p ps]; [congruence|].
    cbn [last removelast]. destruct ps; reflexivity.
Qed.

(** What is left after the last line feed has no line feed. *)
Lemma residue_one_line (cs : chars) : one_line (residue cs).
Proof.
  induction cs as [|c r IH]; [constructor|].
  rewrite residue_cons. destruct (c =? LF)%char eqn:E; [assumption|].
  destruct (complete_lines r); [constructor; assumption | assumption].
Qed.

Lemma one_line_complete_lines (cs : chars) :
  one_line cs -> complete_lines cs = [] /\ residue cs = cs.
Proof.
  induction 1 as [|c r Hc _ [IH1 IH2]]; [split; reflexivity|].
  rewrite complete_lines_cons, residue_cons, Hc, IH1, IH2. split; reflexivity.
Qed.

(** Splitting a text that arrives in two parts: the lines of the first
    part, then the lines of what was left of it followed by the second. *)
Lemma complete_lines_app (x y : chars) :
  complete_lines (x ++ y) = complete_lines x ++ complete_lines (residue x ++ y)
  /\ residue (x ++ y) = residue (residue x ++ y).
Proof.
  induction x as [|c r [IH1 IH2]]; [split; reflexivity|].
  cbn [app]. rewrite !complete_lines_cons, !residue_cons.
  destruct (c =? LF)%char eqn:E.
  - rewrite IH1, IH2. split; reflexivity.
  - destruct (complete_lines r) as [|l ls] eqn:Hr.
    + cbn [app] in *. rewrite IH1, IH2.
      rewrite complete_lines_cons, residue_cons, E. split; reflexivity.
    + rewrite IH1, IH2. cbn [app]. split; reflexivity.
Qed.

Lemma complete_lines_line (line rest : chars) :
  one_line line ->
  complete_lines (line ++ LF :: rest) = line :: complete_lines rest
  /\ residue (line ++ LF :: rest) = residue rest.
Proof.
  induction 1 as [|c r Hc _ [IH1 IH2]].
  - cbn [app]. rewrite complete_lines_cons, residue_cons. split; reflexivity.
  - cbn [app]. rewrite complete_lines_cons, residue_cons, Hc, IH1, IH2.
    split; reflexivity.
Qed.

End Lines.

(** ** Page handlers *)

Lemma for_of_app {S A} (xs ys : list A) (body : A -> PM S unit) (s : S) :
  for_of (xs ++ ys) body s
  = pbind (for_of xs body) (fun _ => for_of ys body) s.
Proof.
  revert s. induction xs as [|x xs IH]; intros s; [reflexivity|].
  cbn [app for_of]. unfold pbind in *.
  destruct (body x s) as [[[]|e] s']; [|reflexivity].
  apply IH.
Qed.

Lemma text_of_decode_app (a b : list byte) :
  list_ascii_of_string (decode (a ++ b))
  = list_ascii_of_string (decode a) ++ list_ascii_of_string (decode b).
Proof.
  unfold decode, string_of_list_byte.
  rewrite !list_ascii_of_string_of_list_ascii. apply map_app.
Qed.

Module StreamPageFacts.
Import StreamObjectPage JSONFacts Lines.

Section Reading.
Variable JSON_parse : string -> outcome json.

(** A line never makes the loop throw: a parse error, or an event that is
    [null], is caught and logged. *)
Lemma handle_line_returns (line : chars) (w : page_world) :
  exists w',
    handle_line JSON_parse line w = (Return tt, w') /\
    fetches w' = fetches w /\
    prompt (page w') = prompt (page w).
Proof.
  unfold handle_line.
  destruct (trims_to_empty (string_of_list_ascii line));
    [eexists; repeat split; reflexivity|].
  unfold pcatch, pbind.
  destruct (JSON_parse (string_of_list_ascii line)) as [event|e];
    [|eexists; repeat split; reflexivity].
  unfold dispatch.
  destruct event; try (eexists; repeat split; reflexivity);
    repeat match goal with
           | |- context [if ?b then _ else _] => destruct b
           end; eexists; repeat split; reflexivity.
Qed.

Lemma for_of_lines_returns (lines : list chars) (w : page_world) :
  exists w',
    for_of lines (handle_line JSON_parse) w = (Return tt, w') /\
    fetches w' = fetches w /\
    prompt (page w') = prompt (page w).
Proof.
  revert w. induction lines as [|l ls IH]; intros w;
    [eexists; repeat split; reflexivity|].
  cbn [for_of]. unfold pbind.
  destruct (handle_line_returns l w) as (w1 & -> & Hf & Hp).
  destruct (IH w1) as (w2 & -> & Hf2 & Hp2).
  eexists. split; [reflexivity|]. split; congruence.
Qed.

Lemma read_all_read_text (values : list (list byte)) (last : read_end)
    (buffer : chars) (w : page_world) :
  one_line buffer ->
  read_all JSON_parse values last buffer w
  = read_text JSON_parse
      (buffer ++ list_ascii_of_string (decode (concat values))) last w.
Proof.
  revert buffer w. induction values as [|v rest IH]; intros buffer w Hb.
  - cbn [read_all concat]. unfold read_text.
    cbn [decode string_of_list_byte list_ascii_of_string]. rewrite app_nil_r.
    destruct (one_line_complete_lines buffer Hb) as [-> _]. reflexivity.
  - cbn [read_all concat]. rewrite text_of_decode_app, app_assoc.
    set (buffered := buffer ++ list_ascii_of_string (decode v)).
    unfold read_text.
    destruct (complete_lines_app buffered
                (list_ascii_of_string (decode (concat rest)))) as [-> _].
    fold (complete_lines buffered). fold (residue buffered).
    unfold pbind. rewrite for_of_app. unfold pbind.
    destruct (for_of (complete_lines buffered) (handle_line JSON_parse) w)
      as [[[]|e] w1]; [|reflexivity].
    rewrite IH by apply residue_one_line. reflexivity.
Qed.

End Reading.
End StreamPageFacts.

Module StreamPageRuns.
Import StreamObjectPage JSONFacts Lines StreamPageFacts.

Section Submit.
Variable JSON_parse : string -> outcome json.
Variable network : fetch_call -> fetch_result.
Variable w : page_world.
Hypothesis Hprompt : trims_to_empty (prompt (page w)) = false.
Hypothesis Hidle : isStreaming (page w) = false.

Lemma handleSubmit_settles :
  handleSubmit JSON_parse network w =
  settle
    match network (submission (page w)) with
    | FetchRejects e => (Throw e, submitted w)
    | FetchResponse false _ => (Throw "Error: Stream failed", submitted w)
    | FetchResponse true None =>
        (Throw "Error: No reader available", submitted w)
    | FetchResponse true (Some reader) =>
        read_text JSON_parse
          (list_ascii_of_string (decode (concat (delivered reader))))
          (ending reader) (submitted w)
    end.
Proof.
  unfold handleSubmit. rewrite Hprompt, Hidle. cbn [orb].
  unfold pbind at 1 2 3 4, setDetectedIntent, setPartialObject,
    setIsStreaming, setIsComplete, update. cbn [page page_console fetches
    prompt detectedIntent partialObject isStreaming isComplete].
  unfold pfinally, pcatch, pbind at 1, fetch.
  cbn [page page_console fetches].
  fold (submitted w).
  destruct (network (submission (page w))) as [e|[] [reader|]];
    try reflexivity.
  rewrite (read_all_read_text JSON_parse _ _ [] _ (Forall_nil _)).
  cbn [app].
  destruct (read_text JSON_parse
              (list_ascii_of_string (decode (concat (delivered reader))))
              (ending reader) (submitted w)) as [[[]|e] w1]; reflexivity.
Qed.

End Submit.

Lemma relayed_chunks (intent : json) (result : partial_object_stream) :
  chunks (relayed intent result)
  = map frame_chunk (relayed_frame_list intent result).
Proof.
  unfold relayed, relayed_frame_list. cbn [chunks map].
  rewrite map_app, map_map. f_equal. f_equal.
  destruct (failure result); reflexivity.
Qed.

Lemma text_of_frame_chunks (frames : list json) :
  list_ascii_of_string (decode (concat (map frame_chunk frames)))
  = frame_lines frames.
Proof.
  unfold frame_lines.
  induction frames as [|f fs IH]; [reflexivity|].
  cbn [map concat]. rewrite text_of_decode_app, IH. f_equal.
  unfold frame_chunk, encode, decode.
  rewrite string_of_list_byte_of_string, list_ascii_of_string_app.
  unfold JSON.stringify. rewrite list_ascii_of_string_of_list_ascii.
  reflexivity.
Qed.

Lemma complete_lines_frames (frames : list json) (rest : chars) :
  complete_lines (frame_lines frames ++ rest)
  = map JSON.stringify_chars frames ++ complete_lines rest
  /\ residue (frame_lines frames ++ rest) = residue rest.
Proof.
  unfold frame_lines.
  induction frames as [|f fs [IH1 IH2]]; [split; reflexivity|].
  cbn [map concat]. rewrite <- !app_assoc. cbn [app].
  destruct (complete_lines_line (JSON.stringify_chars f)
              (concat (map (fun f0 => JSON.stringify_chars f0 ++ [LF]) fs)
               ++ rest)
              (JSONText.stringify_one_line f)) as [-> ->].
  rewrite IH1, IH2. split; reflexivity.
Qed.

Section Frames.
Variable JSON_parse : string -> outcome json.
Hypothesis Hparse : forall v, JSON_parse (JSON.stringify v) = Return v.

Lemma handle_line_object (members : list (string * json)) (w : page_world) :
  handle_line JSON_parse (JSON.stringify_chars (JObj members)) w
  = dispatch (JObj members) w.
Proof.
  unfold handle_line.
  assert (Hb : trims_to_empty
                 (string_of_list_ascii (JSON.stringify_chars (JObj members)))
               = false) by reflexivity.
  rewrite Hb. unfold pcatch, pbind.
  change (string_of_list_ascii (JSON.stringify_chars (JObj members)))
    with (JSON.stringify (JObj members)).
  rewrite Hparse.
  destruct (dispatch (JObj members) w) as [[[]|e] w'] eqn:E; [reflexivity|].
  exfalso. revert E. unfold dispatch.
  repeat match goal with
         | |- context [if ?b then _ else _] => destruct b
         end; discriminate.
Qed.

Lemma for_of_frames (frames : list json) (w : page_world) :
  Forall is_object frames ->
  for_of (map JSON.stringify_chars frames) (handle_line JSON_parse) w
  = for_of frames dispatch w.
Proof.
  intros H. revert w. induction H as [|f fs [ms ->] _ IH]; intros w;
    [reflexivity|].
  cbn [map for_of]. unfold pbind. rewrite handle_line_object.
  destruct (dispatch (JObj ms) w) as [[[]|e] w']; [apply IH | reflexivity].
Qed.

End Frames.


Lemma last_cons_default {A} (l : list A) (a d : A) :
  last (a :: l) d = last l a.
Proof.
  revert a d. induction l as [|b l IH]; intros a d; [reflexivity|].
  change (last (a :: b :: l) d) with (last (b :: l) d).
  rewrite !IH. reflexivity.
Qed.

(** What the intent frame and then some partial frames leave on the page. *)
Lemma dispatch_intent_partials (intent : json) (partials : list json)
    (w : page_world) :
  for_of (StreamObject.intent_frame intent
          :: map StreamObject.partial_frame partials) dispatch w
  = (Return tt,
     {| page := {| prompt := prompt (page w);
                   detectedIntent := Some intent;
                   partialObject :=
                     last (map Some partials) (partialObject (page w));
                   isStreaming := isStreaming (page w);
                   isComplete := isComplete (page w) |};
        page_console := page_console w;
        fetches := fetches w |}).
Proof.
  cbn [for_of]. unfold pbind at 1.
  change (dispatch (StreamObject.intent_frame intent) w)
    with (setDetectedIntent (Some intent) w).
  unfold setDetectedIntent, update.
  generalize (partialObject (page w)) as shown.
  generalize (prompt (page w)) (isStreaming (page w)) (isComplete (page w))
    (page_console w) (fetches w).
  clear w. induction partials as [|o os IH]; intros p st co con fs shown;
    [reflexivity|].
  cbn [map for_of page prompt detectedIntent partialObject isStreaming
         isComplete page_console fetches] in *.
  unfold pbind at 1.
  change (dispatch (StreamObject.partial_frame o) ?w)
    with (setPartialObject (Some o) w).
  unfold setPartialObject, update.
  cbn [page prompt detectedIntent partialObject isStreaming isComplete
         page_console fetches].
  rewrite IH, last_cons_default. reflexivity.
Qed.

End StreamPageRuns.

(** ** The stream-object page and its route *)

Lemma streamed_response_is_relayed (B : backend) (req : request)
    (s : controller) :
  response_stream (fst (run (StreamObject.POST B req))) = Some s ->
  exists label result,
    In label StreamObject.labels /\ s = relayed (JStr label) result.
Proof.
  intros Hs.
  destruct (StreamRuns.readable_or_not req)
    as [Hbad|(parsed & prompt & Hbody & Hprompt)].
  - destruct (StreamRuns.stream_POST_unreadable B req Hbad) as (e & Hrun).
    rewrite Hrun in Hs. discriminate Hs.
  - destruct (StreamRuns.stream_POST_cases B req parsed prompt Hbody Hprompt)
      as (r & w & Hrun & rest & _ & Hcases).
    rewrite Hrun in Hs. cbn [fst] in Hs.
    destruct Hcases as [(e & _ & -> & _)
                       |[(i & _ & _ & -> & _)
                        |(i & o & _ & Hl & _ & _ & Hgen)]];
      try discriminate Hs.
    destruct Hgen as [(e & _ & ->)|(result & _ & ->)]; [discriminate Hs|].
    cbn in Hs. injection Hs as <-.
    destruct Hl as (l & -> & Hl). eauto.
Qed.


Section StreamPageClaims.
Import StreamObjectPage StreamPageRuns StreamPageFacts Lines.

(** X1.  The page reads the same events however the bytes of the response are
    cut into chunks. *)
Theorem stream_page_ignores_chunk_boundaries
    (JSON_parse : string -> outcome json)
    (network network' : fetch_call -> fetch_result) (w : page_world)
    (reader reader' : body_reader) :
  network (submission (page w)) = FetchResponse true (Some reader) ->
  network' (submission (page w)) = FetchResponse true (Some reader') ->
  concat (delivered reader) = concat (delivered reader') ->
  ending reader = ending reader' ->
  handleSubmit JSON_parse network w = handleSubmit JSON_parse network' w.
Proof.
  intros Hn Hn' Hsame Hend.
  destruct (trims_to_empty (prompt (page w))) eqn:Hp.
  { unfold handleSubmit. rewrite Hp. reflexivity. }
  destruct (isStreaming (page w)) eqn:Hi.
  { unfold handleSubmit. rewrite Hp, Hi. reflexivity. }
  rewrite !handleSubmit_settles by assumption.
  rewrite Hn, Hn', Hsame, Hend. reflexivity.
Qed.

(** X2.  When the route's stream ran to its end and the page received all of
    its bytes, in whatever chunks, the page shows the label of the intent
    frame, which is the first frame of the stream, the object of the last
    partial frame ([null] if there was none) and the completion mark, and
    is no longer streaming. *)
Theorem stream_page_shows_a_completed_stream
    (JSON_parse : string -> outcome json)
    (network : fetch_call -> fetch_result) (w : page_world)
    (B : backend) (req : request) (s : controller)
    (values : list (list byte)) :
  (forall v, JSON_parse (JSON.stringify v) = Return v) ->
  trims_to_empty (prompt (page w)) = false ->
  isStreaming (page w) = false ->
  response_stream (fst (run (StreamObject.POST B req))) = Some s ->
  state s = Closed ->
  network (submission (page w))
  = FetchResponse true (Some {| delivered := values; ending := Done |}) ->
  concat values = concat (chunks s) ->
  exists label,
    In label StreamObject.labels /\
    hd_error (chunks s)
    = Some (frame_chunk (JObj [("type", JStr "intent");
                               ("intent", JStr label)])) /\
    handleSubmit JSON_parse network w =
    (Return tt,
     {| page := {| prompt := prompt (page w);
                   detectedIntent := Some (JStr label);
                   partialObject := last (map Some (partial_payloads s)) null;
                   isStreaming := false;
                   isComplete := true |};
        page_console := page_console w;
        fetches := fetches w ++ [submission (page w)] |}).
Proof.
  intros Hparse Hp Hi Hs Hclosed Hn Hvalues.
  destruct (streamed_response_is_relayed B req s Hs)
    as (label & [partials fail] & Hl & ->).
  destruct fail as [e|]; [discriminate Hclosed|].
  exists label. split; [assumption|]. split; [reflexivity|].
  rewrite handleSubmit_settles by assumption. rewrite Hn.
  cbn [delivered ending]. rewrite Hvalues, relayed_chunks, text_of_frame_chunks.
  rewrite Relay.relayed_payloads. cbn [items].
  unfold read_text.
  destruct (complete_lines_frames
              (relayed_frame_list (JStr label)
                 {| items := partials; failure := None |}) []) as [Hlines _].
  rewrite app_nil_r in Hlines. rewrite Hlines. cbn [complete_lines split_newline removelast]. rewrite app_nil_r.
  unfold pbind.
  rewrite (for_of_frames JSON_parse Hparse).
  2:{ unfold relayed_frame_list. constructor; [eexists; reflexivity|].
      apply Forall_app. split.
      - apply Forall_map. apply Forall_forall. intros o _. eexists. reflexivity.
      - constructor; [eexists; reflexivity | constructor]. }
  unfold relayed_frame_list. cbn [items failure].
  rewrite app_comm_cons, for_of_app. unfold pbind.
  rewrite dispatch_intent_partials. reflexivity.
Qed.


(** X4.  A response of the route that is not a stream (its 400 and its 500) is
    not [ok]: the page does not read it and shows its own error text,
    whatever the message of the route was. *)
Theorem stream_page_hides_the_route_error
    (JSON_parse : string -> outcome json)
    (network : fetch_call -> fetch_result) (w : page_world)
    (B : backend) (req : request) (r : response) (text : string)
    (reader : option body_reader) :
  trims_to_empty (prompt (page w)) = false ->
  isStreaming (page w) = false ->
  fst (run (StreamObject.POST B req)) = Return r ->
  body r = TextBody text ->
  network (submission (page w)) = FetchResponse (ok_status (status r)) reader ->
  ok_status (status r) = false /\
  handleSubmit JSON_parse network w =
  (Return tt,
   {| page := {| prompt := prompt (page w);
                 detectedIntent := null;
                 partialObject :=
                   Some (JObj [("error", JStr "Failed to stream object")]);
                 isStreaming := false;
                 isComplete := false |};
      page_console :=
        page_console w
        ++ [ConsoleError "Streaming error:" "Error: Stream failed"];
      fetches := fetches w ++ [submission (page w)] |}).
Proof.
  intros Hp Hi Hr Hbody Hn.
  assert (Hnot : ok_status (status r) = false).
  { destruct (StreamRuns.readable_or_not req)
      as [Hbad|(parsed & prompt0 & Hb & Hpr)].
    - destruct (StreamRuns.stream_POST_unreadable B req Hbad) as (e & Hrun).
      rewrite Hrun in Hr. injection Hr as <-. reflexivity.
    - destruct (StreamRuns.stream_POST_cases B req parsed prompt0 Hb Hpr)
        as (r' & w' & Hrun & rest & _ & Hcases).
      rewrite Hrun in Hr. injection Hr as ->.
      destruct Hcases as [(e & _ & -> & _)
                         |[(i & _ & _ & -> & _)
                          |(i & o & _ & _ & _ & _ & Hgen)]];
        try reflexivity.
      destruct Hgen as [(e & _ & ->)|(result & _ & ->)];
        [reflexivity | discriminate Hbody]. }
  split; [exact Hnot|].
  rewrite handleSubmit_settles by assumption. rewrite Hn, Hnot. reflexivity.
Qed.

(** X5.  A submit never throws and sends at most one request: none when the
    prompt is blank or a stream is being read, in which case nothing
    changes; otherwise one, whose body the route reads back as the prompt
    of the page, which is then not empty; and the page is left not
    streaming. *)
Theorem stream_page_submits_once
    (JSON_parse : string -> outcome json)
    (network : fetch_call -> fetch_result) (w : page_world) :
  exists w',
    handleSubmit JSON_parse network w = (Return tt, w') /\
    prompt (page w') = prompt (page w) /\
    if trims_to_empty (prompt (page w)) || isStreaming (page w)
    then w' = w
    else
      fetches w' = fetches w ++ [submission (page w)] /\
      isStreaming (page w') = false /\
      prompt (page w) <> "" /\
      JSON.parse (request_body (submission (page w)))
      = Some (JObj [("prompt", JStr (prompt (page w)))]) /\
      destructure_prompt (JObj [("prompt", JStr (prompt (page w)))])
      = Return (Some (JStr (prompt (page w)))).
Proof.
  destruct (trims_to_empty (prompt (page w))) eqn:Hp.
  { exists w. unfold handleSubmit. rewrite Hp. repeat split. }
  destruct (isStreaming (page w)) eqn:Hi.
  { exists w. unfold handleSubmit. rewrite Hp, Hi. repeat split. }
  rewrite handleSubmit_settles by assumption. cbn [orb].
  assert (Hnonempty : prompt (page w) <> "").
  { intros E. rewrite E in Hp. discriminate Hp. }
  assert (Hsettle : forall o w1,
             fetches w1 = fetches (submitted w) ->
             prompt (page w1) = prompt (page w) ->
             exists w',
               settle (o, w1) = (Return tt, w') /\
               prompt (page w') = prompt (page w) /\
               fetches w' = fetches w ++ [submission (page w)] /\
               isStreaming (page w') = false).
  { intros [[]|e] w1 Hf Hpr; eexists; (split; [reflexivity|]);
      cbn; repeat split; assumption. }
  assert (Hend : exists o w1,
             match network (submission (page w)) with
             | FetchRejects e => (Throw e, submitted w)
             | FetchResponse false _ =>
                 (Throw "Error: Stream failed", submitted w)
             | FetchResponse true None =>
                 (Throw "Error: No reader available", submitted w)
             | FetchResponse true (Some reader) =>
                 read_text JSON_parse
                   (list_ascii_of_string (decode (concat (delivered reader))))
                   (ending reader) (submitted w)
             end = (o, w1) /\
             fetches w1 = fetches (submitted w) /\
             prompt (page w1) = prompt (page w)).
  { destruct (network (submission (page w))) as [e|[] [reader|]];
      try (eexists _, _; repeat split; reflexivity).
    unfold read_text, pbind.
    destruct (for_of_lines_returns JSON_parse
                (complete_lines
                   (list_ascii_of_string (decode (concat (delivered reader)))))
                (submitted w)) as (w1 & -> & Hf & Hpr).
    destruct (ending reader); eexists _, _; repeat split; eassumption. }
  destruct Hend as (o & w1 & -> & Hf & Hpr).
  destruct (Hsettle o w1 Hf Hpr) as (w' & -> & H1 & H2 & H3).
  exists w'. split; [reflexivity|]. split; [assumption|].
  repeat split; try assumption.
  unfold submission. cbn [request_body]. apply JSONText.parse_stringify.
Qed.

End StreamPageClaims.

(** ** The generate-object-smart page and its route *)

Lemma smart_response_document (B : backend) (req : request) (r : response) :
  fst (run (GenerateObjectSmart.POST B req)) = Return r ->
  exists doc,
    body r = TextBody (JSON.stringify doc) /\
    ((status r = 200%Z /\
      exists l data,
        In l GenerateObjectSmart.labels /\
        doc = JObj [("type", JStr l); ("data", data)])
     \/ ((status r = 400%Z \/ status r = 500%Z) /\
         exists msg, doc = JObj [("error", JStr msg)])).
Proof.
  intros Hr.
  destruct (StreamRuns.readable_or_not req)
    as [Hbad|(parsed & prompt & Hbody & Hprompt)].
  - destruct (SmartRuns.smart_POST_unreadable B req Hbad) as (e & Hrun).
    rewrite Hrun in Hr. injection Hr as <-.
    eexists. split; [reflexivity|]. right. split; [auto | eauto].
  - destruct (SmartRuns.smart_POST_cases B req parsed prompt Hbody Hprompt)
      as (r' & w & Hrun & rest & _ & Hcases).
    rewrite Hrun in Hr. injection Hr as ->.
    destruct Hcases as [(e & _ & -> & _)
                       |[(i & _ & _ & -> & _)
                        |(l & gen & _ & Hl & _ & _ & _ & Hgen)]].
    + eexists. split; [reflexivity|]. right. split; [auto | eauto].
    + eexists. split; [reflexivity|]. right. split; [auto | eauto].
    + destruct Hgen as [(_ & data & ->)|(_ & ->)].
      * eexists. split; [reflexivity|]. left. split; [reflexivity | eauto].
      * eexists. split; [reflexivity|]. right. split; [auto | eauto].
Qed.

Section SmartPageClaims.
Import SmartPage.

Lemma smart_handleSubmit_settles (JSON_parse : string -> outcome json)
    (network : fetch_call -> fetch_result) (w : page_world) :
  trims_to_empty (prompt (page w)) = false ->
  handleSubmit JSON_parse network w =
  (Return tt,
   match smart_answer JSON_parse (network (submission (page w))) with
   | Return data =>
       {| page := {| prompt := prompt (page w); result := Some data;
                     isLoading := false |};
          page_console := page_console w;
          fetches := fetches w ++ [submission (page w)] |}
   | Throw e =>
       {| page := {| prompt := prompt (page w);
                     result :=
                       Some (JObj [("error",
                                    JStr "Failed to generate response")]);
                     isLoading := false |};
          page_console := page_console w ++ [e];
          fetches := fetches w ++ [submission (page w)] |}
   end).
Proof.
  intros Hp. unfold handleSubmit. rewrite Hp.
  unfold pbind at 1 2, setIsLoading at 1, setResult at 1.
  cbn [page page_console fetches prompt result isLoading].
  unfold pfinally, pcatch, pbind at 1, fetch.
  cbn [page page_console fetches].
  unfold smart_answer.
  destruct (network (submission (page w))) as [e|ok [reader|]].
  - reflexivity.
  - unfold pbind, response_json.
    destruct (ending reader) as [|e]; [|reflexivity].
    destruct (JSON_parse (decode (concat (delivered reader)))); reflexivity.
  - unfold pbind, response_json.
    destruct (JSON_parse ""); reflexivity.
Qed.

(** X6.  The page shows what the route answered, also when the route answered
    with an error: the document that the body of the response is the text
    of, which is the document of a 200 answer, with its label and data, or
    the route's own error message for a 400 or a 500. *)
Theorem smart_page_shows_the_route_answer
    (JSON_parse : string -> outcome json)
    (network : fetch_call -> fetch_result) (w : page_world)
    (B : backend) (req : request) (r : response) (text : string)
    (values : list (list byte)) :
  (forall v, JSON_parse (JSON.stringify v) = Return v) ->
  trims_to_empty (prompt (page w)) = false ->
  fst (run (GenerateObjectSmart.POST B req)) = Return r ->
  body r = TextBody text ->
  network (submission (page w))
  = FetchResponse (ok_status (status r))
      (Some {| delivered := values; ending := Done |}) ->
  concat values = encode text ->
  exists doc,
    text = JSON.stringify doc /\
    JSON.parse text = Some doc /\
    handleSubmit JSON_parse network w =
    (Return tt,
     {| page := {| prompt := prompt (page w); result := Some doc;
                   isLoading := false |};
        page_console := page_console w;
        fetches := fetches w ++ [submission (page w)] |}) /\
    ((status r = 200%Z /\
      exists l data,
        In l GenerateObjectSmart.labels /\
        doc = JObj [("type", JStr l); ("data", data)])
     \/ ((status r = 400%Z \/ status r = 500%Z) /\
         exists msg, doc = JObj [("error", JStr msg)])).
Proof.
  intros Hparse Hp Hr Hbody Hn Hvalues.
  destruct (smart_response_document B req r Hr) as (doc & Hdoc & Hshape).
  rewrite Hbody in Hdoc. injection Hdoc as ->.
  exists doc. split; [reflexivity|].
  split; [apply JSONText.parse_stringify|]. split; [|exact Hshape].
  rewrite smart_handleSubmit_settles by assumption.
  rewrite Hn. cbn [smart_answer ending delivered]. rewrite Hvalues.
  unfold encode, decode. rewrite string_of_list_byte_of_string, Hparse.
  reflexivity.
Qed.

(** X7.  A submit never throws and leaves the page not loading.  With a blank
    prompt it does nothing.  Otherwise it sends one request, and the page
    ends up showing either the document it read or, when the request, the
    read or the parse failed, its own error object, with the failure
    logged. *)
Theorem smart_page_submits_once
    (JSON_parse : string -> outcome json)
    (network : fetch_call -> fetch_result) (w : page_world) :
  exists w',
    handleSubmit JSON_parse network w = (Return tt, w') /\
    prompt (page w') = prompt (page w) /\
    if trims_to_empty (prompt (page w))
    then w' = w
    else
      isLoading (page w') = false /\
      fetches w' = fetches w ++ [submission (page w)] /\
      JSON.parse (request_body (submission (page w)))
      = Some (JObj [("prompt", JStr (prompt (page w)))]) /\
      ((exists data,
           smart_answer JSON_parse (network (submission (page w)))
           = Return data /\
           result (page w') = Some data /\
           page_console w' = page_console w)
       \/ (exists e,
             smart_answer JSON_parse (network (submission (page w)))
             = Throw e /\
             result (page w')
             = Some (JObj [("error", JStr "Failed to generate response")]) /\
             page_console w' = page_console w ++ [e])).
Proof.
  destruct (trims_to_empty (prompt (page w))) eqn:Hp.
  { exists w. unfold handleSubmit. rewrite Hp. repeat split. }
  rewrite smart_handleSubmit_settles by assumption.
  eexists. split; [reflexivity|].
  destruct (smart_answer JSON_parse (network (submission (page w))))
    as [data|e].
  - split; [reflexivity|]. split; [reflexivity|]. split; [reflexivity|].
    split; [apply JSONText.parse_stringify|]. left. eauto.
  - split; [reflexivity|]. split; [reflexivity|]. split; [reflexivity|].
    split; [apply JSONText.parse_stringify|]. right. eauto.
Qed.

End SmartPageClaims.

(** ** The pages on sample runs *)

Lemma parse_or_throw_stringify (v : json) :
  PageSamples.parse_or_throw (JSON.stringify v) = Return v.
Proof.
  unfold PageSamples.parse_or_throw. rewrite JSONText.parse_stringify.
  reflexivity.
Qed.

Lemma stream_page_ignores_chunk_boundaries_witness :
  StreamObjectPage.handleSubmit PageSamples.parse_or_throw
    (PageSamples.answering
       (FetchResponse true
          (Some {| delivered :=
                     PageSamples.cut_at 7
                       (concat (chunks PageSamples.completed_stream));
                   ending := Done |})))
    PageSamples.curry_page
  = StreamObjectPage.handleSubmit PageSamples.parse_or_throw
      (PageSamples.answering
         (FetchResponse true
            (Some {| delivered := chunks PageSamples.completed_stream;
                     ending := Done |})))
      PageSamples.curry_page.
Proof.
  apply (stream_page_ignores_chunk_boundaries PageSamples.parse_or_throw
           _ _ PageSamples.curry_page
           {| delivered :=
                PageSamples.cut_at 7
                  (concat (chunks PageSamples.completed_stream));
              ending := Done |}
           {| delivered := chunks PageSamples.completed_stream;
              ending := Done |});
    reflexivity.
Defined.

Lemma stream_page_shows_a_completed_stream_witness :
  exists label,
    In label StreamObject.labels /\
    hd_error (chunks PageSamples.completed_stream)
    = Some (frame_chunk (JObj [("type", JStr "intent");
                               ("intent", JStr label)])) /\
    StreamObjectPage.handleSubmit PageSamples.parse_or_throw
      (PageSamples.answering
         (FetchResponse true
            (Some {| delivered :=
                       PageSamples.cut_at 7
                         (concat (chunks PageSamples.completed_stream));
                     ending := Done |})))
      PageSamples.curry_page =
    (Return tt,
     {| StreamObjectPage.page :=
          {| StreamObjectPage.prompt := Samples.curry_prompt;
             StreamObjectPage.detectedIntent := Some (JStr label);
             StreamObjectPage.partialObject :=
               last (map Some (partial_payloads PageSamples.completed_stream))
                 null;
             StreamObjectPage.isStreaming := false;
             StreamObjectPage.isComplete := true |};
        StreamObjectPage.page_console := [];
        StreamObjectPage.fetches :=
          [] ++ [StreamObjectPage.submission
                   (StreamObjectPage.page PageSamples.curry_page)] |}).
Proof.
  apply (stream_page_shows_a_completed_stream PageSamples.parse_or_throw
           _ PageSamples.curry_page
           (Samples.steady_backend (JStr "recipe")
              {| items := Samples.curry_partials; failure := None |})
           Samples.curry_request PageSamples.completed_stream
           (PageSamples.cut_at 7
              (concat (chunks PageSamples.completed_stream))));
    try reflexivity.
  exact parse_or_throw_stringify.
Defined.

Example completed_stream_on_the_page :
  StreamObjectPage.page
    (snd (StreamObjectPage.handleSubmit PageSamples.parse_or_throw
            (PageSamples.answering
               (FetchResponse true
                  (Some {| delivered :=
                             PageSamples.cut_at 7
                               (concat (chunks PageSamples.completed_stream));
                           ending := Done |})))
            PageSamples.curry_page))
  = {| StreamObjectPage.prompt := "Generate a spicy Thai curry recipe";
       StreamObjectPage.detectedIntent := Some (JStr "recipe");
       StreamObjectPage.partialObject :=
         Some (JObj [("recipe",
                      JObj [("name", JStr "Green curry");
                            ("ingredients",
                             JArr [JObj [("name", JStr "coconut milk")]])])]);
       StreamObjectPage.isStreaming := false;
       StreamObjectPage.isComplete := true |}.
Proof. vm_compute. reflexivity. Qed.


Example failed_stream_on_the_page :
  StreamObjectPage.detectedIntent
    (StreamObjectPage.page
       (snd (StreamObjectPage.handleSubmit PageSamples.parse_or_throw
               (PageSamples.answering
                  (FetchResponse true
                     (Some {| delivered :=
                                PageSamples.cut_at 7
                                  (firstn 60
                                     (concat (chunks PageSamples.failed_stream)));
                              ending := ReadFails "backend timeout" |})))
               PageSamples.curry_page)))
  = Some (JStr "recipe").
Proof. vm_compute. reflexivity. Qed.

Lemma stream_page_hides_the_route_error_witness :
  ok_status 400 = false /\
  StreamObjectPage.handleSubmit PageSamples.parse_or_throw
    (PageSamples.answering
       (FetchResponse (ok_status 400)
          (Some {| delivered := [encode (JSON.stringify
                                           (JObj [("error",
                                                   JStr "Unknown intent")]))];
                   ending := Done |})))
    PageSamples.curry_page =
  (Return tt,
   {| StreamObjectPage.page :=
        {| StreamObjectPage.prompt := Samples.curry_prompt;
           StreamObjectPage.detectedIntent := null;
           StreamObjectPage.partialObject :=
             Some (JObj [("error", JStr "Failed to stream object")]);
           StreamObjectPage.isStreaming := false;
           StreamObjectPage.isComplete := false |};
      StreamObjectPage.page_console :=
        [] ++ [ConsoleError "Streaming error:" "Error: Stream failed"];
      StreamObjectPage.fetches :=
        [] ++ [StreamObjectPage.submission
                 (StreamObjectPage.page PageSamples.curry_page)] |}).
Proof.
  apply (stream_page_hides_the_route_error PageSamples.parse_or_throw
           _ PageSamples.curry_page
           (Samples.steady_backend (JStr "poem")
              {| items := []; failure := None |})
           Samples.curry_request stream_unknown
           (JSON.stringify (JObj [("error", JStr "Unknown intent")]))
           (Some {| delivered := [encode (JSON.stringify
                                            (JObj [("error",
                                                    JStr "Unknown intent")]))];
                    ending := Done |}));
    reflexivity.
Defined.

Lemma smart_page_shows_the_route_answer_witness :
  exists doc,
    JSON.stringify (JObj [("error", JStr "Could not determine intent")])
    = JSON.stringify doc /\
    JSON.parse
      (JSON.stringify (JObj [("error", JStr "Could not determine intent")]))
    = Some doc /\
    SmartPage.handleSubmit PageSamples.parse_or_throw
      (PageSamples.answering
         (FetchResponse (ok_status 400)
            (Some {| delivered :=
                       PageSamples.cut_at 5
                         (encode (JSON.stringify
                                    (JObj [("error",
                                            JStr "Could not determine intent")])));
                     ending := Done |})))
      PageSamples.smart_curry_page =
    (Return tt,
     {| SmartPage.page :=
          {| SmartPage.prompt := Samples.curry_prompt;
             SmartPage.result := Some doc;
             SmartPage.isLoading := false |};
        SmartPage.page_console := [];
        SmartPage.fetches :=
          [] ++ [SmartPage.submission
                   (SmartPage.page PageSamples.smart_curry_page)] |}) /\
    ((400%Z = 200%Z /\
      exists l data,
        In l GenerateObjectSmart.labels /\
        doc = JObj [("type", JStr l); ("data", data)])
     \/ ((400%Z = 400%Z \/ 400%Z = 500%Z) /\
         exists msg, doc = JObj [("error", JStr msg)])).
Proof.
  apply (smart_page_shows_the_route_answer PageSamples.parse_or_throw
           _ PageSamples.smart_curry_page
           (Samples.steady_backend (JStr "story")
              {| items := []; failure := None |})
           Samples.curry_request smart_unknown
           (JSON.stringify (JObj [("error", JStr "Could not determine intent")]))
           (PageSamples.cut_at 5
              (encode (JSON.stringify
                         (JObj [("error",
                                 JStr "Could not determine intent")])))));
    try reflexivity.
  exact parse_or_throw_stringify.
Defined.

(** * Further properties of the routes and their pages *)

Lemma json_eq_null (v : json) : v = JNull \/ v <> JNull.
Proof. destruct v; (left; reflexivity) || (right; discriminate). Qed.

(** ** More on the two routes *)

Lemma relayed_ended (intent : json) (result : partial_object_stream) :
  ended (relayed intent result).
Proof.
  unfold ended, relayed. cbn [state].
  destruct (failure result); [right; eauto | left; reflexivity].
Qed.

Lemma map_constant_repeat {A B} (b : B) (l : list A) :
  map (fun _ => b) l = repeat b (length l).
Proof. induction l as [|a l IH]; [reflexivity | simpl; rewrite IH; reflexivity]. Qed.

(** X8.  The stream-object handler never throws: every request gets a response.
    It is either a 200 whose body is a stream that has ended, closed or
    errored, and never left open, or a 400 or 500 with a JSON body
    [{ "error": <string> }]. *)
Theorem stream_route_always_answers (B : backend) (req : request) :
  exists r w,
    run (StreamObject.POST B req) = (Return r, w) /\
    ((status r = 200%Z /\
      exists s, body r = StreamBody s /\ stream w = s /\ ended s)
     \/ ((status r = 400%Z \/ status r = 500%Z) /\ error_shape r)).
Proof.
  destruct (StreamRuns.readable_or_not req)
    as [Hbad|(parsed & prompt & Hbody & Hprompt)].
  - destruct (StreamRuns.stream_POST_unreadable B req Hbad) as (e & ->).
    eexists _, _. split; [reflexivity|]. right.
    split; [auto|]. apply SmartRuns.error_response_shape. auto.
  - destruct (generate_enum B (google gemini) StreamObject.labels
                (StreamObject.classifier_prompt prompt)) as [intent|e] eqn:Hc.
    + destruct (StreamObject.switch_intent intent prompt) as [o|] eqn:Hs.
      * destruct (stream_object B o) as [result|e] eqn:Hr.
        -- rewrite (StreamRuns.stream_POST_streams B req parsed prompt
                      Hbody Hprompt _ _ _ Hc Hs Hr).
           eexists _, _. split; [reflexivity|]. left.
           split; [reflexivity|]. eexists. split; [reflexivity|].
           split; [reflexivity | apply relayed_ended].
        -- rewrite (StreamRuns.stream_POST_generator_throws B req parsed prompt
                      Hbody Hprompt _ _ _ Hc Hs Hr).
           eexists _, _. split; [reflexivity|]. right.
           split; [auto|]. apply SmartRuns.error_response_shape. auto.
      * rewrite (StreamRuns.stream_POST_unknown B req parsed prompt
                   Hbody Hprompt _ Hc Hs).
        eexists _, _. split; [reflexivity|]. right.
        split; [auto|]. apply SmartRuns.error_response_shape. auto.
    + rewrite (StreamRuns.stream_POST_classifier_throws B req parsed prompt
                 Hbody Hprompt _ Hc).
      eexists _, _. split; [reflexivity|]. right.
      split; [auto|]. apply SmartRuns.error_response_shape. auto.
Qed.

(** X9.  The frames of any streamed response follow the protocol: one [intent]
    frame, then [partial] frames only, one per relayed object, then a
    [complete] frame exactly when the stream was closed; after an error
    signal the last frame is an [intent] or a [partial] one. *)
Theorem stream_frames_follow_the_protocol
    (B : backend) (req : request) (s : controller) :
  response_stream (fst (run (StreamObject.POST B req))) = Some s ->
  map frame_type (chunks s)
  = Some "intent"
    :: repeat (Some "partial") (length (partial_payloads s))
    ++ match state s with
       | Closed => [Some "complete"]
       | _ => []
       end
  /\ ended s.
Proof.
  intros Hs.
  destruct (streamed_response_is_relayed B req s Hs)
    as (label & result & _ & ->).
  split; [|apply relayed_ended].
  rewrite Relay.relayed_frame_types, Relay.relayed_payloads,
    map_constant_repeat.
  unfold relayed. cbn [state]. destruct (failure result); reflexivity.
Qed.

Lemma stream_frames_follow_the_protocol_witness :
  map frame_type (chunks PageSamples.failed_stream)
  = Some "intent"
    :: repeat (Some "partial")
         (length (partial_payloads PageSamples.failed_stream))
    ++ match state PageSamples.failed_stream with
       | Closed => [Some "complete"]
       | _ => []
       end
  /\ ended PageSamples.failed_stream.
Proof.
  apply (stream_frames_follow_the_protocol
           (Samples.steady_backend (JStr "recipe")
              {| items := Samples.curry_partials;
                 failure := Some "backend timeout" |})
           Samples.curry_request PageSamples.failed_stream).
  reflexivity.
Defined.

(** X10.  A request whose body cannot be read as JSON, or is [null], is answered
    500 by both routes before any backend call is made; the error is
    logged. *)
Theorem unreadable_body_is_a_500 (B : backend) (req : request) :
  (exists e, json_body req = Throw e) \/ json_body req = Return JNull ->
  (exists e r,
      run (StreamObject.POST B req) =
      (Return r,
       {| backend_calls := []; console := [ConsoleError "Error:" e];
          stream := fresh_stream |}) /\
      status r = 500%Z /\
      json_of_body (body r)
      = Some (JObj [("error", JStr "Failed to stream object")]))
  /\
  (exists e r,
      run (GenerateObjectSmart.POST B req) =
      (Return r,
       {| backend_calls := []; console := [ConsoleError "Error:" e];
          stream := fresh_stream |}) /\
      status r = 500%Z /\
      json_of_body (body r)
      = Some (JObj [("error", JStr "Failed to generate response")])).
Proof.
  intros Hbad. split.
  - destruct (StreamRuns.stream_POST_unreadable B req Hbad) as (e & ->).
    eexists _, _. split; [reflexivity|]. split; [reflexivity|].
    apply json_of_Response_json.
  - destruct (SmartRuns.smart_POST_unreadable B req Hbad) as (e & ->).
    eexists _, _. split; [reflexivity|]. split; [reflexivity|].
    apply json_of_Response_json.
Qed.

Lemma unreadable_body_is_a_500_witness :
  (exists e r,
      run (StreamObject.POST Samples.refusing_backend
             {| json_body := Return JNull |}) =
      (Return r,
       {| backend_calls := []; console := [ConsoleError "Error:" e];
          stream := fresh_stream |}) /\
      status r = 500%Z /\
      json_of_body (body r)
      = Some (JObj [("error", JStr "Failed to stream object")]))
  /\
  (exists e r,
      run (GenerateObjectSmart.POST Samples.refusing_backend
             {| json_body := Return JNull |}) =
      (Return r,
       {| backend_calls := []; console := [ConsoleError "Error:" e];
          stream := fresh_stream |}) /\
      status r = 500%Z /\
      json_of_body (body r)
      = Some (JObj [("error", JStr "Failed to generate response")])).
Proof.
  apply (unreadable_body_is_a_500 Samples.refusing_backend
           {| json_body := Return JNull |}).
  right. reflexivity.
Defined.



(** X13.  No failure of the stream-object route is silent, and nothing else is
    reported as one: the console gets exactly one error line when the run
    ends in a 500 or in an errored stream, and none when it ends in a
    closed stream or in the 400 of the [default:] branch. *)
Theorem stream_route_logs_each_failure_once (B : backend) (req : request) :
  exists r w,
    run (StreamObject.POST B req) = (Return r, w) /\
    ((filter is_error_line (console w) = [] /\
      (status r = 400%Z \/ status r = 200%Z /\ state (stream w) = Closed))
     \/ (exists label e,
            filter is_error_line (console w) = [ConsoleError label e] /\
            (status r = 500%Z
             \/ status r = 200%Z /\ state (stream w) = Errored e))).
Proof.
  destruct (StreamRuns.readable_or_not req)
    as [Hbad|(parsed & prompt & Hbody & Hprompt)].
  - destruct (StreamRuns.stream_POST_unreadable B req Hbad) as (e & ->).
    eexists _, _. split; [reflexivity|]. right. eexists _, _.
    split; [reflexivity|]. left. reflexivity.
  - destruct (generate_enum B (google gemini) StreamObject.labels
                (StreamObject.classifier_prompt prompt)) as [intent|e] eqn:Hc.
    + destruct (StreamObject.switch_intent intent prompt) as [o|] eqn:Hs.
      * destruct (stream_object B o) as [[partials fail]|e] eqn:Hr.
        -- rewrite (StreamRuns.stream_POST_streams B req parsed prompt
                      Hbody Hprompt _ _ _ Hc Hs Hr).
           eexists _, _. split; [reflexivity|].
           destruct fail as [e|].
           ++ right. eexists _, _. split; [reflexivity|]. right.
              split; reflexivity.
           ++ left. split; [reflexivity|]. right. split; reflexivity.
        -- rewrite (StreamRuns.stream_POST_generator_throws B req parsed prompt
                      Hbody Hprompt _ _ _ Hc Hs Hr).
           eexists _, _. split; [reflexivity|]. right. eexists _, _.
           split; [reflexivity|]. left. reflexivity.
      * rewrite (StreamRuns.stream_POST_unknown B req parsed prompt
                   Hbody Hprompt _ Hc Hs).
        eexists _, _. split; [reflexivity|]. left.
        split; [reflexivity|]. left. reflexivity.
    + rewrite (StreamRuns.stream_POST_classifier_throws B req parsed prompt
                 Hbody Hprompt _ Hc).
      eexists _, _. split; [reflexivity|]. right. eexists _, _.
      split; [reflexivity|]. left. reflexivity.
Qed.


Module GenerateObjectFacts.
Import GenerateObjectRoute.

Lemma value_is_true (v : value) (text : string) :
  value_is v text = true <-> v = Some (JStr text).
Proof.
  unfold value_is, strict_eq. split.
  - destruct v as [[| | |s| |]|]; try discriminate.
    intros H. apply String.eqb_eq in H. congruence.
  - intros ->. apply String.eqb_refl.
Qed.

Lemma selected_some (type prompt : value) (t : string) (o : options) :
  selected type prompt = Some (t, o) ->
  In t types /\ type = Some (JStr t).
Proof.
  unfold selected, types.
  repeat match goal with
         | |- context [value_is type ?s] =>
             destruct (value_is type s) eqn:?
         end;
    intros H; inversion H; subst;
    match goal with
    | H : value_is _ _ = true |- _ => apply value_is_true in H
    end;
    (split; [cbn; tauto | assumption]).
Qed.

Lemma selected_none (type prompt : value) :
  selected type prompt = None <->
  forall t, In t types -> type <> Some (JStr t).
Proof.
  split.
  - intros H t Ht Heq.
    apply value_is_true in Heq.
    unfold selected in H. cbn in Ht.
    destruct Ht as [<-|[<-|[<-|[<-|[<-|[]]]]]];
      repeat match type of H with
             | context [value_is type ?s] =>
                 destruct (value_is type s) eqn:?; try discriminate
             end.
  - intros H. unfold selected.
    repeat match goal with
           | |- context [value_is type ?s] =>
               let E := fresh "E" in
               destruct (value_is type s) eqn:E;
               [apply value_is_true in E; exfalso;
                apply (H s); [cbn; tauto | exact E] |]
           end.
    reflexivity.
Qed.

(** The prompt of the selected call and its choice do not depend on more
    of the prompt than [or_default] keeps. *)
Lemma selected_prompt (type prompt : value) (t : string) (o : options) :
  selected type prompt = Some (t, o) ->
  exists text, prompt_of o = or_default prompt text /\
               forall prompt', exists o',
                 selected type prompt' = Some (t, o') /\
                 prompt_of o' = or_default prompt' text.
Proof.
  unfold selected.
  repeat match goal with
         | |- context [value_is type ?s] =>
             destruct (value_is type s) eqn:?
         end;
    intros H; inversion H; subst;
    (eexists; split; [reflexivity|]; intros prompt'; eexists;
     split; reflexivity).
Qed.

(** The handler, case by case, for a body that can be destructured. *)
Lemma answer_selected
    (B : options -> result json) (parsed : json) :
  parsed <> JNull ->
  answer B (with_body parsed) =
  match selected (get_property "type" parsed)
          (get_property "prompt" parsed) with
  | None =>
      (Fulfilled (Response_json (JObj [("error", JStr "Invalid type")]) 400),
       quiet)
  | Some (t, o) =>
      match B o with
      | Fulfilled object =>
          (Fulfilled
             (Response_json (JObj [("object", object); ("type", JStr t)])
                200),
           {| calls := [o]; errors_logged := [] |})
      | Rejected e =>
          on_error e {| calls := [o]; errors_logged := [] |}
      end
  end.
Proof.
  intros Hnull.
  unfold answer, POST, gcatch, with_body, selected.
  cbn [req_json].
  unfold gbind at 1. unfold glift at 1.
  unfold gbind at 1. unfold glift at 1.
  assert (Hd : destructure parsed
               = Fulfilled (get_property "type" parsed,
                            get_property "prompt" parsed))
    by (destruct parsed; try reflexivity; congruence).
  rewrite Hd. cbn [fst snd].
  repeat match goal with
         | |- context [value_is (get_property "type" parsed) ?s] =>
             destruct (value_is (get_property "type" parsed) s)
         end;
    try reflexivity;
    unfold gbind, generateObject, gret, quiet; cbn [calls errors_logged app];
    match goal with
    | |- context [B ?o] => destruct (B o); reflexivity
    end.
Qed.

(** The [catch] block on a thrown value that properties can be read of. *)
Lemma on_error_object (error : json) (w : route_world) :
  error <> JNull ->
  on_error (Some error) w =
  (Fulfilled (Response_json (error_document error) 500),
   {| calls := calls w;
      errors_logged :=
        (errors_logged w
         ++ [("Error generating object:", Some error)])%list |}).
Proof.
  intros Hnull.
  unfold on_error, error_document.
  unfold gbind at 1. unfold console_error.
  assert (Hm : forall k, member k (Some error)
                         = Fulfilled (get_property k error))
    by (intros k; destruct error; try reflexivity; congruence).
  unfold gbind at 1. unfold glift at 1. rewrite Hm.
  destruct (value_is (get_property "name" error) "AI_NoObjectGeneratedError").
  - unfold gbind, glift, gret. rewrite !Hm. reflexivity.
  - reflexivity.
Qed.

(** The [catch] block on [undefined] or [null]: reading [error.name]
    throws, after the value was logged. *)
Lemma on_error_nullish (error : thrown) (w : route_world) :
  nullish error = true ->
  exists message,
    on_error error w =
    (Rejected (TypeError message),
     {| calls := calls w;
        errors_logged :=
          (errors_logged w ++ [("Error generating object:", error)])%list |}).
Proof.
  intros Hn.
  destruct error as [[| | | | |]|]; try discriminate;
    eexists; reflexivity.
Qed.

Lemma nullish_false (e : thrown) :
  nullish e = false -> exists error, e = Some error /\ error <> JNull.
Proof.
  destruct e as [[| | | | |]|]; try discriminate; intros _;
    eexists; (split; [reflexivity | discriminate]).
Qed.

End GenerateObjectFacts.

Module GenerateObjectRuns.
Import GenerateObjectRoute GenerateObjectFacts.


Lemma or_default_truthy (prompt : value) (text : string) :
  truthy prompt = true -> Some (or_default prompt text) = prompt.
Proof.
  unfold or_default. destruct prompt as [j|]; [|discriminate].
  intros ->. reflexivity.
Qed.


Lemma on_error_calls (e : thrown) (w : route_world) :
  calls (snd (on_error e w)) = calls w /\
  errors_logged (snd (on_error e w))
  = (errors_logged w ++ [("Error generating object:", e)])%list.
Proof.
  destruct (nullish e) eqn:Hn.
  - destruct (on_error_nullish e w Hn) as (message & ->). split; reflexivity.
  - destruct (nullish_false e Hn) as (error & -> & Hnull).
    rewrite (on_error_object error w Hnull). split; reflexivity.
Qed.

(** The calls of a run: the selected one, whether it succeeds or not. *)
Lemma answer_calls (B : options -> result json) (parsed : json) :
  parsed <> JNull ->
  calls (snd (answer B (with_body parsed)))
  = match selected (get_property "type" parsed)
            (get_property "prompt" parsed) with
    | Some (_, o) => [o]
    | None => []
    end.
Proof.
  intros Hnull. rewrite (answer_selected B parsed Hnull).
  destruct (selected _ _) as [[t o]|]; [|reflexivity].
  destruct (B o) as [object|e]; [reflexivity|].
  apply on_error_calls.
Qed.

End GenerateObjectRuns.

Section GenerateObjectClaims.
Import GenerateObjectRoute GenerateObjectFacts GenerateObjectRuns.

(** X14.  A [type] that is none of the five [case] labels, compared with [===]
    (so a missing type, a number, or a label in another case of letters),
    is answered 400 [Invalid type]: no model call is made and nothing is
    logged. *)
Theorem generate_object_rejects_unlisted_types
    (B : options -> result json) (parsed : json) :
  parsed <> JNull ->
  (forall t, In t types -> get_property "type" parsed <> Some (JStr t)) ->
  exists r,
    answer B (with_body parsed) = (Fulfilled r, quiet) /\
    status r = 400%Z /\
    json_of_body (body r) = Some (JObj [("error", JStr "Invalid type")]).
Proof.
  intros Hnull Htype.
  rewrite (answer_selected B parsed Hnull).
  apply selected_none with (prompt := get_property "prompt" parsed) in Htype.
  rewrite Htype.
  eexists. split; [reflexivity|]. split; [reflexivity|].
  apply json_of_Response_json.
Qed.


(** X16.  A truthy prompt is not validated: whatever JSON value it is (a string,
    a number, an array, an object), it is the prompt of the one model call
    of the request. *)
Theorem generate_object_truthy_prompt_is_passed_on
    (B : options -> result json) (parsed : json) (t : string) (p : json) :
  In t types ->
  get_property "type" parsed = Some (JStr t) ->
  get_property "prompt" parsed = Some p ->
  truthy (Some p) = true ->
  exists o,
    calls (snd (answer B (with_body parsed))) = [o] /\ prompt_of o = p.
Proof.
  intros Ht Htype Hprompt Htruthy.
  assert (Hnull : parsed <> JNull) by (intros ->; discriminate).
  rewrite (answer_calls B parsed Hnull).
  destruct (selected (get_property "type" parsed)
              (get_property "prompt" parsed)) as [[t' o]|] eqn:Hsel.
  - exists o. split; [reflexivity|].
    destruct (selected_prompt _ _ _ _ Hsel) as (text & Hp & _).
    rewrite Hp, Hprompt.
    pose proof (or_default_truthy (Some p) text Htruthy) as H.
    congruence.
  - exfalso. rewrite selected_none in Hsel. exact (Hsel t Ht Htype).
Qed.

(** X17.  When the model call of a request throws an object, the answer is a 500
    and the object is logged once.  An object named
    [AI_NoObjectGeneratedError] gets a [details] member that holds the
    [text] of the error and the [message] of its [cause], each only when it
    is defined, and nothing else; any other object gets the bare message
    [Failed to generate object]. *)
Theorem generate_object_failure_answer
    (B : options -> result json) (parsed : json) (o : options)
    (error : json) :
  parsed <> JNull ->
  In o (calls (snd (answer B (with_body parsed)))) ->
  B o = Rejected (Some error) ->
  error <> JNull ->
  exists r,
    answer B (with_body parsed) =
    (Fulfilled r,
     {| calls := [o];
        errors_logged := [("Error generating object:", Some error)] |}) /\
    status r = 500%Z /\
    (get_property "name" error = Some (JStr "AI_NoObjectGeneratedError") ->
     exists details,
       json_of_body (body r)
       = Some (JObj [("error", JStr "Failed to generate valid object");
                     ("details", JObj details)]) /\
       get_member "text" details = get_property "text" error /\
       get_member "cause" details
       = optional_member "message" (get_property "cause" error) /\
       forall k v, In (k, v) details -> k = "text" \/ k = "cause") /\
    (get_property "name" error <> Some (JStr "AI_NoObjectGeneratedError") ->
     json_of_body (body r)
     = Some (JObj [("error", JStr "Failed to generate object")])).
Proof.
  intros Hnull Hin Hrej Herr.
  rewrite (answer_calls B parsed Hnull) in Hin.
  rewrite (answer_selected B parsed Hnull).
  destruct (selected _ _) as [[t o']|]; [|destruct Hin].
  destruct Hin as [->|[]].
  rewrite Hrej, (on_error_object error _ Herr).
  eexists. split; [reflexivity|]. split; [reflexivity|].
  rewrite json_of_Response_json.
  unfold error_document. split.
  - intros Hname. apply value_is_true in Hname. rewrite Hname.
    eexists. split; [reflexivity|].
    destruct (get_property "text" error) as [text|];
      destruct (optional_member "message" (get_property "cause" error))
        as [message|];
      cbn; (split; [reflexivity|]); (split; [reflexivity|]);
      intros k v Hkv;
      repeat (destruct Hkv as [Hkv|Hkv];
              [inversion Hkv; subst; tauto|]);
      destruct Hkv.
  - intros Hname.
    destruct (value_is (get_property "name" error)
                "AI_NoObjectGeneratedError") eqn:E; [|reflexivity].
    apply value_is_true in E. contradiction.
Qed.

(** X18.  Every request gets one of four outcomes, each for its own cause.
    200 with the generated object and the type of the request, which is
    one of the five, after exactly one model call, which returned and
    which carried the prompt of the request when that is truthy.  400 for
    a type that is not one of the five, with no call.  500 with the error
    logged once, the error being what reading the body or the one model
    call threw.  Or, when the value thrown was [undefined] or [null], no
    response at all, because the [catch] block itself throws a [TypeError]
    on reading [error.name]. *)
Theorem generate_object_outcomes
    (B : options -> result json) (req : route_request) :
  (exists r w,
      answer B req = (Fulfilled r, w) /\
      ((status r = 200%Z /\ errors_logged w = [] /\
        exists parsed t o object,
          req_json req = Fulfilled parsed /\
          get_property "type" parsed = Some (JStr t) /\
          In t types /\ calls w = [o] /\
          (forall p,
              get_property "prompt" parsed = Some p ->
              truthy (Some p) = true -> prompt_of o = p) /\
          B o = Fulfilled object /\
          json_of_body (body r)
          = Some (JObj [("object", object); ("type", JStr t)]))
       \/ (status r = 400%Z /\ w = quiet /\
           json_of_body (body r)
           = Some (JObj [("error", JStr "Invalid type")]) /\
           exists parsed,
             req_json req = Fulfilled parsed /\ parsed <> JNull /\
             forall t, In t types ->
                       get_property "type" parsed <> Some (JStr t))
       \/ (status r = 500%Z /\ (length (calls w) <= 1)%nat /\
           exists error,
             error <> JNull /\
             errors_logged w = [("Error generating object:", Some error)] /\
             json_of_body (body r) = Some (error_document error) /\
             ((req_json req = Rejected (Some error) /\ calls w = [])
              \/ (req_json req = Fulfilled JNull /\ calls w = [])
              \/ (exists o, calls w = [o] /\ B o = Rejected (Some error))))))
  \/ (exists e message w,
         nullish e = true /\
         answer B req = (Rejected (TypeError message), w) /\
         errors_logged w = [("Error generating object:", e)] /\
         ((req_json req = Rejected e /\ calls w = [])
          \/ (exists o, calls w = [o] /\ B o = Rejected e))).
Proof.
  assert (Hfail : forall e w0,
             errors_logged w0 = [] ->
             (exists r w,
                 on_error e w0 = (Fulfilled r, w) /\
                 status r = 500%Z /\ calls w = calls w0 /\
                 exists error,
                   e = Some error /\ error <> JNull /\
                   errors_logged w
                   = [("Error generating object:", Some error)] /\
                   json_of_body (body r) = Some (error_document error))
             \/ (exists message w,
                    nullish e = true /\
                    on_error e w0 = (Rejected (TypeError message), w) /\
                    calls w = calls w0 /\
                    errors_logged w = [("Error generating object:", e)])).
  { intros e w0 Hlog.
    destruct (nullish e) eqn:Hn.
    - right. destruct (on_error_nullish e w0 Hn) as (message & ->).
      eexists _, _. split; [reflexivity|]. split; [reflexivity|].
      split; [reflexivity|]. cbn. rewrite Hlog. reflexivity.
    - left. destruct (nullish_false e Hn) as (error & -> & Hnull).
      rewrite (on_error_object error w0 Hnull).
      eexists _, _. split; [reflexivity|]. split; [reflexivity|].
      split; [reflexivity|]. exists error.
      split; [reflexivity|]. split; [exact Hnull|].
      cbn [errors_logged]. rewrite Hlog.
      split; [reflexivity|]. apply json_of_Response_json. }
  destruct req as [[parsed|e]].
  - destruct (json_eq_null parsed) as [->|Hnull].
    { left. eexists _, _. split; [reflexivity|]. right. right.
      split; [reflexivity|]. split; [cbn; lia|].
      eexists. split; [|split; [reflexivity|split]].
      + discriminate.
      + apply JSONText.parse_stringify.
      + right. left. split; reflexivity. }
    change {| req_json := Fulfilled parsed |} with (with_body parsed).
    rewrite (answer_selected B parsed Hnull).
    destruct (selected (get_property "type" parsed)
                (get_property "prompt" parsed)) as [[t o]|] eqn:Hsel.
    + destruct (selected_some _ _ _ _ Hsel) as [Ht Htype].
      destruct (B o) as [object|e] eqn:HB.
      * left. eexists _, _. split; [reflexivity|]. left.
        split; [reflexivity|]. split; [reflexivity|].
        exists parsed, t, o, object.
        split; [reflexivity|]. split; [exact Htype|]. split; [exact Ht|].
        split; [reflexivity|]. split.
        -- intros p Hp Htruthy.
           destruct (selected_prompt _ _ _ _ Hsel) as (text & Hpo & _).
           rewrite Hpo, Hp.
           pose proof (or_default_truthy (Some p) text Htruthy) as H.
           congruence.
        -- split; [exact HB | apply json_of_Response_json].
      * destruct (Hfail e {| calls := [o]; errors_logged := [] |} eq_refl)
          as [(r & w & Hrun & Hst & Hcalls & error & -> & Herr & Hlog & Hdoc)
             |(message & w & Hn & Hrun & Hcalls & Hlog)].
        -- left. exists r, w. split; [exact Hrun|]. right. right.
           split; [exact Hst|]. split; [rewrite Hcalls; cbn; lia|].
           exists error. split; [exact Herr|]. split; [exact Hlog|].
           split; [exact Hdoc|]. right. right. exists o.
           split; [exact Hcalls | exact HB].
        -- right. exists e, message, w. split; [exact Hn|].
           split; [exact Hrun|]. split; [exact Hlog|].
           right. exists o. split; [exact Hcalls | exact HB].
    + left. eexists _, _. split; [reflexivity|]. right. left.
      split; [reflexivity|]. split; [reflexivity|].
      split; [apply json_of_Response_json|].
      exists parsed. split; [reflexivity|]. split; [exact Hnull|].
      apply (proj1 (selected_none _ _) Hsel).
  - change (answer B {| req_json := Rejected e |}) with (on_error e quiet).
    destruct (Hfail e quiet eq_refl)
      as [(r & w & Hrun & Hst & Hcalls & error & -> & Herr & Hlog & Hdoc)
         |(message & w & Hn & Hrun & Hcalls & Hlog)].
    + left. exists r, w. split; [exact Hrun|]. right. right.
      split; [exact Hst|]. split; [rewrite Hcalls; cbn; lia|].
      exists error. split; [exact Herr|]. split; [exact Hlog|].
      split; [exact Hdoc|]. left. split; [reflexivity | exact Hcalls].
    + right. exists e, message, w. split; [exact Hn|].
      split; [exact Hrun|]. split; [exact Hlog|].
      left. split; [reflexivity | exact Hcalls].
Qed.

End GenerateObjectClaims.

(** ** The generate-object route on sample runs *)

Lemma generate_object_rejects_unlisted_types_witness :
  exists r,
    GenerateObjectRoute.answer ObjectSamples.echoing
      (GenerateObjectRoute.with_body (JObj [("type", JStr "Recipe")]))
    = (GenerateObjectRoute.Fulfilled r, GenerateObjectRoute.quiet) /\
    status r = 400%Z /\
    json_of_body (body r) = Some (JObj [("error", JStr "Invalid type")]).
Proof.
  apply (generate_object_rejects_unlisted_types ObjectSamples.echoing
           (JObj [("type", JStr "Recipe")])).
  - discriminate.
  - intros t Ht. cbn in Ht.
    destruct Ht as [<-|[<-|[<-|[<-|[<-|[]]]]]]; discriminate.
Defined.


Lemma generate_object_truthy_prompt_is_passed_on_witness :
  exists o,
    GenerateObjectRoute.calls
      (snd (GenerateObjectRoute.answer ObjectSamples.echoing
              (GenerateObjectRoute.with_body
                 (JObj [("type", JStr "no-schema");
                        ("prompt", JArr [JNum 1; JNum 2])]))))
    = [o] /\
    GenerateObjectRoute.prompt_of o = JArr [JNum 1; JNum 2].
Proof.
  apply (generate_object_truthy_prompt_is_passed_on ObjectSamples.echoing
           (JObj [("type", JStr "no-schema");
                  ("prompt", JArr [JNum 1; JNum 2])])
           "no-schema" (JArr [JNum 1; JNum 2]));
    try reflexivity.
  cbn. tauto.
Defined.

Lemma generate_object_failure_answer_witness :
  exists r,
    GenerateObjectRoute.answer
      (ObjectSamples.throwing ObjectSamples.no_object_error)
      (GenerateObjectRoute.with_body (JObj [("type", JStr "recipe")])) =
    (GenerateObjectRoute.Fulfilled r,
     {| GenerateObjectRoute.calls := [ObjectSamples.lasagna_call];
        GenerateObjectRoute.errors_logged :=
          [("Error generating object:",
            Some ObjectSamples.no_object_error)] |}) /\
    status r = 500%Z /\
    (get_property "name" ObjectSamples.no_object_error
     = Some (JStr "AI_NoObjectGeneratedError") ->
     exists details,
       json_of_body (body r)
       = Some (JObj [("error", JStr "Failed to generate valid object");
                     ("details", JObj details)]) /\
       get_member "text" details
       = get_property "text" ObjectSamples.no_object_error /\
       get_member "cause" details
       = GenerateObjectRoute.optional_member "message"
           (get_property "cause" ObjectSamples.no_object_error) /\
       forall k v, In (k, v) details -> k = "text" \/ k = "cause") /\
    (get_property "name" ObjectSamples.no_object_error
     <> Some (JStr "AI_NoObjectGeneratedError") ->
     json_of_body (body r)
     = Some (JObj [("error", JStr "Failed to generate object")])).
Proof.
  apply (generate_object_failure_answer
           (ObjectSamples.throwing ObjectSamples.no_object_error)
           (JObj [("type", JStr "recipe")])
           ObjectSamples.lasagna_call ObjectSamples.no_object_error).
  - discriminate.
  - left. reflexivity.
  - reflexivity.
  - discriminate.
Defined.

Example no_object_details :
  json_of_body
    (body
       match fst (GenerateObjectRoute.answer
                    (ObjectSamples.throwing ObjectSamples.no_object_error)
                    (GenerateObjectRoute.with_body
                       (JObj [("type", JStr "recipe")]))) with
       | GenerateObjectRoute.Fulfilled r => r
       | GenerateObjectRoute.Rejected _ => stream_failed
       end)
  = Some (JObj [("error", JStr "Failed to generate valid object");
                ("details", JObj [("text", JStr "{ recipe: ");
                                  ("cause", JStr "JSON parsing failed")])]).
Proof. vm_compute. reflexivity. Qed.
(** ** The stream-text route *)

Module TextRelay.
Import StreamText.

Lemma text_relay_step (part : json) calls con cs :
  part <> JNull ->
  relay part
    {| backend_calls := calls; console := con;
       stream := {| chunks := cs; state := Readable |} |}
  = (Return tt,
     {| backend_calls := calls; console := con;
        stream := {| chunks := cs ++ [frame_chunk (event_frame part)];
                     state := Readable |} |}).
Proof. destruct part; try reflexivity. congruence. Qed.

(** The loop puts one chunk on the stream per part, up to the end of the
    parts, or to the first part that is [null]. *)
Lemma text_for_await_relay (parts : list json) (fail : option exn)
    calls con cs :
  exists sent o,
    for_await_items parts fail relay
      {| backend_calls := calls; console := con;
         stream := {| chunks := cs; state := Readable |} |}
    = (o,
       {| backend_calls := calls; console := con;
          stream :=
            {| chunks := cs ++ map (fun part => frame_chunk (event_frame part))
                                 sent;
               state := Readable |} |}) /\
    Forall (fun part => part <> JNull) sent /\
    (Forall (fun part => part <> JNull) parts ->
     sent = parts /\
     o = match fail with
         | None => Return tt
         | Some e => Throw e
         end).
Proof.
  revert cs. induction parts as [|part parts IH]; intros cs.
  - exists [], (match fail with None => Return tt | Some e => Throw e end).
    cbn [for_await_items map]. rewrite app_nil_r.
    split; [destruct fail; reflexivity|]. split; [constructor|].
    intros _. split; reflexivity.
  - cbn [for_await_items].
    destruct (json_eq_null part) as [->|Hpart].
    + exists [], (Throw (type_error
                           "Cannot read properties of null (reading 'type')")).
      cbn [map]. rewrite app_nil_r.
      split; [reflexivity|]. split; [constructor|].
      intros H. inversion H; subst. congruence.
    + erewrite bind_return by (apply text_relay_step; exact Hpart).
      destruct (IH (cs ++ [frame_chunk (event_frame part)]))
        as (sent & o & -> & Hsent & Hall).
      exists (part :: sent), o. cbn [map]. rewrite <- app_assoc.
      split; [reflexivity|]. split; [constructor; assumption|].
      intros H. inversion H; subst.
      destruct (Hall H3) as [-> ->]. split; reflexivity.
Qed.

Lemma text_start_run (result : partial_object_stream) calls con :
  exists s,
    start result
      {| backend_calls := calls; console := con; stream := fresh_stream |}
    = (Return tt,
       {| backend_calls := calls; console := con; stream := s |}) /\
    ended s /\
    (exists sent,
        chunks s = map (fun part => frame_chunk (event_frame part)) sent /\
        Forall (fun part => part <> JNull) sent) /\
    (Forall (fun part => part <> JNull) (items result) ->
     s = text_relayed result).
Proof.
  destruct result as [parts fail].
  unfold start, try_catch, for_await, fresh_stream, text_relayed.
  cbn [items failure].
  destruct (text_for_await_relay parts fail calls con [])
    as (sent & o & Hrun & Hsent & Hall).
  destruct o as [[]|e].
  - erewrite bind_return by exact Hrun.
    eexists. split; [reflexivity|]. cbn [app].
    split; [left; reflexivity|].
    split; [exists sent; split; [reflexivity | exact Hsent]|].
    intros H. destruct (Hall H) as [-> Ho].
    destruct fail; [discriminate Ho | reflexivity].
  - erewrite bind_throw by exact Hrun.
    eexists. split; [reflexivity|]. cbn [app].
    split; [right; eexists; reflexivity|].
    split; [exists sent; split; [reflexivity | exact Hsent]|].
    intros H. destruct (Hall H) as [-> Ho].
    destruct fail; [injection Ho as -> | discriminate Ho]. reflexivity.
Qed.

End TextRelay.

Module TextRuns.
Import StreamText TextRelay.

Ltac run_text_handler :=
  unfold run, POST, try_catch, read_prompt, new_ReadableStream, bind, lift,
    ret, console_error, set_stream, get_stream, initial_world;
  cbn [backend_calls console stream app].

Lemma text_POST_unreadable
    (streamText : value -> outcome partial_object_stream) (req : request) :
  (exists e, json_body req = Throw e) \/ json_body req = Return JNull ->
  exists e,
    run (POST streamText req) =
    (Return text_failed,
     {| backend_calls := [];
        console := [ConsoleError "Error in stream-text route:" e];
        stream := fresh_stream |}).
Proof.
  intros [[e H] | H]; run_text_handler; rewrite H; eexists; reflexivity.
Qed.

Section Run.
Variable streamText : value -> outcome partial_object_stream.
Variables (req : request) (parsed : json) (prompt : value).
Hypothesis Hbody : json_body req = Return parsed.
Hypothesis Hprompt : destructure_prompt parsed = Return prompt.

Lemma text_POST_refused (e : exn) :
  streamText prompt = Throw e ->
  run (POST streamText req) =
  (Return text_failed,
   {| backend_calls := [];
      console := [ConsoleError "Error in stream-text route:" e];
      stream := fresh_stream |}).
Proof.
  intros Hr. run_text_handler. rewrite Hbody, Hprompt, Hr. reflexivity.
Qed.

Lemma text_POST_streams (result : partial_object_stream) :
  streamText prompt = Return result ->
  exists s,
    run (POST streamText req) =
    (Return (Response_stream s stream_headers),
     {| backend_calls := []; console := []; stream := s |}) /\
    ended s /\
    (exists sent,
        chunks s = map (fun part => frame_chunk (event_frame part)) sent /\
        Forall (fun part => part <> JNull) sent) /\
    (Forall (fun part => part <> JNull) (items result) ->
     s = text_relayed result).
Proof.
  intros Hr.
  destruct (text_start_run result [] []) as (s & Hstart & Hrest).
  exists s. split; [|exact Hrest].
  run_text_handler. rewrite Hbody, Hprompt, Hr.
  cbn [backend_calls console stream]. rewrite Hstart. reflexivity.
Qed.

End Run.
End TextRuns.

(** ** The stream-text page *)

Module TextPageFacts.
Import StreamTextPage JSONFacts Lines.

Section Reading.
Variable JSON_parse : string -> outcome json.

(** A line never makes the loop throw: a parse error, or an event that is
    [null], is caught and logged. *)
Lemma text_handle_line_returns (line : chars) (w : page_world) :
  exists w',
    handle_line JSON_parse line w = (Return tt, w') /\
    fetches w' = fetches w /\
    prompt (page w') = prompt (page w).
Proof.
  unfold handle_line.
  destruct (trims_to_empty (string_of_list_ascii line));
    [eexists; repeat split; reflexivity|].
  unfold pcatch, pbind.
  destruct (JSON_parse (string_of_list_ascii line)) as [event|e];
    [|eexists; repeat split; reflexivity].
  unfold dispatch, pbind, setEvents, update.
  destruct event; try (eexists; repeat split; reflexivity);
    repeat match goal with
           | |- context [if ?b then _ else _] => destruct b
           end; eexists; repeat split; reflexivity.
Qed.

Lemma text_for_of_lines_returns (lines : list chars) (w : page_world) :
  exists w',
    for_of lines (handle_line JSON_parse) w = (Return tt, w') /\
    fetches w' = fetches w /\
    prompt (page w') = prompt (page w).
Proof.
  revert w. induction lines as [|l ls IH]; intros w;
    [eexists; repeat split; reflexivity|].
  cbn [for_of]. unfold pbind.
  destruct (text_handle_line_returns l w) as (w1 & -> & Hf & Hp).
  destruct (IH w1) as (w2 & -> & Hf2 & Hp2).
  eexists. split; [reflexivity|]. split; congruence.
Qed.

Lemma text_read_all_read_text (values : list (list byte)) (last : read_end)
    (buffer : chars) (w : page_world) :
  one_line buffer ->
  read_all JSON_parse values last buffer w
  = read_text JSON_parse
      (buffer ++ list_ascii_of_string (decode (concat values))) last w.
Proof.
  revert buffer w. induction values as [|v rest IH]; intros buffer w Hb.
  - cbn [read_all concat]. unfold read_text.
    cbn [decode string_of_list_byte list_ascii_of_string]. rewrite app_nil_r.
    destruct (one_line_complete_lines buffer Hb) as [-> _]. reflexivity.
  - cbn [read_all concat]. rewrite text_of_decode_app, app_assoc.
    set (buffered := buffer ++ list_ascii_of_string (decode v)).
    unfold read_text.
    destruct (complete_lines_app buffered
                (list_ascii_of_string (decode (concat rest)))) as [-> _].
    fold (complete_lines buffered). fold (residue buffered).
    unfold pbind. rewrite for_of_app. unfold pbind.
    destruct (for_of (complete_lines buffered) (handle_line JSON_parse) w)
      as [[[]|e] w1]; [|reflexivity].
    rewrite IH by apply residue_one_line. reflexivity.
Qed.

End Reading.

Section Submit.
Variable JSON_parse : string -> outcome json.
Variable network : fetch_call -> fetch_result.
Variable w : page_world.
Hypothesis Hprompt : trims_to_empty (prompt (page w)) = false.
Hypothesis Hidle : isStreaming (page w) = false.

Lemma text_handleSubmit_settles :
  handleSubmit JSON_parse network w =
  settle
    match network (submission (page w)) with
    | FetchRejects e => (Throw e, submitted w)
    | FetchResponse false _ => (Throw "Error: Stream failed", submitted w)
    | FetchResponse true None =>
        (Throw "Error: No reader available", submitted w)
    | FetchResponse true (Some reader) =>
        read_text JSON_parse
          (list_ascii_of_string (decode (concat (delivered reader))))
          (ending reader) (submitted w)
    end.
Proof.
  unfold handleSubmit. rewrite Hprompt, Hidle. cbn [orb].
  unfold pbind at 1 2 3, setEvents, setGeneratedText, setIsStreaming, update.
  cbn [page page_console fetches prompt events generatedText isStreaming].
  unfold pfinally, pcatch, pbind at 1, fetch.
  cbn [page page_console fetches].
  fold (submitted w).
  destruct (network (submission (page w))) as [e|[] [reader|]];
    try reflexivity.
  rewrite (text_read_all_read_text JSON_parse _ _ [] _ (Forall_nil _)).
  cbn [app].
  destruct (read_text JSON_parse
              (list_ascii_of_string (decode (concat (delivered reader))))
              (ending reader) (submitted w)) as [[[]|e] w1]; reflexivity.
Qed.

End Submit.

Section Frames.
Variable JSON_parse : string -> outcome json.
Hypothesis Hparse : forall v, JSON_parse (JSON.stringify v) = Return v.



End Frames.






End TextPageFacts.


Section StreamTextClaims.
Import StreamTextPage TextPageFacts StreamPageRuns Lines.

(** X19.  The stream-text route relays every part of [fullStream] as one frame
    [{ type, data }], in order, and adds no frame of its own: the stream is
    closed after the last part when the model stream ended, and errored
    when it threw.  A failure of the model stream is not logged. *)
Theorem stream_text_route_relays_every_part
    (streamText : value -> outcome partial_object_stream) (req : request)
    (parsed : json) (prompt : value) (result : partial_object_stream) :
  json_body req = Return parsed ->
  destructure_prompt parsed = Return prompt ->
  streamText prompt = Return result ->
  Forall (fun part => part <> JNull) (items result) ->
  run (StreamText.POST streamText req) =
  (Return (Response_stream (text_relayed result) StreamText.stream_headers),
   {| backend_calls := []; console := []; stream := text_relayed result |})
  /\ map read_frame (chunks (text_relayed result))
     = map (fun part => Some (JObj (property "type" (get_property "type" part)
                                    ++ [("data", part)])))
         (items result)
  /\ (state (text_relayed result) = Closed <-> failure result = None).
Proof.
  intros Hbody Hprompt Hr Hparts.
  destruct (TextRuns.text_POST_streams streamText req parsed prompt
              Hbody Hprompt result Hr) as (s & Hrun & _ & _ & Hs).
  rewrite Hrun, (Hs Hparts). split; [reflexivity|]. split.
  - unfold text_relayed. cbn [chunks]. rewrite map_map.
    apply map_ext. intros part. apply read_frame_frame_chunk.
  - unfold text_relayed. cbn [state].
    destruct (failure result); split; intros H; try reflexivity;
      discriminate H.
Qed.

(** X20.  The stream-text route answers every request, with a stream or with a
    500, never with a 400.  Once the stream is opened nothing is logged,
    whatever happens to it, and it ends closed or errored; a 500 is logged
    once and leaves no stream. *)
Theorem stream_text_route_outcomes
    (streamText : value -> outcome partial_object_stream) (req : request) :
  exists r w,
    run (StreamText.POST streamText req) = (Return r, w) /\
    ((status r = 200%Z /\ body r = StreamBody (stream w) /\
      ended (stream w) /\ console w = [])
     \/ (status r = 500%Z /\
         json_of_body (body r)
         = Some (JObj [("error", JStr "Failed to stream text")]) /\
         stream w = fresh_stream /\
         exists e, console w = [ConsoleError "Error in stream-text route:" e])).
Proof.
  destruct (StreamRuns.readable_or_not req)
    as [Hbad|(parsed & prompt & Hbody & Hprompt)].
  - destruct (TextRuns.text_POST_unreadable streamText req Hbad)
      as (e & ->).
    eexists _, _. split; [reflexivity|]. right.
    split; [reflexivity|]. split; [apply json_of_Response_json|].
    split; [reflexivity|]. eexists. reflexivity.
  - destruct (streamText prompt) as [result|e] eqn:Hr.
    + destruct (TextRuns.text_POST_streams streamText req parsed prompt
                  Hbody Hprompt result Hr) as (s & -> & Hended & _).
      eexists _, _. split; [reflexivity|]. left.
      split; [reflexivity|]. split; [reflexivity|].
      split; [exact Hended | reflexivity].
    + rewrite (TextRuns.text_POST_refused streamText req parsed prompt
                 Hbody Hprompt e Hr).
      eexists _, _. split; [reflexivity|]. right.
      split; [reflexivity|]. split; [apply json_of_Response_json|].
      split; [reflexivity|]. eexists. reflexivity.
Qed.

(** The stream-text page reads the same events however the bytes of the
    response are cut into chunks. *)
Theorem stream_text_page_ignores_chunk_boundaries
    (JSON_parse : string -> outcome json)
    (network network' : fetch_call -> fetch_result) (w : page_world)
    (reader reader' : body_reader) :
  network (submission (page w)) = FetchResponse true (Some reader) ->
  network' (submission (page w)) = FetchResponse true (Some reader') ->
  concat (delivered reader) = concat (delivered reader') ->
  ending reader = ending reader' ->
  handleSubmit JSON_parse network w = handleSubmit JSON_parse network' w.
Proof.
  intros Hn Hn' Hsame Hend.
  destruct (trims_to_empty (prompt (page w))) eqn:Hp.
  { unfold handleSubmit. rewrite Hp. reflexivity. }
  destruct (isStreaming (page w)) eqn:Hi.
  { unfold handleSubmit. rewrite Hp, Hi. reflexivity. }
  rewrite !text_handleSubmit_settles by assumption.
  rewrite Hn, Hn', Hsame, Hend. reflexivity.
Qed.


(** X22.  The 500 of the route is not [ok]: the page does not read it, logs
    [Stream failed] and shows one [error] event with its own text, and no
    generated text. *)
Theorem stream_text_page_hides_the_route_error
    (JSON_parse : string -> outcome json)
    (network : fetch_call -> fetch_result) (w : page_world)
    (streamText : value -> outcome partial_object_stream) (req : request)
    (r : response) (text : string) (reader : option body_reader) :
  trims_to_empty (prompt (page w)) = false ->
  isStreaming (page w) = false ->
  fst (run (StreamText.POST streamText req)) = Return r ->
  body r = TextBody text ->
  network (submission (page w)) = FetchResponse (ok_status (status r)) reader ->
  ok_status (status r) = false /\
  handleSubmit JSON_parse network w =
  (Return tt,
   {| page := {| prompt := prompt (page w);
                 events := [error_event];
                 generatedText := Return "";
                 isStreaming := false |};
      page_console :=
        page_console w
        ++ [ConsoleError "Streaming error:" "Error: Stream failed"];
      fetches := fetches w ++ [submission (page w)] |}).
Proof.
  intros Hp Hi Hr Hbody Hn.
  assert (Hnot : ok_status (status r) = false).
  { destruct (StreamRuns.readable_or_not req)
      as [Hbad|(parsed & prompt0 & Hb & Hpr)].
    - destruct (TextRuns.text_POST_unreadable streamText req Hbad)
        as (e & Hrun).
      rewrite Hrun in Hr. injection Hr as <-. reflexivity.
    - destruct (streamText prompt0) as [result|e] eqn:Hst.
      + destruct (TextRuns.text_POST_streams streamText req parsed prompt0
                    Hb Hpr result Hst) as (s & Hrun & _).
        rewrite Hrun in Hr. injection Hr as <-. discriminate Hbody.
      + rewrite (TextRuns.text_POST_refused streamText req parsed prompt0
                   Hb Hpr e Hst) in Hr.
        injection Hr as <-. reflexivity. }
  split; [exact Hnot|].
  rewrite text_handleSubmit_settles by assumption. rewrite Hn, Hnot.
  reflexivity.
Qed.

(** X23.  A submit of the stream-text page never throws and sends at most one
    request: none when the prompt is blank or a stream is being read, in
    which case nothing changes; otherwise one, whose body the route reads
    back as the prompt of the page; and the page is left not streaming. *)
Theorem stream_text_page_submits_once
    (JSON_parse : string -> outcome json)
    (network : fetch_call -> fetch_result) (w : page_world) :
  exists w',
    handleSubmit JSON_parse network w = (Return tt, w') /\
    prompt (page w') = prompt (page w) /\
    if trims_to_empty (prompt (page w)) || isStreaming (page w)
    then w' = w
    else
      fetches w' = fetches w ++ [submission (page w)] /\
      isStreaming (page w') = false /\
      JSON.parse (request_body (submission (page w)))
      = Some (JObj [("prompt", JStr (prompt (page w)))]) /\
      destructure_prompt (JObj [("prompt", JStr (prompt (page w)))])
      = Return (Some (JStr (prompt (page w)))).
Proof.
  destruct (trims_to_empty (prompt (page w))) eqn:Hp.
  { exists w. unfold handleSubmit. rewrite Hp. repeat split. }
  destruct (isStreaming (page w)) eqn:Hi.
  { exists w. unfold handleSubmit. rewrite Hp, Hi. repeat split. }
  rewrite text_handleSubmit_settles by assumption. cbn [orb].
  assert (Hsettle : forall o w1,
             fetches w1 = fetches (submitted w) ->
             prompt (page w1) = prompt (page w) ->
             exists w',
               settle (o, w1) = (Return tt, w') /\
               prompt (page w') = prompt (page w) /\
               fetches w' = fetches w ++ [submission (page w)] /\
               isStreaming (page w') = false).
  { intros [[]|e] w1 Hf Hpr; eexists; (split; [reflexivity|]);
      cbn; repeat split; assumption. }
  assert (Hend : exists o w1,
             match network (submission (page w)) with
             | FetchRejects e => (Throw e, submitted w)
             | FetchResponse false _ =>
                 (Throw "Error: Stream failed", submitted w)
             | FetchResponse true None =>
                 (Throw "Error: No reader available", submitted w)
             | FetchResponse true (Some reader) =>
                 read_text JSON_parse
                   (list_ascii_of_string (decode (concat (delivered reader))))
                   (ending reader) (submitted w)
             end = (o, w1) /\
             fetches w1 = fetches (submitted w) /\
             prompt (page w1) = prompt (page w)).
  { destruct (network (submission (page w))) as [e|[] [reader|]];
      try (eexists _, _; repeat split; reflexivity).
    unfold read_text, pbind.
    destruct (text_for_of_lines_returns JSON_parse
                (complete_lines
                   (list_ascii_of_string (decode (concat (delivered reader)))))
                (submitted w)) as (w1 & -> & Hf & Hpr).
    destruct (ending reader); eexists _, _; repeat split; eassumption. }
  destruct Hend as (o & w1 & -> & Hf & Hpr).
  destruct (Hsettle o w1 Hf Hpr) as (w' & -> & H1 & H2 & H3).
  exists w'. split; [reflexivity|]. split; [assumption|].
  repeat split; try assumption.
  unfold submission. cbn [request_body]. apply JSONText.parse_stringify.
Qed.

End StreamTextClaims.

(** ** The stream-text route and page on sample runs *)

Lemma stream_text_route_relays_every_part_witness :
  run (StreamText.POST
         (TextSamples.steady_text
            {| items := TextSamples.weather_parts;
               failure := Some "backend timeout" |})
         Samples.curry_request) =
  (Return (Response_stream
             (text_relayed {| items := TextSamples.weather_parts;
                              failure := Some "backend timeout" |})
             StreamText.stream_headers),
   {| backend_calls := []; console := [];
      stream := text_relayed {| items := TextSamples.weather_parts;
                                failure := Some "backend timeout" |} |})
  /\ map read_frame
       (chunks (text_relayed {| items := TextSamples.weather_parts;
                                failure := Some "backend timeout" |}))
     = map (fun part => Some (JObj (property "type" (get_property "type" part)
                                    ++ [("data", part)])))
         TextSamples.weather_parts
  /\ (state (text_relayed {| items := TextSamples.weather_parts;
                             failure := Some "backend timeout" |}) = Closed
      <-> Some "backend timeout" = None).
Proof.
  apply (stream_text_route_relays_every_part
           (TextSamples.steady_text
              {| items := TextSamples.weather_parts;
                 failure := Some "backend timeout" |})
           Samples.curry_request
           (JObj [("prompt", JStr Samples.curry_prompt)])
           (Some (JStr Samples.curry_prompt))
           {| items := TextSamples.weather_parts;
              failure := Some "backend timeout" |});
    try reflexivity.
  repeat constructor; discriminate.
Defined.

Lemma stream_text_page_ignores_chunk_boundaries_witness :
  StreamTextPage.handleSubmit PageSamples.parse_or_throw
    (PageSamples.answering
       (FetchResponse true
          (Some {| delivered := [concat (chunks TextSamples.weather_stream)];
                   ending := Done |})))
    TextSamples.weather_page
  = StreamTextPage.handleSubmit PageSamples.parse_or_throw
      (PageSamples.answering
         (FetchResponse true
            (Some {| delivered :=
                       PageSamples.cut_at 11
                         (concat (chunks TextSamples.weather_stream));
                     ending := Done |})))
      TextSamples.weather_page.
Proof.
  apply (stream_text_page_ignores_chunk_boundaries PageSamples.parse_or_throw
           _ _ TextSamples.weather_page
           {| delivered := [concat (chunks TextSamples.weather_stream)];
              ending := Done |}
           {| delivered :=
                PageSamples.cut_at 11
                  (concat (chunks TextSamples.weather_stream));
              ending := Done |});
    reflexivity.
Defined.


Example weather_on_the_page :
  StreamTextPage.generatedText
    (StreamTextPage.page
       (snd (StreamTextPage.handleSubmit PageSamples.parse_or_throw
               (PageSamples.answering
                  (FetchResponse true
                     (Some {| delivered :=
                                PageSamples.cut_at 11
                                  (concat (chunks TextSamples.weather_stream));
                              ending := Done |})))
               TextSamples.weather_page)))
  = Return "Checking the sky".
Proof. vm_compute. reflexivity. Qed.

Lemma stream_text_page_hides_the_route_error_witness :
  ok_status 500 = false /\
  StreamTextPage.handleSubmit PageSamples.parse_or_throw
    (PageSamples.answering (FetchResponse (ok_status 500) None))
    TextSamples.weather_page =
  (Return tt,
   {| StreamTextPage.page :=
        {| StreamTextPage.prompt :=
             StreamTextPage.prompt
               (StreamTextPage.page TextSamples.weather_page);
           StreamTextPage.events := [StreamTextPage.error_event];
           StreamTextPage.generatedText := Return "";
           StreamTextPage.isStreaming := false |};
      StreamTextPage.page_console :=
        [] ++ [ConsoleError "Streaming error:" "Error: Stream failed"];
      StreamTextPage.fetches :=
        [] ++ [StreamTextPage.submission
                 (StreamTextPage.page TextSamples.weather_page)] |}).
Proof.
  apply (stream_text_page_hides_the_route_error PageSamples.parse_or_throw
           _ TextSamples.weather_page TextSamples.refusing_text
           Samples.curry_request text_failed
           (JSON.stringify (JObj [("error", JStr "Failed to stream text")]))
           None);
    reflexivity.
Defined.

(** ** The generating-text route *)

Section GeneratingTextClaims.
Import GeneratingText.


(** X25.  The generating-text route answers every request: 200 with the text of
    the model and nothing logged, or 500 with the error logged once; there
    is no 400. *)
Theorem generating_text_route_outcomes
    (generateText : string -> string -> string -> outcome string)
    (req : request) :
  exists r w,
    run (POST generateText req) = (Return r, w) /\
    ((status r = 200%Z /\ console w = [] /\
      exists text, json_of_body (body r) = Some (JObj [("text", JStr text)]))
     \/ (status r = 500%Z /\
         json_of_body (body r)
         = Some (JObj [("error", JStr "Failed to generate text")]) /\
         exists e, console w = [ConsoleError "Error generating text:" e])).
Proof.
  unfold run, POST, try_catch, bind, lift, ret, console_error, initial_world.
  destruct (json_body req) as [parsed|e].
  - destruct (destructure_article parsed) as [article|e].
    + destruct (generateText (google gemini) system (summary_prompt article))
        as [text|e].
      * eexists _, _. split; [reflexivity|]. left.
        split; [reflexivity|]. split; [reflexivity|].
        exists text. apply json_of_Response_json.
      * eexists _, _. split; [reflexivity|]. right.
        split; [reflexivity|]. split; [apply json_of_Response_json|].
        eexists. reflexivity.
    + eexists _, _. split; [reflexivity|]. right.
      split; [reflexivity|]. split; [apply json_of_Response_json|].
      eexists. reflexivity.
  - eexists _, _. split; [reflexivity|]. right.
    split; [reflexivity|]. split; [apply json_of_Response_json|].
    eexists. reflexivity.
Qed.

End GeneratingTextClaims.

(** ** The repository route *)

Module McpFacts.
Import GenerateObjectRoute McpDemo.

Lemma split_on_without (sep : ascii) (cs : chars) :
  ~ In sep cs -> split_on sep cs = [cs].
Proof.
  induction cs as [|c cs IH]; intros H; [reflexivity|].
  cbn [split_on].
  destruct (Ascii.eqb_spec c sep) as [->|Hc].
  - exfalso. apply H. left. reflexivity.
  - rewrite IH; [reflexivity|]. intros Hin. apply H. right. exact Hin.
Qed.

Lemma split_on_first (sep : ascii) (cs rest : chars) :
  ~ In sep cs ->
  split_on sep (cs ++ sep :: rest) = cs :: split_on sep rest.
Proof.
  induction cs as [|c cs IH]; intros H.
  - cbn [app split_on]. rewrite Ascii.eqb_refl. reflexivity.
  - cbn [app split_on].
    destruct (Ascii.eqb_spec c sep) as [->|Hc].
    + exfalso. apply H. left. reflexivity.
    + rewrite IH; [reflexivity|]. intros Hin. apply H. right. exact Hin.
Qed.

Lemma split_on_not_nil (sep : ascii) (cs : chars) :
  exists piece pieces, split_on sep cs = piece :: pieces.
Proof.
  induction cs as [|c cs (piece & pieces & IH)]; [eexists _, _; reflexivity|].
  cbn [split_on]. destruct (c =? sep)%char; [eexists _, _; reflexivity|].
  rewrite IH. eexists _, _. reflexivity.
Qed.

Lemma member_of_object (k : string) (error : json) :
  error <> JNull -> member k (Some error) = Fulfilled (get_property k error).
Proof. intros H. destruct error; try reflexivity. congruence. Qed.

Lemma POST_with_body
    (generateText : string -> result generation) (parsed : json) :
  parsed <> JNull ->
  POST generateText (with_body parsed) =
  match attempt generateText (get_property "repo" parsed) with
  | Fulfilled r => Fulfilled r
  | Rejected error => on_error error
  end.
Proof.
  intros H. unfold POST, with_body, and_then. cbn [req_json].
  destruct parsed; try reflexivity. congruence.
Qed.

Lemma chars_of_string_inj (a b : string) :
  list_ascii_of_string a = list_ascii_of_string b -> a = b.
Proof.
  intros H. rewrite <- (string_of_list_ascii_of_string a),
              <- (string_of_list_ascii_of_string b), H.
  reflexivity.
Qed.

(** Every text is a piece without a slash, followed by nothing or by a
    slash and the rest. *)
Lemma first_piece (cs : chars) :
  exists piece rest,
    cs = piece ++ rest /\ ~ In "/"%char piece /\
    (rest = [] \/ exists more, rest = "/"%char :: more).
Proof.
  induction cs as [|c cs (piece & rest & -> & Hpiece & Hrest)].
  - exists [], []. split; [reflexivity|]. split; [intros []|]. left. reflexivity.
  - destruct (Ascii.eqb_spec c "/") as [->|Hc].
    + exists [], ("/"%char :: piece ++ rest).
      split; [reflexivity|]. split; [intros []|]. right. eexists. reflexivity.
    + exists (c :: piece), rest. split; [reflexivity|]. split; [|exact Hrest].
      intros [H|H]; [apply Hc; exact H | exact (Hpiece H)].
Qed.

(** The same for strings: an owner, then nothing, or a slash, a name and a
    rest that is empty or begins with a slash. *)
Lemma owner_and_name (repo : string) :
  exists owner,
    slashless owner /\
    (repo = owner
     \/ exists name rest,
          slashless name /\
          repo = (owner ++ "/" ++ name ++ rest)%string /\
          (rest = "" \/ exists more, rest = String "/" more)).
Proof.
  destruct (first_piece (list_ascii_of_string repo))
    as (piece & rest & Hrepo & Hpiece & Hrest).
  exists (string_of_list_ascii piece). split.
  { unfold slashless. rewrite list_ascii_of_string_of_list_ascii.
    exact Hpiece. }
  destruct Hrest as [->|(more & ->)].
  - left. apply chars_of_string_inj.
    rewrite Hrepo, app_nil_r, list_ascii_of_string_of_list_ascii.
    reflexivity.
  - right.
    destruct (first_piece more) as (name & tail & -> & Hname & Htail).
    exists (string_of_list_ascii name), (string_of_list_ascii tail).
    split.
    { unfold slashless. rewrite list_ascii_of_string_of_list_ascii.
      exact Hname. }
    split.
    + apply chars_of_string_inj.
      rewrite Hrepo, !list_ascii_of_string_app.
      rewrite !list_ascii_of_string_of_list_ascii. reflexivity.
    + destruct Htail as [->|(more' & ->)]; [left; reflexivity|].
      right. eexists. reflexivity.
Qed.

(** The [try] block on a repository text with an owner and a name. *)
Lemma attempt_owner_name
    (generateText : string -> result generation) (owner name rest : string) :
  slashless owner -> slashless name ->
  rest = "" \/ (exists more, rest = String "/" more) ->
  attempt generateText (Some (JStr (owner ++ "/" ++ name ++ rest)))
  = and_then
      (generateText
         ("Use the get_repository tool to fetch information about the repository with owner "
              ++ String DQ
                   (owner
                    ++ String DQ
                         (" and repo "
                          ++ String DQ
                               (name
                                ++ String DQ
                                     ". After getting the data, provide a summary with stars, description, main language, and other interesting details."))))%string)
      (fun result =>
         Fulfilled
           (Response_json
              (JObj [("text", JStr (text result));
                     ("toolCalls", JArr (concat (steps result)))])
              200)).
Proof.
  intros Howner Hname Hrest.
  unfold attempt, split_repo.
  assert (Hpieces : exists others,
             split_on "/" (list_ascii_of_string (owner ++ "/" ++ name ++ rest))
             = list_ascii_of_string owner
               :: list_ascii_of_string name :: others).
  { rewrite !list_ascii_of_string_app. cbn [list_ascii_of_string app].
    rewrite (split_on_first "/" _ _ Howner).
    destruct Hrest as [->|(more & ->)].
    - cbn [list_ascii_of_string]. rewrite app_nil_r.
      rewrite (split_on_without "/" _ Hname). exists []. reflexivity.
    - cbn [list_ascii_of_string].
      rewrite (split_on_first "/" _ _ Hname). eexists. reflexivity. }
  destruct Hpieces as (others & ->).
  cbn [and_then map element nth_error].
  rewrite !string_of_list_ascii_of_string.
  reflexivity.
Qed.

(** The [try] block on a repository text without a slash. *)
Lemma attempt_owner_only
    (generateText : string -> result generation) (repo : string) :
  slashless repo ->
  attempt generateText (Some (JStr repo))
  = and_then
      (generateText
         ("Use the get_repository tool to fetch information about the repository with owner "
              ++ String DQ
                   (repo
                    ++ String DQ
                         (" and repo "
                          ++ String DQ
                               ("undefined"
                                ++ String DQ
                                     ". After getting the data, provide a summary with stars, description, main language, and other interesting details."))))%string)
      (fun result =>
         Fulfilled
           (Response_json
              (JObj [("text", JStr (text result));
                     ("toolCalls", JArr (concat (steps result)))])
              200)).
Proof.
  intros Hrepo.
  unfold attempt, split_repo.
  rewrite (split_on_without "/" _ Hrepo).
  cbn [and_then map element nth_error].
  rewrite string_of_list_ascii_of_string.
  reflexivity.
Qed.

End McpFacts.

Section McpClaims.
Import GenerateObjectRoute McpDemo McpFacts.

(** X26.  The repository is read as [owner/name]: the text before the first
    slash and the text between the first and the second one go into the
    prompt, each between quotes, and whatever follows a second slash is
    ignored. *)
Theorem mcp_route_reads_owner_and_name
    (generateText : string -> result generation) (parsed : json)
    (owner name rest : string) :
  slashless owner -> slashless name ->
  rest = "" \/ (exists more, rest = String "/" more) ->
  get_property "repo" parsed = Some (JStr (owner ++ "/" ++ name ++ rest)) ->
  POST generateText (with_body parsed) =
  match generateText
          ("Use the get_repository tool to fetch information about the repository with owner "
               ++ String DQ
                    (owner
                     ++ String DQ
                          (" and repo "
                           ++ String DQ
                                (name
                                 ++ String DQ
                                      ". After getting the data, provide a summary with stars, description, main language, and other interesting details."))))%string with
  | Fulfilled result =>
      Fulfilled
        (Response_json
           (JObj [("text", JStr (text result));
                  ("toolCalls", JArr (concat (steps result)))])
           200)
  | Rejected error => on_error error
  end.
Proof.
  intros Howner Hname Hrest Hrepo.
  assert (Hnull : parsed <> JNull) by (intros ->; discriminate).
  rewrite (POST_with_body generateText parsed Hnull), Hrepo.
  rewrite (attempt_owner_name generateText owner name rest Howner Hname Hrest).
  unfold and_then. destruct (generateText _); reflexivity.
Qed.

(** X27.  A repository text without a slash is taken as the owner, and the
    prompt then names the repo [undefined], between quotes; the model is
    asked all the same. *)
Theorem mcp_route_repo_without_slash
    (generateText : string -> result generation) (parsed : json)
    (repo : string) :
  slashless repo ->
  get_property "repo" parsed = Some (JStr repo) ->
  POST generateText (with_body parsed) =
  match generateText
          ("Use the get_repository tool to fetch information about the repository with owner "
               ++ String DQ
                    (repo
                     ++ String DQ
                          (" and repo "
                           ++ String DQ
                                ("undefined"
                                 ++ String DQ
                                      ". After getting the data, provide a summary with stars, description, main language, and other interesting details."))))%string with
  | Fulfilled result =>
      Fulfilled
        (Response_json
           (JObj [("text", JStr (text result));
                  ("toolCalls", JArr (concat (steps result)))])
           200)
  | Rejected error => on_error error
  end.
Proof.
  intros Hrepo Hget.
  assert (Hnull : parsed <> JNull) by (intros ->; discriminate).
  rewrite (POST_with_body generateText parsed Hnull), Hget.
  rewrite (attempt_owner_only generateText repo Hrepo).
  unfold and_then. destruct (generateText _); reflexivity.
Qed.

(** X28.  A [repo] that is not a string (missing, a number, a list) is answered
    500 with the message of the [TypeError] of [repo.split], and the model
    is not asked: the answer is the same for every model. *)
Theorem mcp_route_needs_a_string (parsed : json) :
  parsed <> JNull ->
  (forall s, get_property "repo" parsed <> Some (JStr s)) ->
  exists message,
    forall generateText : string -> result generation,
      POST generateText (with_body parsed)
      = Fulfilled (Response_json (JObj [("error", JStr message)]) 500).
Proof.
  intros Hnull Hrepo.
  destruct (get_property "repo" parsed) as [[| | |s| |]|] eqn:E;
    try (exfalso; exact (Hrepo s eq_refl));
    eexists; intros generateText;
    rewrite (POST_with_body generateText parsed Hnull), E; reflexivity.
Qed.

(** X29.  When the model call throws an object, its [message] is sent to the
    client as the [error] of a 500, word for word; an object without a
    message gives the empty document. *)
Theorem mcp_route_returns_the_error_message
    (generateText : string -> result generation) (parsed : json)
    (pieces : list string) (error : json) :
  parsed <> JNull ->
  split_repo (get_property "repo" parsed) = Fulfilled pieces ->
  generateText (repository_prompt (element 0 pieces) (element 1 pieces))
  = Rejected (Some error) ->
  error <> JNull ->
  exists r,
    POST generateText (with_body parsed) = Fulfilled r /\
    status r = 500%Z /\
    json_of_body (body r)
    = Some (JObj match get_property "message" error with
                 | Some message => [("error", message)]
                 | None => []
                 end).
Proof.
  intros Hnull Hsplit Hgen Herror.
  rewrite (POST_with_body generateText parsed Hnull).
  unfold attempt, and_then. rewrite Hsplit. cbn beta zeta.
  rewrite Hgen. unfold on_error, and_then.
  rewrite (member_of_object "message" error Herror).
  eexists. split; [reflexivity|]. split; [reflexivity|].
  rewrite json_of_Response_json. unfold property.
  destruct (get_property "message" error); reflexivity.
Qed.

(** X30.  What the repository route does, request by request.  It reads the
    body outside its [try]: a body that cannot be read makes the handler
    throw what the read threw, and the body [null] makes it throw a
    [TypeError], so that there is no response.  A [repo] that is not a
    string is answered 500.  A [repo] that is a string is an owner, then
    nothing or a slash and a name, and the model is asked one question,
    which quotes the owner and the name, or [undefined] for a missing
    name.  When the model answers, the response is 200 with its text and
    the tool calls of all steps in order; when it throws an object, 500
    with the message of the object; when it throws [undefined] or [null],
    the [catch] block throws a [TypeError] and there is no response. *)
Theorem mcp_route_outcomes
    (generateText : string -> result generation) (req : route_request) :
  match req_json req with
  | Rejected e => POST generateText req = Rejected e
  | Fulfilled JNull =>
      exists m, POST generateText req = Rejected (TypeError m)
  | Fulfilled parsed =>
      match get_property "repo" parsed with
      | Some (JStr repo) =>
          exists owner shown,
            slashless owner /\
            ((repo = owner /\ shown = "undefined")
             \/ (exists rest,
                    slashless shown /\
                    repo = (owner ++ "/" ++ shown ++ rest)%string /\
                    (rest = "" \/ exists more, rest = String "/" more))) /\
            match generateText
                    ("Use the get_repository tool to fetch information about the repository with owner "
                         ++ String DQ
                              (owner
                               ++ String DQ
                                    (" and repo "
                                     ++ String DQ
                                          (shown
                                           ++ String DQ
                                                ". After getting the data, provide a summary with stars, description, main language, and other interesting details."))))%string with
            | Fulfilled result =>
                exists r,
                  POST generateText req = Fulfilled r /\
                  status r = 200%Z /\
                  json_of_body (body r)
                  = Some (JObj [("text", JStr (text result));
                                ("toolCalls", JArr (concat (steps result)))])
            | Rejected None | Rejected (Some JNull) =>
                exists m, POST generateText req = Rejected (TypeError m)
            | Rejected (Some error) =>
                exists r,
                  POST generateText req = Fulfilled r /\
                  status r = 500%Z /\
                  json_of_body (body r)
                  = Some (JObj match get_property "message" error with
                               | Some message => [("error", message)]
                               | None => []
                               end)
            end
      | _ =>
          exists message,
            POST generateText req
            = Fulfilled (Response_json (JObj [("error", JStr message)]) 500)
      end
  end.
Proof.
  destruct req as [[parsed|e]]; [|reflexivity].
  cbn [req_json].
  destruct (json_eq_null parsed) as [->|Hnull].
  { eexists. reflexivity. }
  change {| req_json := Fulfilled parsed |} with (with_body parsed).
  assert (Hgoal :
    match get_property "repo" parsed with
    | Some (JStr repo) =>
        exists owner shown,
          slashless owner /\
          ((repo = owner /\ shown = "undefined")
           \/ (exists rest,
                  slashless shown /\
                  repo = (owner ++ "/" ++ shown ++ rest)%string /\
                  (rest = "" \/ exists more, rest = String "/" more))) /\
          match generateText
                      ("Use the get_repository tool to fetch information about the repository with owner "
                           ++ String DQ
                                (owner
                                 ++ String DQ
                                      (" and repo "
                                       ++ String DQ
                                            (shown
                                             ++ String DQ
                                                  ". After getting the data, provide a summary with stars, description, main language, and other interesting details."))))%string with
              | Fulfilled result =>
                  exists r,
                    POST generateText (with_body parsed) = Fulfilled r /\
                    status r = 200%Z /\
                    json_of_body (body r)
                    = Some (JObj [("text", JStr (text result));
                                  ("toolCalls", JArr (concat (steps result)))])
              | Rejected None | Rejected (Some JNull) =>
                  exists m, POST generateText (with_body parsed) = Rejected (TypeError m)
              | Rejected (Some error) =>
                  exists r,
                    POST generateText (with_body parsed) = Fulfilled r /\
                    status r = 500%Z /\
                    json_of_body (body r)
                    = Some (JObj match get_property "message" error with
                                 | Some message => [("error", message)]
                                 | None => []
                                 end)
              end
    | _ =>
        exists message,
          POST generateText (with_body parsed)
          = Fulfilled (Response_json (JObj [("error", JStr message)]) 500)
    end).
  { rewrite (POST_with_body generateText parsed Hnull).
    assert (Hcaught : forall answer : result generation,
               match answer with
               | Fulfilled result =>
                   exists r,
                     match
                       and_then answer
                         (fun result0 =>
                            Fulfilled
                              (Response_json
                                 (JObj [("text", JStr (text result0));
                                        ("toolCalls",
                                         JArr (concat (steps result0)))])
                                 200))
                     with
                     | Fulfilled r0 => Fulfilled r0
                     | Rejected error => on_error error
                     end = Fulfilled r /\
                     status r = 200%Z /\
                     json_of_body (body r)
                     = Some (JObj [("text", JStr (text result));
                                   ("toolCalls",
                                    JArr (concat (steps result)))])
               | Rejected None | Rejected (Some JNull) =>
                   exists m,
                     match
                       and_then answer
                         (fun result0 =>
                            Fulfilled
                              (Response_json
                                 (JObj [("text", JStr (text result0));
                                        ("toolCalls",
                                         JArr (concat (steps result0)))])
                                 200))
                     with
                     | Fulfilled r0 => Fulfilled r0
                     | Rejected error => on_error error
                     end = Rejected (TypeError m)
               | Rejected (Some error) =>
                   exists r,
                     match
                       and_then answer
                         (fun result0 =>
                            Fulfilled
                              (Response_json
                                 (JObj [("text", JStr (text result0));
                                        ("toolCalls",
                                         JArr (concat (steps result0)))])
                                 200))
                     with
                     | Fulfilled r0 => Fulfilled r0
                     | Rejected error0 => on_error error0
                     end = Fulfilled r /\
                     status r = 500%Z /\
                     json_of_body (body r)
                     = Some (JObj match get_property "message" error with
                                  | Some message => [("error", message)]
                                  | None => []
                                  end)
               end).
    { intros [result|[error|]]; cbn [and_then].
      - eexists. split; [reflexivity|]. split; [reflexivity|].
        apply json_of_Response_json.
      - destruct (json_eq_null error) as [->|Herr];
          [eexists; reflexivity|].
        assert (Hrun : exists r,
                   on_error (Some error) = Fulfilled r /\
                   status r = 500%Z /\
                   json_of_body (body r)
                   = Some (JObj match get_property "message" error with
                                | Some message => [("error", message)]
                                | None => []
                                end)).
        { unfold on_error, and_then.
          rewrite (member_of_object "message" error Herr).
          eexists. split; [reflexivity|]. split; [reflexivity|].
          rewrite json_of_Response_json. unfold property.
          destruct (get_property "message" error); reflexivity. }
        destruct error; try exact Hrun. congruence.
      - eexists. reflexivity. }
    destruct (get_property "repo" parsed) as [[| | |repo| |]|];
      try (eexists; reflexivity).
    destruct (owner_and_name repo)
      as (owner & Howner & [->|(name & rest & Hname & -> & Hrest)]).
    - exists owner, "undefined". split; [exact Howner|].
      split; [left; split; reflexivity|].
      rewrite (attempt_owner_only generateText owner Howner).
      apply Hcaught.
    - exists owner, name. split; [exact Howner|].
      split; [right; exists rest; repeat split; assumption|].
      rewrite (attempt_owner_name generateText owner name rest
                 Howner Hname Hrest).
      apply Hcaught. }
  destruct parsed; [congruence | exact Hgoal ..].
Qed.

End McpClaims.

(** ** The generating-text and repository routes on sample runs *)


Lemma mcp_route_reads_owner_and_name_witness :
  McpDemo.POST MoreSamples.reporting
    (GenerateObjectRoute.with_body
       (JObj [("repo", JStr ("vercel" ++ "/" ++ "ai" ++ "/tree/main"))])) =
  match MoreSamples.reporting
          ("Use the get_repository tool to fetch information about the repository with owner "
             ++ String DQ
                  ("vercel"
                   ++ String DQ
                        (" and repo "
                         ++ String DQ
                              ("ai"
                               ++ String DQ
                                    ". After getting the data, provide a summary with stars, description, main language, and other interesting details."))))%string with
  | GenerateObjectRoute.Fulfilled result =>
      GenerateObjectRoute.Fulfilled
        (Response_json
           (JObj [("text", JStr (McpDemo.text result));
                  ("toolCalls", JArr (concat (McpDemo.steps result)))])
           200)
  | GenerateObjectRoute.Rejected error => McpDemo.on_error error
  end.
Proof.
  apply (mcp_route_reads_owner_and_name MoreSamples.reporting
           (JObj [("repo", JStr ("vercel" ++ "/" ++ "ai" ++ "/tree/main"))])
           "vercel" "ai" "/tree/main").
  - unfold McpDemo.slashless. cbn.
    intros H. repeat (destruct H as [H|H]; [discriminate H|]). exact H.
  - unfold McpDemo.slashless. cbn.
    intros H. repeat (destruct H as [H|H]; [discriminate H|]). exact H.
  - right. eexists. reflexivity.
  - reflexivity.
Defined.

Lemma mcp_route_repo_without_slash_witness :
  McpDemo.POST MoreSamples.reporting
    (GenerateObjectRoute.with_body (JObj [("repo", JStr "ai")])) =
  match MoreSamples.reporting
          ("Use the get_repository tool to fetch information about the repository with owner "
             ++ String DQ
                  ("ai"
                   ++ String DQ
                        (" and repo "
                         ++ String DQ
                              ("undefined"
                               ++ String DQ
                                    ". After getting the data, provide a summary with stars, description, main language, and other interesting details."))))%string with
  | GenerateObjectRoute.Fulfilled result =>
      GenerateObjectRoute.Fulfilled
        (Response_json
           (JObj [("text", JStr (McpDemo.text result));
                  ("toolCalls", JArr (concat (McpDemo.steps result)))])
           200)
  | GenerateObjectRoute.Rejected error => McpDemo.on_error error
  end.
Proof.
  apply (mcp_route_repo_without_slash MoreSamples.reporting
           (JObj [("repo", JStr "ai")]) "ai").
  - unfold McpDemo.slashless. cbn.
    intros H. repeat (destruct H as [H|H]; [discriminate H|]). exact H.
  - reflexivity.
Defined.

Lemma mcp_route_needs_a_string_witness :
  exists message,
    forall generateText,
      McpDemo.POST generateText
        (GenerateObjectRoute.with_body (JObj [("repo", JNum 7)]))
      = GenerateObjectRoute.Fulfilled
          (Response_json (JObj [("error", JStr message)]) 500).
Proof.
  apply (mcp_route_needs_a_string (JObj [("repo", JNum 7)])).
  - discriminate.
  - intros s. discriminate.
Defined.

Lemma mcp_route_returns_the_error_message_witness :
  exists r,
    McpDemo.POST (MoreSamples.failing_with "API key not valid")
      (GenerateObjectRoute.with_body (JObj [("repo", JStr "vercel/ai")]))
    = GenerateObjectRoute.Fulfilled r /\
    status r = 500%Z /\
    json_of_body (body r)
    = Some (JObj match get_property "message"
                         (JObj [("name", JStr "AI_APICallError");
                                ("message", JStr "API key not valid")]) with
                 | Some message => [("error", message)]
                 | None => []
                 end).
Proof.
  apply (mcp_route_returns_the_error_message
           (MoreSamples.failing_with "API key not valid")
           (JObj [("repo", JStr "vercel/ai")])
           ["vercel"; "ai"]
           (JObj [("name", JStr "AI_APICallError");
                  ("message", JStr "API key not valid")])).
  - discriminate.
  - reflexivity.
  - reflexivity.
  - discriminate.
Defined.
